(** * Vendor qualification pipeline: catalog flattener, feature matcher,
      vendor aggregator and ranker.

    Shallow embedding of
      - [src/data_processing/data_loader.py]  (module [DataLoader]),
      - [src/similarity/feature_matcher.py]   (module [FeatureMatcher]),
      - [src/ranking/vendor_ranker.py]        (module [VendorRanker]),
      - [src/api/app.py]                      (module [App]).

    Numbers.  Python floats are represented by exact rationals ([Q]); the
    comparisons [>=], [>], [max], [min] are the ones Python performs, written
    with [Qle_bool].  Rounding, infinities and NaN arithmetic are outside the
    model; the one place where the code meets a NaN on purpose (a missing
    rating read from the product table) has a constructor of its own.

    Libraries that are not part of the repository (scikit-learn's TF-IDF
    vectoriser and cosine similarity, the regular-expression search used by
    pandas' [str.contains], Python's [float()] and [str()] on non-strings)
    are parameters of the definitions that call them. *)

From Stdlib Require Import List String Ascii Bool Arith ZArith QArith Qminmax.
From Stdlib Require Import Lia Lqa Permutation Sorted Morphisms.
Import ListNotations.

Local Open Scope string_scope.
Local Open Scope list_scope.
Set Warnings "-register-all".

(** ** Python primitives *)

Module Py.

(** Python values as they come out of [json.loads] or sit in a pandas object
    column.  [PNaN] is the missing-value marker pandas writes ([np.nan]). *)
Inductive pyval : Type :=
| PNone
| PNaN
| PBool (b : bool)
| PNum (q : Q)
| PStr (s : string)
| PList (items : list pyval)
| PDict (entries : list (string * pyval)).

(** [a < b] on floats. *)
Definition Qltb (a b : Q) : bool := negb (Qle_bool b a).

(** [max(a, b)]: the first argument unless the second is strictly larger. *)
Definition py_max (a b : Q) : Q := if Qltb a b then b else a.

(** [min(a, b)]: the first argument unless the second is strictly smaller. *)
Definition py_min (a b : Q) : Q := if Qltb b a then b else a.

(** [sum(xs)]: left to right, starting from [0]. *)
Definition py_sum (xs : list Q) : Q := fold_left Qplus xs 0%Q.

(** [d.get(k)] on a dict built by [json.loads]: a repeated key keeps the
    value of its last occurrence. *)
Fixpoint dict_get (k : string) (entries : list (string * pyval)) : option pyval :=
  match entries with
  | [] => None
  | (k', v) :: rest =>
      match dict_get k rest with
      | Some v' => Some v'
      | None => if String.eqb k k' then Some v else None
      end
  end.

(** [list(d)]: the distinct keys, in order of first insertion. *)
Fixpoint dict_keys (entries : list (string * pyval)) : list string :=
  match entries with
  | [] => []
  | (k, _) :: rest => k :: filter (fun k' => negb (String.eqb k k')) (dict_keys rest)
  end.

(** [x.get(k, default) if isinstance(x, dict) else other]. *)
Definition get_if_dict (x : pyval) (k : string) (default other : pyval) : pyval :=
  match x with
  | PDict entries =>
      match dict_get k entries with
      | Some v => v
      | None => default
      end
  | _ => other
  end.

(** Truth value of a Python object ([bool(x)]). *)
Definition truthy (v : pyval) : bool :=
  match v with
  | PNone => false
  | PNaN => true
  | PBool b => b
  | PNum q => negb (Qeq_bool q 0)
  | PStr s => negb (String.eqb s "")
  | PList items => match items with [] => false | _ => true end
  | PDict entries => match entries with [] => false | _ => true end
  end.

(** [l.sort(key=key, reverse=True)].  Python's sort is stable, also with
    [reverse=True]: elements with equal keys keep their relative order.
    [insert_desc key x l] puts [x], which preceded every element of [l] in
    the original list, in front of the first element whose key is not
    strictly larger. *)
Fixpoint insert_desc {A : Type} (key : A -> Q) (x : A) (l : list A) : list A :=
  match l with
  | [] => [x]
  | y :: l' => if Qltb (key x) (key y) then y :: insert_desc key x l' else x :: l
  end.

Definition sort_reverse {A : Type} (key : A -> Q) (l : list A) : list A :=
  fold_right (insert_desc key) [] l.

(** [l[:stop]]: a negative [stop] counts from the end, [None] keeps all. *)
Definition slice_to {A : Type} (stop : option Z) (l : list A) : list A :=
  match stop with
  | None => l
  | Some n =>
      if (n <? 0)%Z then firstn (Z.to_nat (Z.of_nat (List.length l) + n)) l
      else firstn (Z.to_nat n) l
  end.

(** [enumerate(l)]. *)
Definition enumerate {A : Type} (l : list A) : list (nat * A) :=
  combine (seq 0 (List.length l)) l.

(** ASCII model of [str.lower()]. *)
Definition lower_ascii (c : ascii) : ascii :=
  let n := nat_of_ascii c in
  if ((65 <=? n) && (n <=? 90))%nat then ascii_of_nat (n + 32) else c.

Fixpoint lower (s : string) : string :=
  match s with
  | EmptyString => EmptyString
  | String c s' => String (lower_ascii c) (lower s')
  end.

(** [pat in s]. *)
Fixpoint contains (pat s : string) : bool :=
  if prefix pat s then true
  else match s with
       | EmptyString => false
       | String _ s' => contains pat s'
       end.

(** Case-insensitive substring containment. *)
Definition contains_ci (pat s : string) : bool := contains (lower pat) (lower s).

(** Characters with a special meaning in a Python regular expression. *)
Definition regex_special (c : ascii) : bool :=
  existsb (Ascii.eqb c)
    (list_ascii_of_string ".^$*+?{}[]\|()").

(** A pattern that [re] reads as a plain literal. *)
Definition regex_plain (pat : string) : bool :=
  forallb (fun c => negb (regex_special c)) (list_ascii_of_string pat).

(** [s.strip()] for ASCII white space. *)
Definition is_space (c : ascii) : bool :=
  let n := nat_of_ascii c in
  ((n =? 32) || ((9 <=? n) && (n <=? 13)) || ((28 <=? n) && (n <=? 31)))%nat.

Fixpoint lstrip (s : string) : string :=
  match s with
  | EmptyString => EmptyString
  | String c s' => if is_space c then lstrip s' else s
  end.

Fixpoint rstrip (s : string) : string :=
  match s with
  | EmptyString => EmptyString
  | String c s' =>
      match rstrip s' with
      | EmptyString => if is_space c then EmptyString else String c EmptyString
      | t => String c t
      end
  end.

Definition strip (s : string) : string := rstrip (lstrip s).

End Py.

(** ** Catalog flattener: [data_loader.py] *)

Module DataLoader.
Import Py.

(** A rating as it is read from the product table or handed to the ranker:
    a number, a missing value (NaN) or a string still to be parsed. *)
Inductive RatingVal : Type :=
| RNum (r : Q)
| RNaN
| RStr (s : string).

(** The [Features] cell of a CSV row, seen through [safe_json_parse]. *)
Inductive FeaturesCell : Type :=
| CellMissing                         (* NaN or None *)
| CellText (parsed : option pyval)    (* a str; [None]: json.loads raised JSONDecodeError *)
| CellOther.                          (* any other non-string value *)

(** One row of the product table ([DataLoader.data]).  Columns the
    pipeline never reads are carried along unchanged by pandas and are left
    out. *)
Record Product : Type := mkProduct {
  product_name : string;
  seller : string;
  main_category : option string;      (* [None]: missing / not a string *)
  rating : RatingVal;
  Features : FeaturesCell
}.

(** One row of [DataLoader.preprocessed_dataset]. *)
Record FlatRow : Type := mkFlatRow {
  product : Product;
  Features_Category : pyval;
  Feature_name : pyval;
  Feature_description : pyval;
  Feature_percent : pyval;
  Feature_review : pyval
}.

Definition safe_json_parse (x : FeaturesCell) : pyval :=
  match x with
  | CellMissing => PNone
  | CellText (Some v) => v
  | CellText None => PNone
  | CellOther => PNone
  end.

(** [Series.notna()]. *)
Definition notna (v : pyval) : bool :=
  match v with
  | PNone | PNaN => false
  | _ => true
  end.

(** What [Series.explode] makes of one cell: a non-empty list-like gives its
    elements (a dict its keys), an empty list-like gives one NaN, a scalar is
    kept as it is. *)
Definition explode_cell (v : pyval) : list pyval :=
  match v with
  | PList [] => [PNaN]
  | PList items => items
  | PDict [] => [PNaN]
  | PDict entries => map PStr (dict_keys entries)
  | _ => [v]
  end.

(** [df.explode(column)]: every row is repeated once per exploded cell
    value, the other columns being copied. *)
Definition explode {R R' : Type} (cell : R -> pyval) (put : R -> pyval -> R')
    (df : list R) : list R' :=
  flat_map (fun r => map (put r) (explode_cell (cell r))) df.

(** The frame after the first explode and the two [apply] calls of lines
    69-74: product columns, [Features_Category], [Features_list]. *)
Definition category_row (r : Product * pyval) : Product * pyval * pyval :=
  (fst r,
   get_if_dict (snd r) "Category" PNone PNone,
   get_if_dict (snd r) "features" (PList []) (PList [])).

(** Lines 83-97: the four feature columns of one exploded row. *)
Definition feature_row (r : Product * pyval) (x : pyval) : FlatRow :=
  {| product := fst r;
     Features_Category := snd r;
     Feature_name := get_if_dict x "name" (PStr "") (PStr "");
     Feature_description := get_if_dict x "description" (PStr "") (PStr "");
     Feature_percent := get_if_dict x "percent" (PNum 0) (PNum 0);
     Feature_review := get_if_dict x "review" (PNum 0) (PNum 0) |}.

Definition preprocess_data (data : list Product) : list FlatRow :=
  let df := map (fun p => (p, safe_json_parse (Features p))) data in
  let df_with_features := filter (fun r => notna (snd r)) df in
  if (List.length df_with_features =? 0)%nat then
    map (fun r => mkFlatRow (fst r) PNone PNone PNone PNone PNone) df
  else
    let df_exploded :=
      explode (fun r : Product * pyval => snd r) (fun r v => (fst r, v))
        df_with_features in
    let df_exploded := map category_row df_exploded in
    let df_exploded2 :=
      explode (fun r : Product * pyval * pyval => snd r)
        (fun r v => (fst r, v)) df_exploded in
    map (fun r : Product * pyval * pyval =>
           feature_row (fst r) (snd r)) df_exploded2.

End DataLoader.

(** ** Similarity engine and vendor aggregator: [feature_matcher.py] *)

Module FeatureMatcher.
Import Py.
Import DataLoader.

(** A dense [numpy] matrix: its shape and its entries. *)
Record Matrix : Type := mkMatrix {
  n_rows : nat;
  n_cols : nat;
  entry : nat -> nat -> Q
}.

Definition size (M : Matrix) : nat := n_rows M * n_cols M.

(** [np.array([])]. *)
Definition empty_array : Matrix := mkMatrix 0 0 (fun _ _ => 0%Q).

(** [np.zeros((n, m))]. *)
Definition zeros (n m : nat) : Matrix := mkMatrix n m (fun _ _ => 0%Q).

(** One element of the list [find_matching_features] returns. *)
Record Match : Type := mkMatch {
  m_product_name : string;
  m_vendor : string;
  m_main_category : option string;
  m_feature_category : pyval;
  m_feature_name : pyval;
  m_feature_description : pyval;
  m_feature_percent : pyval;
  m_feature_review_count : pyval;
  matched_capability : string;
  similarity_score : Q;
  feature_text : string
}.

(** One element of a vendor's ['matching_features'] list. *)
Record FeatureDetail : Type := mkFeatureDetail {
  fd_feature_category : pyval;
  fd_feature_name : pyval;
  fd_feature_description : pyval;
  fd_feature_percent : pyval;
  fd_feature_review_count : pyval;
  fd_matched_capability : string;
  fd_similarity_score : Q
}.

(** The per-vendor dict built by [select_matching_vendors].  The key
    ['rating'] is absent until the endpoint attaches it.
    [matched_capabilities] is a Python set (turned into a list at the end);
    the model keeps its elements in order of first insertion. *)
Record VendorData : Type := mkVendorData {
  vd_product_name : string;
  vd_vendor : string;
  vd_main_category : option string;
  matching_features : list FeatureDetail;
  matched_capabilities : list string;
  max_similarity_score : Q;
  avg_similarity_score : Q;
  total_matches : nat;
  rating : option RatingVal
}.

(** A [dict] from vendor keys to vendor data, in insertion order. *)
Definition VendorDict : Type := list (string * VendorData).

Fixpoint dict_mem (k : string) (d : VendorDict) : bool :=
  match d with
  | [] => false
  | (k', _) :: d' => String.eqb k k' || dict_mem k d'
  end.

(** [d[k] = f(d[k])] for a key that is present: the entry keeps its place. *)
Fixpoint dict_update (k : string) (f : VendorData -> VendorData) (d : VendorDict)
  : VendorDict :=
  match d with
  | [] => []
  | (k', v) :: d' =>
      if String.eqb k k' then (k', f v) :: d' else (k', v) :: dict_update k f d'
  end.

(** [s.add(x)] on a set kept in insertion order. *)
Definition set_add (x : string) (s : list string) : list string :=
  if existsb (String.eqb x) s then s else s ++ [x].

(** What [filter_vendors_by_category_and_capabilities] returns.  The key
    ['raw_matches'] is absent from the early return for an empty frame. *)
Record MatchingResults : Type := mkMatchingResults {
  matching_vendors : VendorDict;
  total_vendors : nat;
  mr_total_matches : nat;
  capabilities_searched : list string;
  category_searched : string;
  mr_similarity_threshold : Q;
  raw_matches : option (list Match)
}.

Section Matcher.

(** [str(x)] for numbers, lists and dicts. *)
Variable py_repr : pyval -> string.

(** [TfidfVectorizer.fit_transform] on [capabilities + feature_texts]
    followed by [cosine_similarity] of the two blocks: the entries of the
    resulting [len(capabilities) x len(feature_texts)] matrix, or [None] when
    either call raises. *)
Variable tfidf_cosine : list string -> list string -> option (nat -> nat -> Q).

(** [re.compile(pat, re.IGNORECASE)] and the compiled pattern's [search]:
    [None] when the pattern is not a valid regular expression. *)
Variable re_compile_ci : string -> option (string -> bool).

Definition str_of (v : pyval) : string :=
  match v with
  | PStr s => s
  | PNone => "None"
  | PNaN => "nan"
  | PBool true => "True"
  | PBool false => "False"
  | _ => py_repr v
  end.

(** [str(x) if x and str(x) != 'nan' else ""]. *)
Definition str_or_empty (x : pyval) : string :=
  if truthy x && negb (String.eqb (str_of x) "nan") then str_of x else "".

Definition _prepare_feature_text (feature_name feature_description : pyval) : string :=
  let name := str_or_empty feature_name in
  let desc := str_or_empty feature_description in
  let combined_text := strip (name ++ " " ++ name ++ " " ++ desc) in
  if String.eqb combined_text "" then "unknown feature" else combined_text.

Definition compute_similarity_matrix (capabilities feature_texts : list string)
  : Matrix :=
  match capabilities, feature_texts with
  | [], _ => empty_array
  | _, [] => empty_array
  | _, _ =>
      match tfidf_cosine capabilities feature_texts with
      | Some e => mkMatrix (List.length capabilities) (List.length feature_texts) e
      | None => zeros (List.length capabilities) (List.length feature_texts)
      end
  end.

(** The dict built at lines 116-128 for one capability and one row. *)
Definition make_match (capability : string) (feature_row : FlatRow)
    (score : Q) (text : string) : Match :=
  {| m_product_name := product_name (product feature_row);
     m_vendor := seller (product feature_row);
     m_main_category := main_category (product feature_row);
     m_feature_category := Features_Category feature_row;
     m_feature_name := Feature_name feature_row;
     m_feature_description := Feature_description feature_row;
     m_feature_percent := Feature_percent feature_row;
     m_feature_review_count := Feature_review feature_row;
     matched_capability := capability;
     similarity_score := score;
     feature_text := text |}.

Definition feature_texts_of (features_df : list FlatRow) : list string :=
  map (fun row => _prepare_feature_text (Feature_name row) (Feature_description row))
      features_df.

Definition find_matching_features (similarity_threshold : Q)
    (capabilities : list string) (features_df : list FlatRow) : list Match :=
  match features_df, capabilities with
  | [], _ => []
  | _, [] => []
  | _, _ =>
      let feature_texts := feature_texts_of features_df in
      let similarity_matrix := compute_similarity_matrix capabilities feature_texts in
      if (size similarity_matrix =? 0)%nat then []
      else
        let matches :=
          flat_map (fun ic : nat * string =>
            flat_map (fun jr : nat * FlatRow =>
              let s := entry similarity_matrix (fst ic) (fst jr) in
              if Qle_bool similarity_threshold s
              then [make_match (snd ic) (snd jr) s (nth (fst jr) feature_texts "")]
              else [])
              (enumerate features_df))
            (enumerate capabilities) in
        sort_reverse similarity_score matches
  end.

Definition vendor_key (m : Match) : string :=
  m_product_name m ++ "_" ++ m_vendor m.

(** Lines 153-162: the entry created for a vendor seen for the first time. *)
Definition new_vendor (m : Match) : VendorData :=
  {| vd_product_name := m_product_name m;
     vd_vendor := m_vendor m;
     vd_main_category := m_main_category m;
     matching_features := [];
     matched_capabilities := [];
     max_similarity_score := 0;
     avg_similarity_score := 0;
     total_matches := 0;
     rating := None |}.

(** Lines 165-181: one match folded into its vendor's entry. *)
Definition record_match (m : Match) (v : VendorData) : VendorData :=
  {| vd_product_name := vd_product_name v;
     vd_vendor := vd_vendor v;
     vd_main_category := vd_main_category v;
     matching_features :=
       matching_features v ++
       [mkFeatureDetail (m_feature_category m) (m_feature_name m)
          (m_feature_description m) (m_feature_percent m)
          (m_feature_review_count m) (matched_capability m) (similarity_score m)];
     matched_capabilities := set_add (matched_capability m) (matched_capabilities v);
     max_similarity_score := py_max (max_similarity_score v) (similarity_score m);
     avg_similarity_score := avg_similarity_score v;
     total_matches := total_matches v + 1;
     rating := rating v |}.

(** One iteration of the loop at line 149. *)
Definition add_match (vendors : VendorDict) (m : Match) : VendorDict :=
  let k := vendor_key m in
  let vendors := if dict_mem k vendors then vendors else vendors ++ [(k, new_vendor m)] in
  dict_update k (record_match m) vendors.

(** Lines 184-188. *)
Definition set_average (v : VendorData) : VendorData :=
  if (0 <? total_matches v)%nat then
    {| vd_product_name := vd_product_name v;
       vd_vendor := vd_vendor v;
       vd_main_category := vd_main_category v;
       matching_features := matching_features v;
       matched_capabilities := matched_capabilities v;
       max_similarity_score := max_similarity_score v;
       avg_similarity_score :=
         (py_sum (map fd_similarity_score (matching_features v))
          / inject_Z (Z.of_nat (total_matches v)))%Q;
       total_matches := total_matches v;
       rating := rating v |}
  else v.

Definition select_matching_vendors (matches : list Match) : VendorDict :=
  map (fun kv => (fst kv, set_average (snd kv))) (fold_left add_match matches []).

(** Lines 211-216.  [None]: [str.contains] raised because the category is
    not a valid regular expression. *)
Definition category_filter (software_category : string) (dataframe : list FlatRow)
  : option (list FlatRow) :=
  if negb (String.eqb software_category "")
     && negb (String.eqb (lower software_category) "all")
  then
    match re_compile_ci software_category with
    | Some search =>
        Some (filter (fun row =>
                match main_category (product row) with
                | Some c => search c
                | None => false
                end) dataframe)
    | None => None
    end
  else Some dataframe.

Definition filter_vendors_by_category_and_capabilities (similarity_threshold : Q)
    (dataframe : list FlatRow) (software_category : string)
    (capabilities : list string) : option MatchingResults :=
  match category_filter software_category dataframe with
  | None => None
  | Some [] =>
      Some (mkMatchingResults [] 0 0 capabilities software_category
              similarity_threshold None)
  | Some category_filtered =>
      let matches :=
        find_matching_features similarity_threshold capabilities category_filtered in
      let vendors := select_matching_vendors matches in
      Some (mkMatchingResults vendors (List.length vendors) (List.length matches)
              capabilities software_category similarity_threshold (Some matches))
  end.

End Matcher.

End FeatureMatcher.

(** ** Ranker: [vendor_ranker.py] *)

Module VendorRanker.
Import Py.
Import DataLoader.
Import FeatureMatcher.

(** One element of the list [rank_vendors] returns. *)
Record VendorResult : Type := mkVendorResult {
  vr_vendor_key : string;
  vr_product_name : string;
  vr_vendor : string;
  vr_main_category : option string;
  rank_score : Q;
  vr_max_similarity_score : Q;
  vr_avg_similarity_score : Q;
  vr_total_matches : nat;
  vr_matched_capabilities : list string;
  vr_matching_features : list FeatureDetail;
  vr_rating : RatingVal
}.

Section Ranker.

(** [float(s)] on a string: [None] when it raises [ValueError]. *)
Variable py_float : string -> option Q.

(** [self.feature_weight], [self.rating_weight]. *)
Variables feature_weight rating_weight : Q.

(** Lines 41-46: the rating as a number; [None] stands for NaN. *)
Definition numeric_rating (vendor_data : VendorData) : option Q :=
  match rating vendor_data with
  | None => Some 0%Q                       (* .get('rating', 0.0) *)
  | Some (RNum r) => Some r
  | Some RNaN => None
  | Some (RStr s) =>
      match py_float s with
      | Some r => Some r
      | None => Some 0%Q
      end
  end.

Definition compute_rank_score (vendor_data : VendorData)
    (similarity_score : option Q) : Q :=
  let sim_score :=
    match similarity_score with
    | Some s => s
    | None => avg_similarity_score vendor_data
    end in
  let sim_score := py_max 0 (py_min 1 sim_score) in
  let normalized_rating :=
    match numeric_rating vendor_data with
    | Some r => if Qltb 0 r then (r / 5)%Q else 0%Q
    | None => 0%Q                          (* NaN > 0 is False *)
    end in
  let normalized_rating := py_max 0 (py_min 1 normalized_rating) in
  (feature_weight * sim_score + rating_weight * normalized_rating)%Q.

(** Lines 73-92: the result dict built for one item of [vendors_dict]. *)
Definition vendor_result (item : string * VendorData) : VendorResult :=
  let vendor_data := snd item in
  {| vr_vendor_key := fst item;
     vr_product_name := vd_product_name vendor_data;
     vr_vendor := vd_vendor vendor_data;
     vr_main_category := vd_main_category vendor_data;
     rank_score := compute_rank_score vendor_data None;
     vr_max_similarity_score := max_similarity_score vendor_data;
     vr_avg_similarity_score := avg_similarity_score vendor_data;
     vr_total_matches := total_matches vendor_data;
     vr_matched_capabilities := matched_capabilities vendor_data;
     vr_matching_features := matching_features vendor_data;
     vr_rating := match rating vendor_data with Some r => r | None => RNum 0 end |}.

Definition rank_vendors (vendors_dict : VendorDict) (top_n : option Z)
  : list VendorResult :=
  match vendors_dict with
  | [] => []
  | _ =>
      let ranked_vendors := map vendor_result vendors_dict in
      let ranked_vendors := sort_reverse rank_score ranked_vendors in
      slice_to top_n ranked_vendors
  end.

End Ranker.

End VendorRanker.

(** ** The qualification endpoint: [app.py] *)

Module App.
Import Py.
Import DataLoader.
Import FeatureMatcher.
Import VendorRanker.

Record VendorQuery : Type := mkVendorQuery {
  software_category : string;
  capabilities : list string;
  similarity_threshold : option Q;
  top_n : option Z;
  include_explanations : option bool
}.

(** The mutable state the endpoint shares between requests: the
    [similarity_threshold] attribute of the module-level [feature_matcher]. *)
Record AppState : Type := mkAppState {
  matcher_threshold : Q
}.

(** Line 33: [FeatureMatcher(similarity_threshold=0.5)]. *)
Definition initial_state : AppState := mkAppState (1 # 2).

(** What the endpoint answers.  The explanation and summary blocks of the
    payload, derived from [ranked_vendors] without feeding back into it,
    are left out; the exception the explanation step can raise is not. *)
Inductive Response : Type :=
| InternalServerError
| NoVendors (summary : MatchingResults)
| Qualified (ranked_vendors : list VendorResult)
            (total_qualified_vendors returned_vendors : nat)
            (similarity_threshold_used : Q).

(** Truth value of an [Optional[float]]. *)
Definition threshold_truthy (t : option Q) : bool :=
  match t with
  | Some q => negb (Qeq_bool q 0)
  | None => false
  end.

(** Truth value of an [Optional[bool]]. *)
Definition flag_truthy (b : option bool) : bool :=
  match b with
  | Some true => true
  | _ => false
  end.

(** Lines 121-122: [add_ranking_explanation] evaluates [rating > 0] for
    every ranked vendor, which raises [TypeError] when the rating is a
    string. *)
Definition explanation_raises (ranked_vendors : list VendorResult) : bool :=
  existsb (fun v => match vr_rating v with RStr _ => true | _ => false end)
          ranked_vendors.

(** Lines 73-74. *)
Definition update_threshold (st : AppState) (query : VendorQuery) : AppState :=
  match similarity_threshold query with
  | Some q => if threshold_truthy (Some q) then mkAppState q else st
  | None => st
  end.

Section Endpoint.

Variable py_repr : pyval -> string.
Variable tfidf_cosine : list string -> list string -> option (nat -> nat -> Q).
Variable re_compile_ci : string -> option (string -> bool).
Variable py_float : string -> option Q.

(** The module-level [data_loader]: the product table, or [None] when
    loading failed at start-up. *)
Variable data_loader : option (list Product).

(** Lines 104-115: the rating of the first product row with that name. *)
Definition attach_rating (data : list Product) (item : string * VendorData)
  : string * VendorData :=
  let vendor_data := snd item in
  let original_data :=
    filter (fun p => String.eqb (product_name p) (vd_product_name vendor_data)) data in
  let r :=
    match original_data with
    | p :: _ => DataLoader.rating p
    | [] => RNum 0
    end in
  (fst item,
   {| vd_product_name := vd_product_name vendor_data;
      vd_vendor := vd_vendor vendor_data;
      vd_main_category := vd_main_category vendor_data;
      matching_features := matching_features vendor_data;
      matched_capabilities := matched_capabilities vendor_data;
      max_similarity_score := max_similarity_score vendor_data;
      avg_similarity_score := avg_similarity_score vendor_data;
      total_matches := total_matches vendor_data;
      FeatureMatcher.rating := Some r |}).

(** One request: the answer and the state left behind.  The ranker is the
    module-level [VendorRanker(feature_weight=0.7, rating_weight=0.3)]. *)
Definition qualify_vendors (st : AppState) (query : VendorQuery)
  : Response * AppState :=
  match data_loader with
  | None => (InternalServerError, st)
  | Some data =>
      let st := update_threshold st query in
      match
        filter_vendors_by_category_and_capabilities py_repr tfidf_cosine
          re_compile_ci (matcher_threshold st) (preprocess_data data)
          (software_category query) (capabilities query)
      with
      | None => (InternalServerError, st)
      | Some matching_results =>
          match matching_vendors matching_results with
          | [] => (NoVendors matching_results, st)
          | vendors =>
              let enhanced_vendors := map (attach_rating data) vendors in
              let ranked_vendors :=
                rank_vendors py_float (7 # 10) (3 # 10) enhanced_vendors
                  (top_n query) in
              if flag_truthy (include_explanations query)
                 && explanation_raises ranked_vendors
              then (InternalServerError, st)
              else
                (Qualified ranked_vendors (List.length enhanced_vendors)
                   (List.length ranked_vendors)
                   (mr_similarity_threshold matching_results), st)
          end
      end
  end.

(** A sequence of requests served one after the other by the same process:
    the answers, oldest first, and the final state. *)
Fixpoint serve (st : AppState) (queries : list VendorQuery)
  : list Response * AppState :=
  match queries with
  | [] => ([], st)
  | q :: rest =>
      let (r, st') := qualify_vendors st q in
      let (rs, st'') := serve st' rest in
      (r :: rs, st'')
  end.

End Endpoint.

End App.

(** ** Reference notions the statements below compare the code with *)

Module Spec.
Import Py.
Import DataLoader.
Import FeatureMatcher.
Import VendorRanker.

(** [clamp lo hi x]: [x] brought back into the interval [[lo, hi]]. *)
Definition clamp (lo hi x : Q) : Q :=
  if Qltb x lo then lo else if Qltb hi x then hi else x.

(** The rating term of the rank score: [rating / 5] clamped to [[0, 1]] for
    a positive rating, [0] otherwise (a NaN rating, [None], is not positive). *)
Definition rating_norm (rating : option Q) : Q :=
  match rating with
  | Some r => if Qltb 0 r then clamp 0 1 (r / 5) else 0
  | None => 0
  end%Q.

(** The rank score as the specification writes it. *)
Definition rank_score_spec (feature_weight rating_weight avg_sim : Q)
    (rating : option Q) : Q :=
  (feature_weight * clamp 0 1 avg_sim + rating_weight * rating_norm rating)%Q.



(** Keys in descending order: every element is at least as large as all
    the elements after it. *)
Definition descending {A : Type} (key : A -> Q) (l : list A) : Prop :=
  StronglySorted (fun a b => key b <= key a)%Q l.

(** The matches of a list that belong to the vendor key [k], in order. *)
Definition matches_of (k : string) (matches : list Match) : list Match :=
  filter (fun m => String.eqb (vendor_key m) k) matches.

(** The match every pair (capability [i], row [j]) would give, whatever the
    threshold: capabilities in the outer loop, rows in the inner one, with
    the entry [i, j] of the similarity matrix as score. *)
Definition candidates (py_repr : pyval -> string)
    (tfidf_cosine : list string -> list string -> option (nat -> nat -> Q))
    (capabilities : list string) (features_df : list FlatRow) : list Match :=
  let texts := feature_texts_of py_repr features_df in
  let M := compute_similarity_matrix tfidf_cosine capabilities texts in
  flat_map (fun ic : nat * string =>
    map (fun jr : nat * FlatRow =>
           make_match (snd ic) (snd jr) (entry M (fst ic) (fst jr))
             (nth (fst jr) texts ""))
        (enumerate features_df))
    (enumerate capabilities).


(** The rows the flattener derives from one element [g] of a product's
    exploded [Features] cell: its category and its exploded feature list. *)
Definition group_rows (p : Product) (g : pyval) : list FlatRow :=
  map (feature_row (p, get_if_dict g "Category" PNone PNone))
      (explode_cell (get_if_dict g "features" (PList []) (PList []))).

(** The row written for a group without features: empty name and
    description, zero percent and review count. *)
Definition placeholder_row (p : Product) (category : pyval) : FlatRow :=
  mkFlatRow p category (PStr "") (PStr "") (PNum 0) (PNum 0).

Definition has_features (p : Product) : bool :=
  notna (safe_json_parse (Features p)).

(** The threshold the shared matcher holds after a history of requests,
    read from the most recent request backwards: the latest threshold that
    is neither absent nor zero, [0.5] when there is none. *)
Fixpoint most_recent_nonzero (newest_first : list App.VendorQuery) : Q :=
  match newest_first with
  | [] => 1 # 2
  | q :: older =>
      match App.similarity_threshold q with
      | Some t => if Qeq_bool t 0 then most_recent_nonzero older else t
      | None => most_recent_nonzero older
      end
  end.

(** The threshold an answer reports as used, if it reports one. *)
Definition threshold_used (r : App.Response) : option Q :=
  match r with
  | App.InternalServerError => None
  | App.NoVendors summary => Some (mr_similarity_threshold summary)
  | App.Qualified _ _ _ t => Some t
  end.

End Spec.

(** ** Sample data and sample instances of the library parameters *)

Module Sample.
Import Py.
Import DataLoader.
Import FeatureMatcher.
Import VendorRanker.

Definition sample_repr (v : pyval) : string := "?".

(** A stand-in for the float formatters. *)
Definition sample_fmt (x : Q) : string := "?".

Definition sample_float (s : string) : option Q :=
  if String.eqb s "4.5" then Some (9 # 2) else None.

(** A toy similarity: [1] when the capability occurs in the feature text,
    [1/4] otherwise. *)
Definition sample_cosine (capabilities texts : list string)
  : option (nat -> nat -> Q) :=
  Some (fun i j =>
          if contains_ci (nth i capabilities "") (nth j texts "") then 1 else 1 # 4).

(** A vectoriser that always raises. *)
Definition failing_cosine (capabilities texts : list string)
  : option (nat -> nat -> Q) := None.

(** Regular expressions restricted to plain literals. *)
Definition literal_compile (pat : string) : option (string -> bool) :=
  if regex_plain pat then Some (contains_ci pat) else None.

Definition feature (name description : string) : pyval :=
  PDict [("name", PStr name); ("description", PStr description);
         ("percent", PNum 90); ("review", PNum 12)].

Definition crm : Product :=
  mkProduct "Acme CRM" "Acme" (Some "CRM Software") (RNum 4)
    (CellText (Some (PList
       [PDict [("Category", PStr "Sales");
               ("features", PList [feature "Lead Management" "track leads";
                                   feature "Email Marketing" "send campaigns"])]]))).

Definition erp : Product :=
  mkProduct "Bolt ERP" "Bolt" (Some "ERP Systems") RNaN
    (CellText (Some (PList
       [PDict [("Category", PStr "Finance");
               ("features", PList [feature "Invoicing" "lead management of invoices"])]]))).

Definition catalog : list Product := [crm; erp].

(** A product whose only feature group has an empty feature list. *)
Definition empty_group_product : Product :=
  mkProduct "Void" "Nil" (Some "CRM Software") (RNum 3)
    (CellText (Some (PList [PDict [("Category", PStr "Sales"); ("features", PList [])]]))).

Definition crm_row : FlatRow :=
  mkFlatRow crm (PStr "Sales") (PStr "Lead Management") (PStr "track leads")
    (PNum 90) (PNum 12).

Definition query (threshold : option Q) : App.VendorQuery :=
  App.mkVendorQuery "CRM" ["lead management"] threshold (Some 10%Z) None.

Definition match_of (name vendor : string) (score : Q) : Match :=
  mkMatch name vendor (Some "CRM Software") (PStr "Sales") (PStr "Lead Management")
    (PStr "") (PNum 0) (PNum 0) "Lead Management" score "Lead Management".

Definition vendor_of (name : string) (avg : Q) (r : RatingVal) : string * VendorData :=
  ((name ++ "_v")%string, mkVendorData name "v" None [] [] avg avg 1 (Some r)).

End Sample.

(** ** Catalog queries: the remaining methods of [data_loader.py] *)

Module DataLoaderQueries.
Import Py.
Import DataLoader.

(** Lines 101-113: rows whose [main_category] equals [category]. *)
Definition get_vendors_by_category (preprocessed_dataset : list FlatRow)
    (category : string) : list FlatRow :=
  filter (fun row =>
            match main_category (product row) with
            | Some c => String.eqb c category
            | None => false
            end) preprocessed_dataset.

(** Lines 115-128: the non-missing feature names of one product. *)
Definition get_vendor_features (preprocessed_dataset : list FlatRow)
    (vendor_name : string) : list pyval :=
  let vendor_data :=
    filter (fun row => String.eqb (product_name (product row)) vendor_name)
      preprocessed_dataset in
  filter notna (map Feature_name vendor_data).

(** [Series.isin(values)] for a list of strings. *)
Definition isin (v : pyval) (values : list string) : bool :=
  match v with
  | PStr s => existsb (String.eqb s) values
  | _ => false
  end.

(** Lines 130-142. *)
Definition get_vendors_by_features (preprocessed_dataset : list FlatRow)
    (features : list string) : list FlatRow :=
  filter (fun row => isin (Feature_name row) features) preprocessed_dataset.

End DataLoaderQueries.

(** ** The older matcher methods of [feature_matcher.py] (lines 246-294) *)

Module LegacyMatcher.
Import Py.
Import DataLoader.
Import FeatureMatcher.

(** The entries of a matrix, row by row. *)
Definition entries (M : Matrix) : list Q :=
  flat_map (fun i => map (entry M i) (seq 0 (n_cols M))) (seq 0 (n_rows M)).

(** [np.max(M)]; [None]: [ValueError] on an array without entries. *)
Definition np_max (M : Matrix) : option Q :=
  match entries M with
  | [] => None
  | x :: xs => Some (fold_left py_max xs x)
  end.

(** The ['features'] entry of a vendor dict: absent, one string, or a list
    of strings. *)
Inductive FeaturesField : Type :=
| FeaturesMissing
| FeaturesText (s : string)
| FeaturesList (l : list string).

Section Legacy.

Variable tfidf_cosine : list string -> list string -> option (nat -> nat -> Q).

(** [None]: the call raises. *)
Definition compute_similarity (vendor_features query_features : list string)
  : option Q :=
  match vendor_features, query_features with
  | [], _ => Some 0%Q
  | _, [] => Some 0%Q
  | _, _ =>
      let similarity_matrix :=
        compute_similarity_matrix tfidf_cosine query_features vendor_features in
      if (size similarity_matrix =? 0)%nat then Some 0%Q
      else np_max similarity_matrix
  end.

Context {Vendor : Type}.

(** [vendor.get('features', [])]. *)
Variable features : Vendor -> FeaturesField.

Definition features_list (vendor : Vendor) : list string :=
  match features vendor with
  | FeaturesMissing => []
  | FeaturesText s => [s]
  | FeaturesList l => l
  end.

(** The vendors kept, each paired with the ['similarity_score'] written
    into its copy. *)
Fixpoint filter_by_similarity (similarity_threshold : Q) (vendors : list Vendor)
    (query_features : list string) : option (list (Vendor * Q)) :=
  match vendors with
  | [] => Some []
  | vendor :: rest =>
      match compute_similarity (features_list vendor) query_features with
      | None => None
      | Some similarity_score =>
          match filter_by_similarity similarity_threshold rest query_features with
          | None => None
          | Some filtered_vendors =>
              Some (if Qle_bool similarity_threshold similarity_score
                    then (vendor, similarity_score) :: filtered_vendors
                    else filtered_vendors)
          end
      end
  end.

End Legacy.

End LegacyMatcher.

(** ** Explanations and summary: the remaining methods of [vendor_ranker.py] *)

Module RankerReport.
Import Py.
Import DataLoader.
Import FeatureMatcher.
Import VendorRanker.

(** The ['ranking_methodology'] dict of an explanation. *)
Record Methodology : Type := mkMethodology {
  rm_feature_weight : Q;
  rm_rating_weight : Q;
  similarity_component : Q;
  rating_component : Q;
  final_score : Q
}.

Record Explanation : Type := mkExplanation {
  ranking_methodology : Methodology;
  score_breakdown : string
}.

(** What [get_ranking_summary] returns.  [description] and [top_vendor] are
    absent from the summary of an empty list. *)
Record RankingSummary : Type := mkRankingSummary {
  rs_total_vendors : nat;
  score_min : Q;
  score_max : Q;
  avg_score : Q;
  rs_feature_weight : Q;
  rs_rating_weight : Q;
  description : option string;
  top_vendor : option (string * Q)
}.

Section Report.

(** [f"{x}"] and [f"{x:.3f}"] for a float. *)
Variable fmt_float : Q -> string.
Variable fmt_3f : Q -> string.

Variables feature_weight rating_weight : Q.

(** Lines 151-164 for one vendor.  [None]: [rating > 0] raises [TypeError]
    for a string. *)
Definition explain (vendor : VendorResult) : option Explanation :=
  let sim_score := vr_avg_similarity_score vendor in
  match vr_rating vendor with
  | RStr _ => None
  | rating =>
      let normalized_rating :=
        match rating with
        | RNum r => if Qltb 0 r then (r / 5)%Q else 0%Q
        | _ => 0%Q
        end in
      Some {| ranking_methodology :=
                {| rm_feature_weight := feature_weight;
                   rm_rating_weight := rating_weight;
                   similarity_component := (sim_score * feature_weight)%Q;
                   rating_component := (normalized_rating * rating_weight)%Q;
                   final_score := rank_score vendor |};
              score_breakdown :=
                "Rank Score = (" ++ fmt_float feature_weight ++ " * "
                ++ fmt_3f sim_score ++ ") + (" ++ fmt_float rating_weight
                ++ " * " ++ fmt_3f normalized_rating ++ ") = "
                ++ fmt_3f (rank_score vendor) |}
  end.

(** The vendors with their ['ranking_explanation']; [None] when the loop
    raises. *)
Fixpoint add_ranking_explanation (ranked_vendors : list VendorResult)
  : option (list (VendorResult * Explanation)) :=
  match ranked_vendors with
  | [] => Some []
  | vendor :: rest =>
      match explain vendor with
      | None => None
      | Some explanation =>
          match add_ranking_explanation rest with
          | None => None
          | Some explained => Some ((vendor, explanation) :: explained)
          end
      end
  end.

(** [avg_score] is the quotient [sum(scores) / len(scores)] before
    rounding; the float the code returns can differ from it in the last
    place, and from [min(scores)] when all scores are equal. *)
Definition get_ranking_summary (ranked_vendors : list VendorResult)
  : RankingSummary :=
  match map rank_score ranked_vendors with
  | [] =>
      mkRankingSummary 0 0 0 0 feature_weight rating_weight None None
  | s :: scores =>
      {| rs_total_vendors := List.length ranked_vendors;
         score_min := fold_left py_min scores s;
         score_max := fold_left py_max scores s;
         avg_score :=
           (py_sum (s :: scores)
            / inject_Z (Z.of_nat (List.length (s :: scores))))%Q;
         rs_feature_weight := feature_weight;
         rs_rating_weight := rating_weight;
         description :=
           Some ("Final score = " ++ fmt_float feature_weight
                 ++ " * similarity_score + " ++ fmt_float rating_weight
                 ++ " * normalized_rating")%string;
         top_vendor :=
           match ranked_vendors with
           | v :: _ => Some (vr_product_name v, rank_score v)
           | [] => None
           end |}
  end.

End Report.

End RankerReport.

(** ** The listing endpoints of [app.py] *)

Module AppListing.
Import Py.
Import DataLoader.

(** One record of the ['vendors'] list of [GET /vendors], after
    [fillna(0)]. *)
Record VendorRecord : Type := mkVendorRecord {
  vl_product_name : string;
  vl_seller : string;
  vl_rating : RatingVal;
  vl_main_category : pyval
}.

(** Equality of ratings as [drop_duplicates] sees it: floats by value,
    missing values equal to each other. *)
Definition rating_eqb (a b : RatingVal) : bool :=
  match a, b with
  | RNum x, RNum y => Qeq_bool x y
  | RNaN, RNaN => true
  | RStr s, RStr t => String.eqb s t
  | _, _ => false
  end.

Definition category_eqb (a b : option string) : bool :=
  match a, b with
  | Some s, Some t => String.eqb s t
  | None, None => true
  | _, _ => false
  end.

(** Two rows agree on [product_name], [seller], [rating], [main_category]. *)
Definition same_vendor (a b : Product) : bool :=
  String.eqb (product_name a) (product_name b)
  && String.eqb (seller a) (seller b)
  && rating_eqb (rating a) (rating b)
  && category_eqb (main_category a) (main_category b).

(** [df.drop_duplicates()]: a row is kept unless an earlier row equals it. *)
Fixpoint drop_duplicates_from (seen rows : list Product) : list Product :=
  match rows with
  | [] => []
  | p :: rest =>
      if existsb (same_vendor p) seen then drop_duplicates_from seen rest
      else p :: drop_duplicates_from (p :: seen) rest
  end.

Definition drop_duplicates (rows : list Product) : list Product :=
  drop_duplicates_from [] rows.

(** [fillna(0).to_dict('records')] for one row. *)
Definition to_record (p : Product) : VendorRecord :=
  {| vl_product_name := product_name p;
     vl_seller := seller p;
     vl_rating := match rating p with RNaN => RNum 0 | r => r end;
     vl_main_category :=
       match main_category p with Some c => PStr c | None => PNum 0 end |}.

(** Equality of the values a record holds under ['main_category']: the
    category string, or the [0] that [fillna] wrote. *)
Definition record_value_eqb (a b : pyval) : bool :=
  match a, b with
  | PStr s, PStr t => String.eqb s t
  | PNum x, PNum y => Qeq_bool x y
  | _, _ => false
  end.

(** Two records of the listing hold the same four values. *)
Definition same_record (a b : VendorRecord) : bool :=
  String.eqb (vl_product_name a) (vl_product_name b)
  && String.eqb (vl_seller a) (vl_seller b)
  && rating_eqb (vl_rating a) (vl_rating b)
  && record_value_eqb (vl_main_category a) (vl_main_category b).

(** Row [a] has no rating and row [b] is rated [0]: the two ratings that
    [fillna(0)] makes equal. *)
Definition nan_and_zero (a b : Product) : Prop :=
  rating a = RNaN /\ exists r, rating b = RNum r /\ (r == 0)%Q.

Section Listing.

Variable re_compile_ci : string -> option (string -> bool).

(** [GET /vendors] (lines 190-225): the records and [total_vendors];
    [None]: HTTP 500. *)
Definition get_vendors_by_category (data_loader : option (list Product))
    (category : option string) : option (list VendorRecord * nat) :=
  match data_loader with
  | None => None
  | Some data =>
      let filtered_data :=
        match category with
        | Some c =>
            if negb (String.eqb c "") then
              match re_compile_ci c with
              | Some search =>
                  Some (filter (fun p =>
                                  match main_category p with
                                  | Some m => search m
                                  | None => false
                                  end) data)
              | None => None
              end
            else Some data
        | None => Some data
        end in
      match filtered_data with
      | None => None
      | Some rows =>
          let vendors := drop_duplicates rows in
          Some (map to_record vendors, List.length vendors)
      end
  end.

End Listing.

End AppListing.

(** ** Further reference notions *)

Module SpecMore.
Import Py.
Import DataLoader.
Import FeatureMatcher.

Definition starts_with_space (s : string) : bool :=
  match s with
  | EmptyString => false
  | String c _ => is_space c
  end.

Fixpoint ends_with_space (s : string) : bool :=
  match s with
  | EmptyString => false
  | String c EmptyString => is_space c
  | String _ s' => ends_with_space s'
  end.

(** The rating the endpoint attaches to a vendor: that of the first product
    row carrying the vendor's product name, [0.0] when there is none. *)
Definition rating_lookup (data : list Product) (name : string) : RatingVal :=
  match filter (fun p => String.eqb (product_name p) name) data with
  | p :: _ => DataLoader.rating p
  | [] => RNum 0
  end.

(** The number of elements of a ranker output for a given [top_n]. *)
Definition slice_length (top_n : option Z) (n : nat) : nat :=
  match top_n with
  | None => n
  | Some k =>
      if (k <? 0)%Z then Z.to_nat (Z.of_nat n + k) else Nat.min (Z.to_nat k) n
  end.

End SpecMore.

(** ** Regular expressions of [str.contains]

    [Series.str.contains(pat, case=False)] compiles [pat] with
    [re.IGNORECASE] and keeps the values in which [re.search] finds a match.
    Patterns made of ordinary characters and of the dot are given their
    [re] reading here; every other pattern is left to [engine], which
    answers [None] where [re.compile] raises. *)

Module PyRe.
Import Py.

Definition is_dot (c : ascii) : bool := Ascii.eqb c "."%char.

Definition is_newline (c : ascii) : bool := Ascii.eqb c "010"%char.


(** A match of [pat] starting at the first character of [s]: an ordinary
    character matches itself in either letter case, a dot matches every
    character but the newline. *)
Fixpoint match_here (pat s : string) : bool :=
  match pat with
  | EmptyString => true
  | String p pat' =>
      match s with
      | EmptyString => false
      | String c s' =>
          (if is_dot p then negb (is_newline c)
           else Ascii.eqb (lower_ascii p) (lower_ascii c))
          && match_here pat' s'
      end
  end.

(** [re.search]: a match starting anywhere in [s]. *)
Fixpoint search (pat s : string) : bool :=
  if match_here pat s then true
  else match s with
       | EmptyString => false
       | String _ s' => search pat s'
       end.


End PyRe.

(** * Properties *)

(** ** Python primitives *)

Module PyFacts.
Import Py.
Local Open Scope Q_scope.

Lemma Qltb_true (a b : Q) : Qltb a b = true <-> a < b.
Proof.
  unfold Qltb. rewrite negb_true_iff. split; intro H.
  - apply Qnot_le_lt. intro Hle. apply Qle_bool_iff in Hle. congruence.
  - destruct (Qle_bool b a) eqn:E; trivial.
    apply Qle_bool_iff in E. exfalso. exact (Qlt_not_le _ _ H E).
Qed.

Lemma Qltb_false (a b : Q) : Qltb a b = false <-> b <= a.
Proof.
  unfold Qltb. rewrite negb_false_iff. apply Qle_bool_iff.
Qed.

Lemma Qle_bool_false (a b : Q) : Qle_bool a b = false <-> b < a.
Proof.
  rewrite <- Qltb_true. unfold Qltb. rewrite negb_true_iff. reflexivity.
Qed.

(** Case analysis on a Python comparison. *)
Ltac split_lt a b :=
  let E := fresh "E" in
  destruct (Qltb a b) eqn:E;
  [apply Qltb_true in E | apply Qltb_false in E].

Lemma py_max_ub_l (a b : Q) : a <= py_max a b.
Proof.
  unfold py_max. split_lt a b.
  - apply Qlt_le_weak; assumption.
  - apply Qle_refl.
Qed.

Lemma py_max_ub_r (a b : Q) : b <= py_max a b.
Proof.
  unfold py_max. split_lt a b; [apply Qle_refl | assumption].
Qed.

Lemma py_max_cases (a b : Q) : py_max a b = a \/ py_max a b = b.
Proof.
  unfold py_max. destruct (Qltb a b); auto.
Qed.

Lemma py_max_lub (a b c : Q) : a <= c -> b <= c -> py_max a b <= c.
Proof.
  intros. destruct (py_max_cases a b) as [-> | ->]; assumption.
Qed.

(** The clamping idiom [max(0.0, min(1.0, x))] is the clamp to [[0, 1]]. *)
Lemma max_min_clamp (x : Q) : py_max 0 (py_min 1 x) == Spec.clamp 0 1 x.
Proof.
  unfold py_max, py_min, Spec.clamp.
  split_lt x 1; split_lt x 0.
  - split_lt 0 x; [|reflexivity].
    exfalso. apply (Qlt_irrefl x). eapply Qlt_trans; eassumption.
  - split_lt 1 x.
    + exfalso. apply (Qlt_irrefl x). eapply Qlt_trans; eassumption.
    + split_lt 0 x; [reflexivity|]. apply Qle_antisym; assumption.
  - exfalso. apply (Qlt_irrefl 1).
    eapply Qle_lt_trans; [eassumption|]. eapply Qlt_trans; [eassumption|reflexivity].
  - assert (H01 : Qltb 0 1 = true) by reflexivity. rewrite H01.
    split_lt 1 x; [reflexivity|]. apply Qle_antisym; assumption.
Qed.

Lemma clamp_bounds (x : Q) : 0 <= Spec.clamp 0 1 x /\ Spec.clamp 0 1 x <= 1.
Proof.
  unfold Spec.clamp. split_lt x 0; [split; [apply Qle_refl | discriminate]|].
  split_lt 1 x; [split; [discriminate | apply Qle_refl]|]. split; assumption.
Qed.

Section Sorting.

Context {A : Type}.
Variable key : A -> Q.

Lemma insert_desc_perm (x : A) (l : list A) :
  Permutation (insert_desc key x l) (x :: l).
Proof.
  induction l as [|y l IH]; simpl; [reflexivity|].
  destruct (Qltb (key x) (key y)); [|reflexivity].
  rewrite IH. apply perm_swap.
Qed.

Lemma sort_reverse_perm (l : list A) : Permutation (sort_reverse key l) l.
Proof.
  induction l as [|x l IH]; simpl; [reflexivity|].
  rewrite insert_desc_perm. constructor. exact IH.
Qed.

Lemma insert_desc_descending (x : A) (l : list A) :
  Spec.descending key l -> Spec.descending key (insert_desc key x l).
Proof.
  unfold Spec.descending. induction l as [|y l IH]; simpl; intro Hs.
  - repeat constructor.
  - inversion Hs as [|? ? Hl Hy]; subst.
    split_lt (key x) (key y).
    + constructor; [apply IH; assumption|].
      eapply Permutation_Forall; [symmetry; apply insert_desc_perm|].
      constructor; [apply Qlt_le_weak; assumption | assumption].
    + constructor; [assumption|]. constructor; [assumption|].
      eapply Forall_impl; [|exact Hy]. intros z Hz. simpl in Hz.
      eapply Qle_trans; eassumption.
Qed.

Lemma sort_reverse_descending (l : list A) : Spec.descending key (sort_reverse key l).
Proof.
  induction l as [|x l IH]; simpl.
  - constructor.
  - apply insert_desc_descending. exact IH.
Qed.

(** Inserting in front of elements that are not larger. *)
Lemma insert_desc_head (x : A) (l : list A) :
  Forall (fun y => key y <= key x) l -> insert_desc key x l = x :: l.
Proof.
  destruct l as [|y l]; simpl; [reflexivity|]. intro H.
  inversion H; subst. apply Qltb_false in H2. rewrite H2. reflexivity.
Qed.

(** Filtering commutes with insertion into a sorted list. *)
Lemma filter_insert_desc (p : A -> bool) (x : A) (l : list A) :
  Spec.descending key l ->
  filter p (insert_desc key x l) =
  if p x then insert_desc key x (filter p l) else filter p l.
Proof.
  unfold Spec.descending. induction l as [|y l IH]; intro Hs.
  - simpl. destruct (p x); reflexivity.
  - inversion Hs as [|? ? Hl Hy]; subst. simpl.
    destruct (Qltb (key x) (key y)) eqn:E.
    + simpl. rewrite (IH Hl). destruct (p y), (p x); simpl; try rewrite E; reflexivity.
    + apply Qltb_false in E. simpl filter at 1.
      destruct (p x) eqn:Px.
      * symmetry. apply insert_desc_head.
        change (Forall (fun z => key z <= key x) (filter p (y :: l))).
        apply Forall_forall. intros z Hz. apply filter_In in Hz. destruct Hz as [Hz _].
        destruct Hz as [<- | Hz]; [assumption|].
        rewrite Forall_forall in Hy. eapply Qle_trans; [apply Hy; exact Hz | assumption].
      * reflexivity.
Qed.

Lemma filter_sort_reverse (p : A -> bool) (l : list A) :
  filter p (sort_reverse key l) = sort_reverse key (filter p l).
Proof.
  induction l as [|x l IH]; simpl; [reflexivity|].
  rewrite filter_insert_desc by apply sort_reverse_descending.
  rewrite IH. destruct (p x); reflexivity.
Qed.

(** Stability: the sort leaves a list with equal keys as it is, hence
    keeps the relative order of the elements sharing any given key. *)
Lemma sort_reverse_same_key (s : Q) (l : list A) :
  Forall (fun x => key x == s) l -> sort_reverse key l = l.
Proof.
  induction l as [|x l IH]; simpl; intro H; [reflexivity|].
  inversion H; subst. rewrite IH by assumption.
  apply insert_desc_head. eapply Forall_impl; [|eassumption].
  intros y Hy. simpl in Hy. rewrite Hy, H2. apply Qle_refl.
Qed.

Lemma sort_reverse_stable (s : Q) (l : list A) :
  filter (fun x => Qeq_bool (key x) s) (sort_reverse key l) =
  filter (fun x => Qeq_bool (key x) s) l.
Proof.
  rewrite filter_sort_reverse. apply sort_reverse_same_key with (s := s).
  apply Forall_forall. intros x Hx. apply filter_In in Hx.
  apply Qeq_bool_iff. tauto.
Qed.

Lemma filter_key_head (s : Q) (x : A) (l : list A) :
  key x == s ->
  filter (fun y => Qeq_bool (key y) s) (x :: l) =
  x :: filter (fun y => Qeq_bool (key y) s) l.
Proof.
  intro H. simpl. apply Qeq_bool_iff in H. rewrite H. reflexivity.
Qed.

Lemma descending_head_max (x y : A) (l : list A) :
  Spec.descending key (x :: l) -> In y (x :: l) -> key y <= key x.
Proof.
  intros Hs [<- | Hy]; [apply Qle_refl|].
  inversion Hs as [|? ? _ Hx]; subst. rewrite Forall_forall in Hx. auto.
Qed.

(** Two descending lists with the same elements in the same order under
    every key are the same list. *)
Lemma descending_stable_unique (l1 l2 : list A) :
  Spec.descending key l1 -> Spec.descending key l2 ->
  (forall s, filter (fun x => Qeq_bool (key x) s) l1 =
             filter (fun x => Qeq_bool (key x) s) l2) ->
  l1 = l2.
Proof.
  revert l2. induction l1 as [|a l1 IH]; intros l2 H1 H2 Hcl.
  - destruct l2 as [|b l2]; [reflexivity|].
    specialize (Hcl (key b)). rewrite filter_key_head in Hcl by reflexivity.
    discriminate.
  - destruct l2 as [|b l2].
    + specialize (Hcl (key a)). rewrite filter_key_head in Hcl by reflexivity.
      discriminate.
    + assert (Hab : key a == key b).
      { apply Qle_antisym.
        - apply (descending_head_max b a l2 H2).
          pose proof (Hcl (key a)) as Ha.
          rewrite filter_key_head in Ha by reflexivity.
          assert (Hin : In a (filter (fun x => Qeq_bool (key x) (key a)) (b :: l2)))
            by (rewrite <- Ha; left; reflexivity).
          apply filter_In in Hin. tauto.
        - apply (descending_head_max a b l1 H1).
          pose proof (Hcl (key b)) as Hb.
          rewrite (filter_key_head (key b) b) in Hb by reflexivity.
          assert (Hin : In b (filter (fun x => Qeq_bool (key x) (key b)) (a :: l1)))
            by (rewrite Hb; left; reflexivity).
          apply filter_In in Hin. tauto. }
      assert (Heq : a = b).
      { pose proof (Hcl (key a)) as Ha.
        rewrite filter_key_head in Ha by reflexivity.
        rewrite (filter_key_head (key a) b) in Ha by (symmetry; exact Hab).
        congruence. }
      subst b. f_equal. inversion H1; subst. inversion H2; subst.
      apply IH; trivial. intro s. specialize (Hcl s). simpl in Hcl.
      destruct (Qeq_bool (key a) s); congruence.
Qed.

(** The result of a stable descending sort is determined by the input: any
    list that is in descending order and keeps, for every key, the
    elements with that key in their original order is [sort_reverse]. *)
Lemma sort_reverse_unique (l l' : list A) :
  Spec.descending key l' ->
  (forall s, filter (fun x => Qeq_bool (key x) s) l' =
             filter (fun x => Qeq_bool (key x) s) l) ->
  l' = sort_reverse key l.
Proof.
  intros Hd Hcl. apply descending_stable_unique.
  - exact Hd.
  - apply sort_reverse_descending.
  - intro s. rewrite Hcl. symmetry. apply sort_reverse_stable.
Qed.

Lemma descending_app (l1 l2 : list A) :
  Spec.descending key (l1 ++ l2) ->
  Spec.descending key l1 /\ Spec.descending key l2 /\
  Forall (fun b => Forall (fun a => key b <= key a) l1) l2.
Proof.
  unfold Spec.descending. induction l1 as [|x l1 IH]; simpl; intro H.
  - repeat split; [constructor | assumption |].
    apply Forall_forall. intros; constructor.
  - inversion H as [|? ? Hl Hx]; subst.
    destruct (IH Hl) as (H1 & H2 & H3).
    apply Forall_app in Hx. destruct Hx as [Hx1 Hx2].
    repeat split; [constructor; assumption | assumption |].
    rewrite Forall_forall in *. intros b Hb. constructor; auto.
Qed.

End Sorting.


Lemma slice_to_nonneg {A : Type} (n : Z) (l : list A) :
  (0 <= n)%Z -> slice_to (Some n) l = firstn (Z.to_nat n) l.
Proof.
  intro H. unfold slice_to. destruct (Z.ltb_spec n 0); [lia | reflexivity].
Qed.

End PyFacts.

(** ** Ranker *)

Module RankerFacts.
Import Py.
Import DataLoader.
Import FeatureMatcher.
Import VendorRanker.
Import PyFacts.
Local Open Scope Q_scope.

Lemma compute_rank_score_spec (py_float : string -> option Q) (fw rw : Q)
    (vd : VendorData) :
  compute_rank_score py_float fw rw vd None ==
  Spec.rank_score_spec fw rw (avg_similarity_score vd) (numeric_rating py_float vd).
Proof.
  unfold compute_rank_score, Spec.rank_score_spec, Spec.rating_norm.
  rewrite (max_min_clamp (avg_similarity_score vd)).
  destruct (numeric_rating py_float vd) as [r|].
  - destruct (Qltb 0 r).
    + rewrite (max_min_clamp (r / 5)). reflexivity.
    + reflexivity.
  - reflexivity.
Qed.

(** With a non-negative [top_n] the ranker returns a prefix of the sorted
    list of results. *)
Lemma rank_vendors_firstn (py_float : string -> option Q) (fw rw : Q)
    (vendors : VendorDict) (n : Z) :
  (0 <= n)%Z ->
  rank_vendors py_float fw rw vendors (Some n) =
  firstn (Z.to_nat n)
    (sort_reverse rank_score (map (vendor_result py_float fw rw) vendors)).
Proof.
  intro Hn. unfold rank_vendors. destruct vendors as [|v vendors].
  - simpl. rewrite firstn_nil. reflexivity.
  - apply slice_to_nonneg. exact Hn.
Qed.

Lemma rank_vendors_all (py_float : string -> option Q) (fw rw : Q)
    (vendors : VendorDict) :
  rank_vendors py_float fw rw vendors None =
  sort_reverse rank_score (map (vendor_result py_float fw rw) vendors).
Proof.
  destruct vendors; reflexivity.
Qed.

(** A negative [top_n] is a Python slice counted from the end: [-1] drops
    the lowest-ranked vendor instead of returning nothing. *)
Example rank_vendors_negative_top_n :
  map vr_vendor_key
    (rank_vendors Sample.sample_float (7 # 10) (3 # 10)
       [Sample.vendor_of "a" (1 # 2) (RNum 4); Sample.vendor_of "b" (9 # 10) (RNum 4)]
       (Some (-1)%Z))
  = ["b_v"%string].
Proof. reflexivity. Qed.

(** The weights are used as given: with weights [2] and [3] a perfect
    vendor scores [5]. *)
Example rank_score_not_renormalised :
  compute_rank_score Sample.sample_float 2 3
    (snd (Sample.vendor_of "a" 1 (RNum 5))) None == 5.
Proof. reflexivity. Qed.


(** C4.  For a non-negative [top_n] the ranker's output is in descending
    order of [rank_score]; vendors with equal scores appear in the order of
    the input dict; the output has [min(top_n, number of vendors)] elements,
    none of the vendors left out scores higher than a returned one, and all
    vendors are returned when [top_n] is at least their number. *)
Theorem rank_vendors_sorted_stable_top_n :
  forall (py_float : string -> option Q) (fw rw : Q) (vendors : VendorDict) (n : Z),
    (0 <= n)%Z ->
    let all := map (vendor_result py_float fw rw) vendors in
    let out := rank_vendors py_float fw rw vendors (Some n) in
    Spec.descending rank_score out
    /\ (forall s : Q, exists rest,
           filter (fun v => Qeq_bool (rank_score v) s) all =
           filter (fun v => Qeq_bool (rank_score v) s) out ++ rest)
    /\ List.length out = Nat.min (Z.to_nat n) (List.length vendors)
    /\ (exists dropped,
           Permutation all (out ++ dropped) /\
           Forall (fun d => Forall (fun v => rank_score d <= rank_score v) out) dropped)
    /\ ((Z.of_nat (List.length vendors) <= n)%Z -> Permutation all out).
Proof.
  intros py_float fw rw vendors n Hn all out.
  assert (Hout : out = firstn (Z.to_nat n) (sort_reverse rank_score all))
    by (apply rank_vendors_firstn; exact Hn).
  pose proof (sort_reverse_descending rank_score all) as Hsorted.
  pose proof (sort_reverse_perm rank_score all) as Hperm.
  rewrite <- (firstn_skipn (Z.to_nat n) (sort_reverse rank_score all)) in Hsorted, Hperm.
  rewrite <- Hout in Hsorted, Hperm.
  apply descending_app in Hsorted. destruct Hsorted as (Hd & _ & Hlow).
  repeat split.
  - exact Hd.
  - intro s. exists (filter (fun v => Qeq_bool (rank_score v) s)
                       (skipn (Z.to_nat n) (sort_reverse rank_score all))).
    rewrite <- filter_app, Hout, firstn_skipn. symmetry. apply sort_reverse_stable.
  - rewrite Hout, length_firstn.
    rewrite (Permutation_length (sort_reverse_perm rank_score all)).
    unfold all. rewrite length_map. reflexivity.
  - exists (skipn (Z.to_nat n) (sort_reverse rank_score all)). split.
    + symmetry. exact Hperm.
    + exact Hlow.
  - intro Hall. rewrite Hout, firstn_all2.
    + symmetry. apply sort_reverse_perm.
    + rewrite (Permutation_length (sort_reverse_perm rank_score all)).
      unfold all. rewrite length_map. lia.
Qed.

Lemma rank_vendors_sorted_stable_top_n_witness :
  (0 <= 2)%Z /\
  Spec.descending rank_score
    (rank_vendors Sample.sample_float (7 # 10) (3 # 10)
       [Sample.vendor_of "a" (1 # 2) (RNum 4);
        Sample.vendor_of "b" (9 # 10) (RStr "4.5");
        Sample.vendor_of "c" (1 # 2) (RNum 4)] (Some 2%Z)).
Proof.
  split; [lia|].
  apply (rank_vendors_sorted_stable_top_n Sample.sample_float (7 # 10) (3 # 10)
           [Sample.vendor_of "a" (1 # 2) (RNum 4);
            Sample.vendor_of "b" (9 # 10) (RStr "4.5");
            Sample.vendor_of "c" (1 # 2) (RNum 4)] 2%Z).
  lia.
Defined.

End RankerFacts.

(** ** Vendor aggregator *)

Module AggregatorFacts.
Import Py.
Import DataLoader.
Import FeatureMatcher.
Import PyFacts.
Local Open Scope Q_scope.

Lemma dict_mem_In (k : string) (d : VendorDict) :
  dict_mem k d = true <-> In k (map fst d).
Proof.
  induction d as [|[k' v] d IH]; simpl.
  - split; [discriminate | tauto].
  - rewrite orb_true_iff, IH, String.eqb_eq. split; intros [H|H]; auto.
Qed.

Lemma dict_update_keys (k : string) (f : VendorData -> VendorData) (d : VendorDict) :
  map fst (dict_update k f d) = map fst d.
Proof.
  induction d as [|[k' v] d IH]; simpl; [reflexivity|].
  destruct (String.eqb k k'); simpl; [reflexivity | rewrite IH; reflexivity].
Qed.

(** With distinct keys, [dict_update] changes the entry of [k] and nothing
    else. *)
Lemma dict_update_In (k : string) (f : VendorData -> VendorData) (d : VendorDict)
    (k' : string) (v' : VendorData) :
  NoDup (map fst d) ->
  In (k', v') (dict_update k f d) ->
  (k' <> k /\ In (k', v') d) \/ (k' = k /\ exists v, In (k, v) d /\ v' = f v).
Proof.
  induction d as [|[k0 v0] d IH]; simpl; intros Hnd Hin; [tauto|].
  inversion Hnd as [|? ? Hk0 Hnd']; subst.
  destruct (String.eqb_spec k k0) as [->|Hne].
  - destruct Hin as [Heq | Hin].
    + inversion Heq; subst. right. split; [reflexivity|]. exists v0. auto.
    + left. split; [|auto]. intros ->. apply Hk0.
      change k0 with (fst (k0, v')). apply in_map. exact Hin.
  - destruct Hin as [Heq | Hin].
    + inversion Heq; subst. left. split; [congruence | auto].
    + destruct (IH Hnd' Hin) as [[H1 H2] | [H1 (v & H2 & H3)]].
      * left. auto.
      * right. split; [assumption|]. exists v. auto.
Qed.

Lemma matches_of_snoc (k : string) (ms : list Match) (m : Match) :
  Spec.matches_of k (ms ++ [m]) =
  Spec.matches_of k ms ++ (if String.eqb (vendor_key m) k then [m] else []).
Proof.
  unfold Spec.matches_of. rewrite filter_app. reflexivity.
Qed.

(** What the loop at line 149 has stored for the key [k] once the matches
    [ms] are processed. *)
Lemma fold_add_match_invariant (ms : list Match) :
  let d := fold_left add_match ms [] in
  NoDup (map fst d)
  /\ (forall m, In m ms -> In (vendor_key m) (map fst d))
  /\ (forall k v, In (k, v) d ->
        let mine := Spec.matches_of k ms in
        mine <> []
        /\ map fd_similarity_score (matching_features v) = map similarity_score mine
        /\ total_matches v = List.length mine
        /\ max_similarity_score v = fold_left py_max (map similarity_score mine) 0).
Proof.
  induction ms as [|m ms IH] using rev_ind.
  - simpl. repeat split; [constructor | tauto | tauto ..].
  - rewrite fold_left_app. simpl.
    set (d := fold_left add_match ms []) in *. simpl in IH.
    destruct IH as (Hnd & Hkeys & Hinv).
    unfold add_match.
    remember (vendor_key m) as k eqn:Ek.
    set (d' := if dict_mem k d then d else d ++ [(k, new_vendor m)]).
    assert (Hnd' : NoDup (map fst d')).
    { unfold d'. destruct (dict_mem k d) eqn:E; [assumption|].
      rewrite map_app. simpl. apply NoDup_app. repeat split.
      - assumption. - repeat constructor; tauto.
      - intros x Hx [<- | []]. apply dict_mem_In in Hx. congruence. }
    assert (Hk' : In k (map fst d')).
    { unfold d'. destruct (dict_mem k d) eqn:E.
      - apply dict_mem_In. assumption.
      - rewrite map_app. apply in_or_app. right. left. reflexivity. }
    assert (Hsub : forall x, In x (map fst d) -> In x (map fst d')).
    { unfold d'. destruct (dict_mem k d); [tauto|].
      intros x Hx. rewrite map_app. apply in_or_app. auto. }
    split; [rewrite dict_update_keys; exact Hnd'|].
    split.
    { intros m0 Hm0. rewrite dict_update_keys. apply in_app_or in Hm0.
      destruct Hm0 as [Hm0 | [<- | []]]; [apply Hsub, Hkeys, Hm0 | rewrite <- Ek; exact Hk']. }
    intros k1 v1 Hin. apply (dict_update_In _ _ _ _ _ Hnd') in Hin.
    rewrite matches_of_snoc, <- Ek.
    destruct Hin as [[Hne Hin] | [-> (v & Hin & ->)]].
    + (* another vendor: its entry is the one it had *)
      assert (Hin0 : In (k1, v1) d).
      { unfold d' in Hin. destruct (dict_mem k d); [assumption|].
        apply in_app_or in Hin. destruct Hin as [Hin | [Heq | []]]; [assumption|].
        inversion Heq; subst. congruence. }
      destruct (String.eqb_spec k k1) as [Heq|_]; [congruence|].
      rewrite app_nil_r. apply Hinv. exact Hin0.
    + (* the vendor of [m] *)
      rewrite String.eqb_refl.
      assert (Hv : map fd_similarity_score (matching_features v) =
                   map similarity_score (Spec.matches_of k ms)
                   /\ total_matches v = List.length (Spec.matches_of k ms)
                   /\ max_similarity_score v =
                      fold_left py_max (map similarity_score (Spec.matches_of k ms)) 0).
      { unfold d' in Hin. destruct (dict_mem k d) eqn:E.
        - destruct (Hinv _ _ Hin) as (_ & H1 & H2 & H3). auto.
        - assert (Hnone : Spec.matches_of k ms = []).
          { destruct (Spec.matches_of k ms) as [|m0 l] eqn:Em; [reflexivity|].
            assert (Hm0 : In m0 (Spec.matches_of k ms)) by (rewrite Em; left; reflexivity).
            apply filter_In in Hm0. destruct Hm0 as [Hm0 Hk0].
            apply String.eqb_eq in Hk0. apply Hkeys in Hm0. rewrite Hk0 in Hm0.
            apply dict_mem_In in Hm0. congruence. }
          rewrite Hnone. apply in_app_or in Hin.
          destruct Hin as [Hin | [Heq | []]].
          + exfalso. assert (Hk : In k (map fst d)).
            { change k with (fst (k, v)). apply in_map. exact Hin. }
            apply dict_mem_In in Hk. congruence.
          + inversion Heq; subst. simpl. auto. }
      destruct Hv as (H1 & H2 & H3). simpl.
      repeat split.
      * intro Habs. apply app_eq_nil in Habs. destruct Habs; discriminate.
      * rewrite !map_app, H1. reflexivity.
      * rewrite length_app, H2. reflexivity.
      * rewrite map_app, fold_left_app, H3. reflexivity.
Qed.


Lemma fold_py_max_ub (l : list Q) (a : Q) :
  a <= fold_left py_max l a /\ Forall (fun x => x <= fold_left py_max l a) l.
Proof.
  revert a. induction l as [|x l IH]; intro a; simpl.
  - split; [apply Qle_refl | constructor].
  - destruct (IH (py_max a x)) as [H1 H2]. split.
    + eapply Qle_trans; [apply py_max_ub_l | exact H1].
    + constructor; [|exact H2].
      eapply Qle_trans; [apply py_max_ub_r | exact H1].
Qed.

Lemma fold_py_max_attained (l : list Q) (a : Q) :
  fold_left py_max l a = a \/ In (fold_left py_max l a) l.
Proof.
  revert a. induction l as [|x l IH]; intro a; simpl; [auto|].
  destruct (IH (py_max a x)) as [H | H]; [|auto].
  rewrite H. destruct (py_max_cases a x) as [-> | ->]; auto.
Qed.



(** A negative score is invisible to the running maximum, which starts at
    [0.0]. *)
Example max_of_negative_scores :
  map (fun kv => max_similarity_score (snd kv))
    (select_matching_vendors [Sample.match_of "a" "v" (- (1 # 2))]) = [0].
Proof. reflexivity. Qed.

(** One capability matched through three features: the average is taken
    over the three matches. *)
Example average_over_matches :
  map (fun kv => (fst kv, total_matches (snd kv), matched_capabilities (snd kv),
                  Qred (avg_similarity_score (snd kv)),
                  max_similarity_score (snd kv)))
    (select_matching_vendors
       [Sample.match_of "a" "v" (9 # 10); Sample.match_of "a" "v" (6 # 10);
        Sample.match_of "b" "w" (5 # 10); Sample.match_of "a" "v" (3 # 10)])
  = [("a_v"%string, 3%nat, ["Lead Management"%string], 3 # 5, 9 # 10);
     ("b_w"%string, 1%nat, ["Lead Management"%string], 1 # 2, 5 # 10)].
Proof. reflexivity. Qed.



End AggregatorFacts.

(** ** Similarity engine *)

Module MatcherFacts.
Import Py.
Import DataLoader.
Import FeatureMatcher.
Import PyFacts.
Local Open Scope Q_scope.

Lemma enumerate_from_In {A : Type} (l : list A) (s i : nat) (x : A) :
  In (i, x) (combine (seq s (List.length l)) l) <->
  (s <= i)%nat /\ nth_error l (i - s) = Some x.
Proof.
  revert s. induction l as [|y l IH]; intro s; simpl.
  - split; [tauto|]. intros [_ H]. destruct (i - s)%nat; discriminate.
  - rewrite IH. split.
    + intros [Heq | [Hle Hn]].
      * inversion Heq; subst. rewrite Nat.sub_diag. auto.
      * split; [lia|]. replace (i - s)%nat with (S (i - S s)) by lia. exact Hn.
    + intros [Hle Hn]. destruct (Nat.eq_dec s i) as [->|Hne].
      * rewrite Nat.sub_diag in Hn. simpl in Hn. inversion Hn. auto.
      * right. split; [lia|].
        replace (i - s)%nat with (S (i - S s)) in Hn by lia. exact Hn.
Qed.

Lemma enumerate_In {A : Type} (l : list A) (i : nat) (x : A) :
  In (i, x) (enumerate l) <-> nth_error l i = Some x.
Proof.
  unfold enumerate. rewrite enumerate_from_In, Nat.sub_0_r.
  split; [tauto | intro; split; [lia | assumption]].
Qed.

Lemma flat_map_if_filter {A B : Type} (p : B -> bool) (f : A -> B) (l : list A) :
  flat_map (fun x => if p (f x) then [f x] else []) l = filter p (map f l).
Proof.
  induction l as [|x l IH]; simpl; [reflexivity|].
  rewrite IH. destruct (p (f x)); reflexivity.
Qed.

Lemma filter_flat_map {A B : Type} (p : B -> bool) (g : A -> list B) (l : list A) :
  filter p (flat_map g l) = flat_map (fun x => filter p (g x)) l.
Proof.
  induction l as [|x l IH]; simpl; [reflexivity|].
  rewrite filter_app, IH. reflexivity.
Qed.

Lemma filter_filter_weaker {A : Type} (p q : A -> bool) (l : list A) :
  (forall x, q x = true -> p x = true) ->
  filter q (filter p l) = filter q l.
Proof.
  intro H. induction l as [|x l IH]; simpl; [reflexivity|].
  destruct (p x) eqn:Px; simpl.
  - rewrite IH. reflexivity.
  - destruct (q x) eqn:Qx; [|exact IH]. apply H in Qx. congruence.
Qed.

Lemma flat_map_empty {A B : Type} (l : list A) :
  flat_map (fun _ : A => @nil B) l = [].
Proof.
  induction l; simpl; auto.
Qed.

Lemma filter_none {A : Type} (p : A -> bool) (l : list A) :
  Forall (fun x => p x = false) l -> filter p l = [].
Proof.
  induction 1 as [|x l Hx _ IH]; simpl; [reflexivity|]. rewrite Hx. exact IH.
Qed.

Section Matcher.

Variable py_repr : pyval -> string.
Variable tfidf_cosine : list string -> list string -> option (nat -> nat -> Q).

Lemma compute_similarity_matrix_size (capabilities texts : list string) :
  capabilities <> [] -> texts <> [] ->
  size (compute_similarity_matrix tfidf_cosine capabilities texts) <> 0%nat.
Proof.
  intros Hc Ht. unfold compute_similarity_matrix.
  destruct capabilities as [|c cs]; [congruence|].
  destruct texts as [|t ts]; [congruence|].
  destruct (tfidf_cosine (c :: cs) (t :: ts)); unfold size; simpl; lia.
Qed.

(** The matches returned are the candidate matches that reach the
    threshold, sorted by score. *)
Lemma find_matching_features_candidates (threshold : Q)
    (capabilities : list string) (features_df : list FlatRow) :
  find_matching_features py_repr tfidf_cosine threshold capabilities features_df =
  sort_reverse similarity_score
    (filter (fun m => Qle_bool threshold (similarity_score m))
       (Spec.candidates py_repr tfidf_cosine capabilities features_df)).
Proof.
  unfold find_matching_features, Spec.candidates.
  destruct features_df as [|r rows].
  - simpl. rewrite flat_map_empty. reflexivity.
  - destruct capabilities as [|c caps]; [reflexivity|].
    assert (Hsize : size (compute_similarity_matrix tfidf_cosine (c :: caps)
                            (feature_texts_of py_repr (r :: rows))) <> 0%nat).
    { apply compute_similarity_matrix_size; discriminate. }
    apply Nat.eqb_neq in Hsize. rewrite Hsize. f_equal.
    rewrite filter_flat_map. apply flat_map_ext. intros [i cap]. simpl.
    exact (flat_map_if_filter
             (fun m => Qle_bool threshold (similarity_score m))
             (fun jr : nat * FlatRow =>
                make_match cap (snd jr)
                  (entry (compute_similarity_matrix tfidf_cosine (c :: caps)
                            (feature_texts_of py_repr (r :: rows))) i (fst jr))
                  (nth (fst jr) (feature_texts_of py_repr (r :: rows)) ""))
             (enumerate (r :: rows))).
Qed.

Lemma candidates_In (capabilities : list string) (features_df : list FlatRow)
    (m : Match) :
  In m (Spec.candidates py_repr tfidf_cosine capabilities features_df) <->
  exists i j cap row,
    nth_error capabilities i = Some cap /\
    nth_error features_df j = Some row /\
    m = make_match cap row
          (entry (compute_similarity_matrix tfidf_cosine capabilities
                    (feature_texts_of py_repr features_df)) i j)
          (_prepare_feature_text py_repr (Feature_name row) (Feature_description row)).
Proof.
  unfold Spec.candidates. rewrite in_flat_map. split.
  - intros ([i cap] & Hic & Hm). apply in_map_iff in Hm.
    destruct Hm as ([j row] & <- & Hjr).
    apply enumerate_In in Hic. apply enumerate_In in Hjr.
    exists i, j, cap, row. repeat split; trivial. simpl. f_equal.
    unfold feature_texts_of. apply nth_error_nth.
    rewrite nth_error_map, Hjr. reflexivity.
  - intros (i & j & cap & row & Hi & Hj & ->).
    exists (i, cap). split; [apply enumerate_In; exact Hi|].
    apply in_map_iff. exists (j, row). split; [|apply enumerate_In; exact Hj].
    simpl. f_equal. unfold feature_texts_of. apply nth_error_nth.
    rewrite nth_error_map, Hj. reflexivity.
Qed.

Lemma find_matching_features_In (threshold : Q) (capabilities : list string)
    (features_df : list FlatRow) (m : Match) :
  In m (find_matching_features py_repr tfidf_cosine threshold capabilities features_df)
  <-> In m (Spec.candidates py_repr tfidf_cosine capabilities features_df)
      /\ threshold <= similarity_score m.
Proof.
  rewrite find_matching_features_candidates.
  split.
  - intro H. apply (Permutation_in _ (sort_reverse_perm similarity_score _)) in H.
    apply filter_In in H. rewrite Qle_bool_iff in H. exact H.
  - intro H. apply (Permutation_in _ (Permutation_sym (sort_reverse_perm similarity_score _))).
    apply filter_In. rewrite Qle_bool_iff. exact H.
Qed.

(** C3.  With [M] the similarity matrix of the call, the match of
    capability [i] and row [j] is in the result if and only if
    [M[i, j] >= threshold], the comparison being the plain inclusive [>=]
    (a score equal to the threshold is retained); and the result holds
    nothing but such matches. *)
Theorem match_retained_iff_threshold :
  forall (threshold : Q) (capabilities : list string) (features_df : list FlatRow),
    let M := compute_similarity_matrix tfidf_cosine capabilities
               (feature_texts_of py_repr features_df) in
    let out := find_matching_features py_repr tfidf_cosine threshold
                 capabilities features_df in
    (forall (i j : nat) (cap : string) (row : FlatRow),
        nth_error capabilities i = Some cap ->
        nth_error features_df j = Some row ->
        (In (make_match cap row (entry M i j)
               (_prepare_feature_text py_repr (Feature_name row)
                  (Feature_description row))) out
         <-> threshold <= entry M i j)
        /\ (entry M i j == threshold ->
            In (make_match cap row (entry M i j)
                  (_prepare_feature_text py_repr (Feature_name row)
                     (Feature_description row))) out))
    /\ Forall (fun m =>
                 exists i j cap row,
                   nth_error capabilities i = Some cap /\
                   nth_error features_df j = Some row /\
                   m = make_match cap row (entry M i j)
                         (_prepare_feature_text py_repr (Feature_name row)
                            (Feature_description row)) /\
                   threshold <= entry M i j) out.
Proof.
  intros threshold capabilities features_df M out. split.
  - intros i j cap row Hi Hj.
    assert (Hiff : In (make_match cap row (entry M i j)
               (_prepare_feature_text py_repr (Feature_name row)
                  (Feature_description row))) out
         <-> threshold <= entry M i j).
    { unfold out. rewrite find_matching_features_In. simpl. split; [tauto|].
      intro Hle. split; [|exact Hle].
      apply candidates_In. exists i, j, cap, row. auto. }
    split; [exact Hiff|].
    intro Heq. apply Hiff. rewrite Heq. apply Qle_refl.
  - apply Forall_forall. intros m Hm. unfold out in Hm.
    apply find_matching_features_In in Hm. destruct Hm as [Hc Hle].
    apply candidates_In in Hc. destruct Hc as (i & j & cap & row & Hi & Hj & ->).
    exists i, j, cap, row. auto.
Qed.

(** C5.  Raising the threshold can only remove matches: for [t1 < t2] every
    match returned at [t2] is returned at [t1]; the result at [t2] is the
    result at [t1] with the matches below [t2] taken out. *)
Theorem matches_antitone_in_threshold :
  forall (t1 t2 : Q) (capabilities : list string) (features_df : list FlatRow),
    t1 < t2 ->
    incl (find_matching_features py_repr tfidf_cosine t2 capabilities features_df)
         (find_matching_features py_repr tfidf_cosine t1 capabilities features_df)
    /\ find_matching_features py_repr tfidf_cosine t2 capabilities features_df =
       filter (fun m => Qle_bool t2 (similarity_score m))
         (find_matching_features py_repr tfidf_cosine t1 capabilities features_df).
Proof.
  intros t1 t2 capabilities features_df Hlt.
  assert (Heq : find_matching_features py_repr tfidf_cosine t2 capabilities features_df =
       filter (fun m => Qle_bool t2 (similarity_score m))
         (find_matching_features py_repr tfidf_cosine t1 capabilities features_df)).
  { rewrite !find_matching_features_candidates, filter_sort_reverse.
    rewrite filter_filter_weaker; [reflexivity|].
    intros m Hm. apply Qle_bool_iff in Hm. apply Qle_bool_iff.
    eapply Qle_trans; [apply Qlt_le_weak; exact Hlt | exact Hm]. }
  split; [|exact Heq].
  intros m Hm. rewrite Heq in Hm. apply filter_In in Hm. tauto.
Qed.

Lemma failed_vectorizer_zero_entries (capabilities texts : list string) (i j : nat) :
  tfidf_cosine capabilities texts = None ->
  entry (compute_similarity_matrix tfidf_cosine capabilities texts) i j = 0.
Proof.
  intro H. unfold compute_similarity_matrix.
  destruct capabilities; [reflexivity|]. destruct texts; [reflexivity|].
  rewrite H. reflexivity.
Qed.

(** C8.  The matching operation returns the empty list when the capability
    list is empty, when there is no candidate row, and, for a positive
    threshold, when the vectoriser raises: the exception is caught and
    replaced by the all-zero matrix of the expected shape.  It is a total
    function: no case is left in which it raises. *)
Theorem matching_degrades_to_empty :
  forall (threshold : Q) (capabilities : list string) (features_df : list FlatRow),
    find_matching_features py_repr tfidf_cosine threshold [] features_df = []
    /\ find_matching_features py_repr tfidf_cosine threshold capabilities [] = []
    /\ (tfidf_cosine capabilities (feature_texts_of py_repr features_df) = None ->
        (capabilities <> [] -> features_df <> [] ->
         compute_similarity_matrix tfidf_cosine capabilities
           (feature_texts_of py_repr features_df) =
         zeros (List.length capabilities) (List.length features_df))
        /\ (0 < threshold ->
            find_matching_features py_repr tfidf_cosine threshold
              capabilities features_df = [])).
Proof.
  intros threshold capabilities features_df. split; [|split].
  - destruct features_df; reflexivity.
  - reflexivity.
  - intro Hfail. split.
    + intros Hc Hd. unfold compute_similarity_matrix.
      destruct capabilities as [|c cs]; [congruence|].
      destruct features_df as [|r rs]; [congruence|].
      change (feature_texts_of py_repr (r :: rs)) with
        (_prepare_feature_text py_repr (Feature_name r) (Feature_description r)
           :: feature_texts_of py_repr rs) in *.
      rewrite Hfail. unfold feature_texts_of. simpl. rewrite length_map. reflexivity.
    + intro Hpos. rewrite find_matching_features_candidates.
      rewrite filter_none; [reflexivity|].
      apply Forall_forall. intros m Hm. apply candidates_In in Hm.
      destruct Hm as (i & j & cap & row & _ & _ & ->). simpl.
      rewrite failed_vectorizer_zero_entries by exact Hfail.
      apply Qle_bool_false. exact Hpos.
Qed.

End Matcher.

Lemma match_retained_iff_threshold_witness :
  nth_error ["lead management"%string] 0 = Some "lead management"%string /\
  nth_error [Sample.crm_row] 0 = Some Sample.crm_row /\
  (In (make_match "lead management" Sample.crm_row 1
         "Lead Management Lead Management track leads")
      (find_matching_features Sample.sample_repr Sample.sample_cosine (1 # 2)
         ["lead management"%string] [Sample.crm_row])
   <-> 1 # 2 <= 1).
Proof.
  split; [reflexivity|]. split; [reflexivity|].
  apply (proj1 (match_retained_iff_threshold Sample.sample_repr Sample.sample_cosine
                  (1 # 2) ["lead management"%string] [Sample.crm_row])
           0%nat 0%nat "lead management"%string Sample.crm_row);
    reflexivity.
Defined.

Lemma matches_antitone_in_threshold_witness :
  3 # 10 < 1 # 2 /\
  incl (find_matching_features Sample.sample_repr Sample.sample_cosine (1 # 2)
          ["lead management"%string] (preprocess_data Sample.catalog))
       (find_matching_features Sample.sample_repr Sample.sample_cosine (3 # 10)
          ["lead management"%string] (preprocess_data Sample.catalog)).
Proof.
  split; [reflexivity|].
  apply (matches_antitone_in_threshold Sample.sample_repr Sample.sample_cosine
           (3 # 10) (1 # 2)).
  reflexivity.
Defined.

Lemma matching_degrades_to_empty_witness :
  Sample.failing_cosine ["lead management"%string]
    (feature_texts_of Sample.sample_repr (preprocess_data Sample.catalog)) = None /\
  0 < 1 # 2 /\
  find_matching_features Sample.sample_repr Sample.failing_cosine (1 # 2)
    ["lead management"%string] (preprocess_data Sample.catalog) = [].
Proof.
  split; [reflexivity|]. split; [reflexivity|].
  apply (matching_degrades_to_empty Sample.sample_repr Sample.failing_cosine
           (1 # 2) ["lead management"%string] (preprocess_data Sample.catalog));
    reflexivity.
Defined.

(** When the vectoriser raises and the threshold is not positive, every
    pair is returned with score [0]. *)
Example failed_vectorizer_zero_threshold :
  map similarity_score
    (find_matching_features Sample.sample_repr Sample.failing_cosine 0
       ["lead management"%string] (preprocess_data Sample.catalog)) = [0; 0; 0].
Proof. reflexivity. Qed.

Example sample_matches :
  map (fun m => (m_product_name m, similarity_score m))
    (find_matching_features Sample.sample_repr Sample.sample_cosine (3 # 10)
       ["lead management"%string] (preprocess_data Sample.catalog))
  = [("Acme CRM"%string, 1); ("Bolt ERP"%string, 1)].
Proof. reflexivity. Qed.

End MatcherFacts.

(** ** Category filter *)

Module FilterFacts.
Import Py.
Import DataLoader.
Import FeatureMatcher.
Local Open Scope Q_scope.

Section Filter.

Variable py_repr : pyval -> string.
Variable tfidf_cosine : list string -> list string -> option (nat -> nat -> Q).
Variable re_compile_ci : string -> option (string -> bool).

Lemma category_filter_bypass (software_category : string) (dataframe : list FlatRow) :
  software_category = ""%string \/ lower software_category = "all"%string ->
  category_filter re_compile_ci software_category dataframe = Some dataframe.
Proof.
  unfold category_filter. intros [-> | H]; [reflexivity|].
  rewrite H, String.eqb_refl, andb_false_r. reflexivity.
Qed.

(** The matcher runs on the rows the category filter kept, and on nothing
    when it kept none. *)
Lemma filter_vendors_on_kept_rows (threshold : Q) (dataframe kept : list FlatRow)
    (software_category : string) (capabilities : list string) :
  category_filter re_compile_ci software_category dataframe = Some kept ->
  exists r,
    filter_vendors_by_category_and_capabilities py_repr tfidf_cosine re_compile_ci
      threshold dataframe software_category capabilities = Some r
    /\ mr_similarity_threshold r = threshold
    /\ (kept = [] -> matching_vendors r = [] /\ raw_matches r = None)
    /\ (kept <> [] ->
        raw_matches r =
          Some (find_matching_features py_repr tfidf_cosine threshold capabilities kept)
        /\ matching_vendors r =
           select_matching_vendors
             (find_matching_features py_repr tfidf_cosine threshold capabilities kept)).
Proof.
  intro Hk. unfold filter_vendors_by_category_and_capabilities. rewrite Hk.
  destruct kept as [|row kept].
  - eexists. split; [reflexivity|]. simpl. repeat split; congruence.
  - eexists. split; [reflexivity|]. simpl. repeat split; congruence.
Qed.

(** C9.  For the empty category and for ["all"] in any letter case the
    category filter is bypassed: the frame handed to the matcher is the
    whole catalog, whatever the rows' categories, so every feature row is a
    similarity candidate. *)
Theorem category_bypass_empty_or_all :
  forall (threshold : Q) (dataframe : list FlatRow) (software_category : string)
         (capabilities : list string),
    software_category = ""%string \/ lower software_category = "all"%string ->
    category_filter re_compile_ci software_category dataframe = Some dataframe
    /\ exists r,
        filter_vendors_by_category_and_capabilities py_repr tfidf_cosine
          re_compile_ci threshold dataframe software_category capabilities = Some r
        /\ (dataframe <> [] ->
            raw_matches r =
              Some (find_matching_features py_repr tfidf_cosine threshold
                      capabilities dataframe)
            /\ matching_vendors r =
               select_matching_vendors
                 (find_matching_features py_repr tfidf_cosine threshold
                    capabilities dataframe)).
Proof.
  intros threshold dataframe software_category capabilities Hcat.
  pose proof (category_filter_bypass software_category dataframe Hcat) as Hk.
  split; [exact Hk|].
  destruct (filter_vendors_on_kept_rows threshold _ _ _ capabilities Hk)
    as (r & Hr & _ & _ & H2).
  exists r. auto.
Qed.

End Filter.













Lemma category_bypass_empty_or_all_witness :
  ("ALL"%string = ""%string \/ lower "ALL" = "all"%string) /\
  category_filter Sample.literal_compile "ALL" (preprocess_data Sample.catalog)
    = Some (preprocess_data Sample.catalog).
Proof.
  split; [right; reflexivity|].
  apply (category_bypass_empty_or_all Sample.sample_repr Sample.sample_cosine
           Sample.literal_compile (1 # 2) (preprocess_data Sample.catalog) "ALL"
           ["lead management"%string]).
  right. reflexivity.
Defined.

(** The letter case of ["all"] does not matter, and the bypass reaches rows
    of every category. *)
Example category_all_any_case :
  map (fun c => category_filter Sample.literal_compile c (preprocess_data Sample.catalog))
    ["all"; "All"; "ALL"; "aLl"; ""]%string
  = repeat (Some (preprocess_data Sample.catalog)) 5.
Proof. reflexivity. Qed.

Example category_crm_keeps_matching_rows :
  option_map (map (fun r => product_name (product r)))
    (category_filter Sample.literal_compile "crm" (preprocess_data Sample.catalog))
  = Some ["Acme CRM"; "Acme CRM"]%string.
Proof. reflexivity. Qed.

End FilterFacts.

(** ** Catalog flattener *)

Module FlattenerFacts.
Import Py.
Import DataLoader.

(** The second half of the pipeline, applied to the exploded cells of one
    product. *)
Lemma flatten_groups (p : Product) (cells : list pyval) :
  map (fun r : Product * pyval * pyval => feature_row (fst r) (snd r))
    (explode (fun r : Product * pyval * pyval => snd r) (fun r v => (fst r, v))
       (map category_row (map (fun v => (p, v)) cells)))
  = flat_map (Spec.group_rows p) cells.
Proof.
  unfold explode. induction cells as [|g cells IH]; simpl; [reflexivity|].
  rewrite map_app, IH. f_equal.
  unfold Spec.group_rows. rewrite map_map. reflexivity.
Qed.

Lemma flatten_products (data : list Product) :
  map (fun r : Product * pyval * pyval => feature_row (fst r) (snd r))
    (explode (fun r : Product * pyval * pyval => snd r) (fun r v => (fst r, v))
       (map category_row
          (explode (fun r : Product * pyval => snd r) (fun r v => (fst r, v))
             (filter (fun r => notna (snd r))
                (map (fun p => (p, safe_json_parse (Features p))) data)))))
  = flat_map (fun p => flat_map (Spec.group_rows p)
                         (explode_cell (safe_json_parse (Features p))))
      (filter Spec.has_features data).
Proof.
  induction data as [|p data IH]; simpl; [reflexivity|].
  unfold Spec.has_features at 1.
  destruct (notna (safe_json_parse (Features p))); [|exact IH].
  simpl. unfold explode in *. simpl. rewrite map_app, flat_map_app, map_app, IH.
  f_equal. apply (flatten_groups p).
Qed.

Example flattened_sample_catalog :
  map (fun r => (product_name (product r), Feature_name r))
    (preprocess_data Sample.catalog)
  = [("Acme CRM", PStr "Lead Management"); ("Acme CRM", PStr "Email Marketing");
     ("Bolt ERP", PStr "Invoicing")]%string.
Proof. reflexivity. Qed.

(** A product whose only feature group has no features still gives one
    row, with empty feature columns. *)
Example flattened_empty_group :
  preprocess_data [Sample.empty_group_product] =
  [Spec.placeholder_row Sample.empty_group_product (PStr "Sales")].
Proof. reflexivity. Qed.

(** C7, counterexample.  A feature group with an empty feature list does
    not yield zero rows. *)
Lemma empty_group_yields_a_row :
  ~ (List.length (preprocess_data [Sample.empty_group_product]) = 0%nat).
Proof.
  discriminate.
Qed.

(** C7 (amended).  When some product has a parsed feature payload, the
    flattened table is the concatenation, product by product and group by
    group, of the rows of each group.  A group with a non-empty feature list
    yields exactly one row per feature record, in order; a group whose
    feature list is empty or missing yields exactly one row, whose feature
    name and description are empty and whose percent and review count are
    [0]. *)
Theorem flattener_rows_per_group :
  forall data : list Product,
    (exists p, In p data /\ Spec.has_features p = true) ->
    preprocess_data data =
      flat_map (fun p => flat_map (Spec.group_rows p)
                           (explode_cell (safe_json_parse (Features p))))
        (filter Spec.has_features data)
    /\ (forall (p : Product) (groups : list pyval),
           safe_json_parse (Features p) = PList groups -> groups <> [] ->
           explode_cell (safe_json_parse (Features p)) = groups)
    /\ (forall (p : Product) (entries : list (string * pyval)),
           let category := get_if_dict (PDict entries) "Category" PNone PNone in
           (forall fs : list pyval,
               dict_get "features" entries = Some (PList fs) -> fs <> [] ->
               Spec.group_rows p (PDict entries) = map (feature_row (p, category)) fs
               /\ List.length (Spec.group_rows p (PDict entries)) = List.length fs)
           /\ (dict_get "features" entries = Some (PList []) \/
               dict_get "features" entries = None ->
               Spec.group_rows p (PDict entries) = [Spec.placeholder_row p category])).
Proof.
  intros data (p0 & Hin & Hf). split; [|split].
  - unfold preprocess_data.
    assert (Hlen : (List.length
              (filter (fun r : Product * pyval => notna (snd r))
                 (map (fun p => (p, safe_json_parse (Features p))) data)) =? 0)%nat
            = false).
    { apply Nat.eqb_neq. intro Habs. apply length_zero_iff_nil in Habs.
      assert (Hp : In (p0, safe_json_parse (Features p0))
                     (filter (fun r : Product * pyval => notna (snd r))
                        (map (fun p => (p, safe_json_parse (Features p))) data))).
      { apply filter_In. split; [|exact Hf].
        apply in_map_iff. exists p0. auto. }
      rewrite Habs in Hp. exact Hp. }
    rewrite Hlen. apply flatten_products.
  - intros p groups -> Hne. destruct groups; [congruence | reflexivity].
  - intros p entries category. split.
    + intros fs Hfs Hne. unfold Spec.group_rows. simpl. rewrite Hfs.
      destruct fs as [|f fs]; [congruence|]. simpl explode_cell.
      split; [reflexivity | apply length_map].
    + intros [H | H]; unfold Spec.group_rows; simpl; rewrite H; reflexivity.
Qed.

Lemma flattener_rows_per_group_witness :
  (exists p, In p Sample.catalog /\ Spec.has_features p = true) /\
  preprocess_data Sample.catalog =
    flat_map (fun p => flat_map (Spec.group_rows p)
                         (explode_cell (safe_json_parse (Features p))))
      (filter Spec.has_features Sample.catalog).
Proof.
  assert (H : exists p, In p Sample.catalog /\ Spec.has_features p = true).
  { exists Sample.crm. split; [left; reflexivity | reflexivity]. }
  split; [exact H|].
  apply (flattener_rows_per_group Sample.catalog H).
Defined.

End FlattenerFacts.

(** ** Qualification endpoint *)

Module AppFacts.
Import Py.
Import DataLoader.
Import FeatureMatcher.
Import VendorRanker.
Import App.
Local Open Scope Q_scope.

Lemma update_threshold_truthy (st : AppState) (q : VendorQuery) (t : Q) :
  similarity_threshold q = Some t -> ~ t == 0 ->
  update_threshold st q = mkAppState t.
Proof.
  intros Hq Ht. unfold update_threshold. rewrite Hq. simpl.
  destruct (Qeq_bool t 0) eqn:E; [|reflexivity].
  apply Qeq_bool_iff in E. contradiction.
Qed.

Lemma update_threshold_zero (st : AppState) (q : VendorQuery) (t : Q) :
  similarity_threshold q = Some t -> t == 0 -> update_threshold st q = st.
Proof.
  intros Hq Ht. unfold update_threshold. rewrite Hq. simpl.
  apply Qeq_bool_iff in Ht. rewrite Ht. reflexivity.
Qed.

Lemma update_threshold_absent (st : AppState) (q : VendorQuery) :
  similarity_threshold q = None -> update_threshold st q = st.
Proof.
  intros Hq. unfold update_threshold. rewrite Hq. reflexivity.
Qed.

Section Endpoint.

Variable py_repr : pyval -> string.
Variable tfidf_cosine : list string -> list string -> option (nat -> nat -> Q).
Variable re_compile_ci : string -> option (string -> bool).
Variable py_float : string -> option Q.
Variable data : list Product.

Lemma filter_vendors_threshold (threshold : Q) (df : list FlatRow) (cat : string)
    (caps : list string) (r : MatchingResults) :
  filter_vendors_by_category_and_capabilities py_repr tfidf_cosine re_compile_ci
    threshold df cat caps = Some r ->
  mr_similarity_threshold r = threshold.
Proof.
  unfold filter_vendors_by_category_and_capabilities.
  destruct (category_filter re_compile_ci cat df) as [[|row kept]|];
    intro H; inversion H; reflexivity.
Qed.

(** One request: the state left behind is the updated one, and the
    threshold the answer reports is the one stored in it. *)
Lemma qualify_vendors_threshold (st : AppState) (q : VendorQuery) :
  let answer :=
    qualify_vendors py_repr tfidf_cosine re_compile_ci py_float (Some data) st q in
  snd answer = update_threshold st q
  /\ (Spec.threshold_used (fst answer) = None \/
      Spec.threshold_used (fst answer) =
        Some (matcher_threshold (update_threshold st q))).
Proof.
  unfold qualify_vendors.
  destruct (filter_vendors_by_category_and_capabilities py_repr tfidf_cosine
              re_compile_ci (matcher_threshold (update_threshold st q))
              (preprocess_data data) (software_category q) (capabilities q))
    as [r|] eqn:E.
  - apply filter_vendors_threshold in E.
    destruct (matching_vendors r); [simpl; rewrite E; auto|].
    destruct (flag_truthy (include_explanations q) && explanation_raises _);
      simpl; rewrite ?E; auto.
  - simpl. auto.
Qed.

Lemma serve_state (st : AppState) (history : list VendorQuery) :
  snd (serve py_repr tfidf_cosine re_compile_ci py_float (Some data) st history)
  = fold_left update_threshold history st.
Proof.
  revert st. induction history as [|q history IH]; intro st; [reflexivity|].
  cbn [serve fold_left].
  pose proof (qualify_vendors_threshold st q) as [Hst _].
  destruct (qualify_vendors py_repr tfidf_cosine re_compile_ci py_float
              (Some data) st q) as [r st'].
  cbn [snd] in Hst. subst st'.
  specialize (IH (update_threshold st q)).
  destruct (serve py_repr tfidf_cosine re_compile_ci py_float (Some data)
              (update_threshold st q) history) as [rs st''].
  exact IH.
Qed.

Lemma fold_update_threshold_snoc (st : AppState) (history : list VendorQuery)
    (q : VendorQuery) :
  fold_left update_threshold (history ++ [q]) st =
  update_threshold (fold_left update_threshold history st) q.
Proof.
  rewrite fold_left_app. reflexivity.
Qed.

Lemma stored_threshold_most_recent (history : list VendorQuery) :
  matcher_threshold (fold_left update_threshold history initial_state) =
  Spec.most_recent_nonzero (rev history).
Proof.
  induction history as [|q history IH] using rev_ind; [reflexivity|].
  rewrite fold_update_threshold_snoc, rev_unit. simpl.
  unfold update_threshold. destruct (similarity_threshold q) as [t|]; [|exact IH].
  simpl. destruct (Qeq_bool t 0); [exact IH | reflexivity].
Qed.

(** C10.  The endpoint stores a request's threshold in the shared matcher
    only when it is truthy.  A threshold of [0.0] (like an absent one)
    leaves the stored value as it is, and the request is answered with that
    stored value: [0.5] at start, otherwise the threshold of the most
    recent request that carried a non-zero one.  The same request can
    therefore be served with different thresholds, depending on the
    requests before it. *)
Theorem threshold_updated_only_when_truthy :
  let qualify :=
    qualify_vendors py_repr tfidf_cosine re_compile_ci py_float (Some data) in
  let serve_all :=
    serve py_repr tfidf_cosine re_compile_ci py_float (Some data) in
  (forall (st : AppState) (q : VendorQuery) (t : Q),
      similarity_threshold q = Some t ->
      (~ t == 0 -> update_threshold st q = mkAppState t)
      /\ (t == 0 -> update_threshold st q = st))
  /\ matcher_threshold initial_state = 1 # 2
  /\ (forall (st : AppState) (q : VendorQuery),
         snd (qualify st q) = update_threshold st q
         /\ (Spec.threshold_used (fst (qualify st q)) = None \/
             Spec.threshold_used (fst (qualify st q)) =
               Some (matcher_threshold (update_threshold st q))))
  /\ (forall history : list VendorQuery,
         matcher_threshold (snd (serve_all initial_state history)) =
         Spec.most_recent_nonzero (rev history))
  /\ (forall (history : list VendorQuery) (q : VendorQuery) (t : Q),
         similarity_threshold q = Some t -> t == 0 ->
         matcher_threshold (snd (serve_all initial_state (history ++ [q]))) =
         matcher_threshold (snd (serve_all initial_state history)))
  /\ (matcher_threshold
        (snd (serve_all initial_state
                [Sample.query (Some (9 # 10)); Sample.query (Some 0)])) = 9 # 10
      /\ matcher_threshold
           (snd (serve_all initial_state [Sample.query (Some 0)])) = 1 # 2).
Proof.
  intros qualify serve_all. unfold qualify, serve_all. clear qualify serve_all.
  split; [|split; [|split; [|split; [|split]]]].
  - intros st q t Hq. split; intro Ht.
    + apply update_threshold_truthy; assumption.
    + eapply update_threshold_zero; eassumption.
  - reflexivity.
  - apply qualify_vendors_threshold.
  - intro history. rewrite serve_state. apply stored_threshold_most_recent.
  - intros history q t Hq Ht.
    rewrite !serve_state, fold_update_threshold_snoc.
    rewrite (update_threshold_zero _ q t Hq Ht). reflexivity.
  - rewrite !serve_state. split; reflexivity.
Qed.

End Endpoint.

Lemma threshold_updated_only_when_truthy_witness :
  similarity_threshold (Sample.query (Some 0)) = Some 0 /\
  0 == 0 /\
  update_threshold (mkAppState (9 # 10)) (Sample.query (Some 0)) = mkAppState (9 # 10).
Proof.
  split; [reflexivity|]. split; [reflexivity|].
  apply (proj1 (threshold_updated_only_when_truthy Sample.sample_repr
                  Sample.sample_cosine Sample.literal_compile Sample.sample_float
                  Sample.catalog)
           (mkAppState (9 # 10)) (Sample.query (Some 0)) 0);
    reflexivity.
Defined.

(** Two runs of the sample service: the request with threshold [0.0] is
    answered with [0.9] after a request that set it, with [0.5] otherwise. *)
Example zero_threshold_reuses_previous :
  map Spec.threshold_used
    (fst (serve Sample.sample_repr Sample.sample_cosine Sample.literal_compile
            Sample.sample_float (Some Sample.catalog) initial_state
            [Sample.query (Some (9 # 10)); Sample.query (Some 0)]))
  = [Some (9 # 10); Some (9 # 10)]
  /\
  map Spec.threshold_used
    (fst (serve Sample.sample_repr Sample.sample_cosine Sample.literal_compile
            Sample.sample_float (Some Sample.catalog) initial_state
            [Sample.query (Some 0)]))
  = [Some (1 # 2)].
Proof. split; reflexivity. Qed.

End AppFacts.

(** * Further properties of the code *)

(** ** Catalog flattener and catalog queries *)

Module DataLoaderExtra.
Import Py.
Import DataLoader.
Import DataLoaderQueries.

Lemma explode_cell_not_empty (v : pyval) : explode_cell v <> [].
Proof.
  destruct v as [| | b | q | s | items | entries]; simpl; try discriminate.
  - destruct items; discriminate.
  - destruct entries as [|[k x] entries]; discriminate.
Qed.

Lemma group_rows_product (p : Product) (g : pyval) :
  Spec.group_rows p g <> []
  /\ Forall (fun row => product row = p) (Spec.group_rows p g).
Proof.
  unfold Spec.group_rows. split.
  - intro H. apply map_eq_nil in H. exact (explode_cell_not_empty _ H).
  - apply Forall_forall. intros row Hrow. apply in_map_iff in Hrow.
    destruct Hrow as (x & <- & _). reflexivity.
Qed.

Lemma product_rows_product (p : Product) :
  flat_map (Spec.group_rows p) (explode_cell (safe_json_parse (Features p))) <> []
  /\ Forall (fun row => product row = p)
       (flat_map (Spec.group_rows p) (explode_cell (safe_json_parse (Features p)))).
Proof.
  split.
  - destruct (explode_cell (safe_json_parse (Features p))) as [|g gs] eqn:E.
    + exfalso. exact (explode_cell_not_empty _ E).
    + simpl. intro H. apply app_eq_nil in H.
      exact (proj1 (group_rows_product p g) (proj1 H)).
  - apply Forall_forall. intros row Hrow. apply in_flat_map in Hrow.
    destruct Hrow as (g & _ & Hrow).
    pose proof (proj2 (group_rows_product p g)) as Hall.
    rewrite Forall_forall in Hall. auto.
Qed.

(** With at least one parsed feature payload, the flattened table is the
    concatenation of the rows of the products that have one. *)
Lemma preprocess_data_featured (data : list Product) :
  (exists p, In p data /\ Spec.has_features p = true) ->
  preprocess_data data =
  flat_map (fun p => flat_map (Spec.group_rows p)
                       (explode_cell (safe_json_parse (Features p))))
    (filter Spec.has_features data).
Proof.
  intros (p0 & Hin & Hf). unfold preprocess_data.
  assert (Hlen : (List.length
            (filter (fun r : Product * pyval => notna (snd r))
               (map (fun p => (p, safe_json_parse (Features p))) data)) =? 0)%nat
          = false).
  { apply Nat.eqb_neq. intro Habs. apply length_zero_iff_nil in Habs.
    assert (Hp : In (p0, safe_json_parse (Features p0))
                   (filter (fun r : Product * pyval => notna (snd r))
                      (map (fun p => (p, safe_json_parse (Features p))) data))).
    { apply filter_In. split; [|exact Hf]. apply in_map_iff. exists p0. auto. }
    rewrite Habs in Hp. exact Hp. }
  rewrite Hlen. apply FlattenerFacts.flatten_products.
Qed.

Lemma preprocess_data_featureless (data : list Product) :
  (forall p, In p data -> Spec.has_features p = false) ->
  preprocess_data data =
  map (fun p => mkFlatRow p PNone PNone PNone PNone PNone) data.
Proof.
  intro Hnone. unfold preprocess_data.
  assert (Hf : filter (fun r : Product * pyval => notna (snd r))
                 (map (fun p => (p, safe_json_parse (Features p))) data) = []).
  { induction data as [|p data IH]; [reflexivity|]. simpl.
    pose proof (Hnone p (or_introl eq_refl)) as Hp.
    unfold Spec.has_features in Hp. rewrite Hp.
    apply IH. intros q Hq. apply Hnone. right. exact Hq. }
  rewrite Hf. simpl. rewrite map_map. reflexivity.
Qed.

Lemma featured_or_not (data : list Product) :
  (exists p, In p data /\ Spec.has_features p = true)
  \/ (forall p, In p data -> Spec.has_features p = false).
Proof.
  induction data as [|p data [(q & Hq & Hf) | Hnone]].
  - right. intros p [].
  - left. exists q. split; [right|]; assumption.
  - destruct (Spec.has_features p) eqn:E.
    + left. exists p. split; [left; reflexivity | exact E].
    + right. intros q [<- | Hq]; auto.
Qed.

(** Every flattened row carries a product of the table. *)
Lemma preprocess_row_product_in_data (data : list Product) (row : FlatRow) :
  In row (preprocess_data data) -> In (product row) data.
Proof.
  destruct (featured_or_not data) as [Hsome | Hnone].
  - rewrite (preprocess_data_featured data Hsome). intro Hrow.
    apply in_flat_map in Hrow. destruct Hrow as (p & Hp & Hrow).
    apply filter_In in Hp.
    pose proof (proj2 (product_rows_product p)) as Hall.
    rewrite Forall_forall in Hall. rewrite (Hall row Hrow). tauto.
  - rewrite (preprocess_data_featureless data Hnone). intro Hrow.
    apply in_map_iff in Hrow. destruct Hrow as (p & <- & Hp). exact Hp.
Qed.

Lemma flat_map_length_ge {A B : Type} (f : A -> list B) (l : list A) :
  (forall x, f x <> []) -> (List.length l <= List.length (flat_map f l))%nat.
Proof.
  intro Hf. induction l as [|x l IH]; simpl; [lia|].
  rewrite length_app. specialize (Hf x). destruct (f x); [congruence | simpl; lia].
Qed.

(** X1.  When no product of the table has a parsed feature payload, the
    flattened table has exactly one row per product, in the order of the
    table, with all five feature columns [None]. *)
Theorem preprocess_without_features :
  forall data : list Product,
    (forall p, In p data -> Spec.has_features p = false) ->
    preprocess_data data =
      map (fun p => mkFlatRow p PNone PNone PNone PNone PNone) data
    /\ List.length (preprocess_data data) = List.length data.
Proof.
  intros data Hnone. rewrite (preprocess_data_featureless data Hnone).
  split; [reflexivity | apply length_map].
Qed.

Lemma preprocess_without_features_witness :
  (forall p, In p [mkProduct "Bare" "Nil" None RNaN CellMissing;
                   mkProduct "Odd" "Nil" None RNaN (CellText None)] ->
             Spec.has_features p = false)
  /\ List.length
       (preprocess_data [mkProduct "Bare" "Nil" None RNaN CellMissing;
                         mkProduct "Odd" "Nil" None RNaN (CellText None)]) = 2%nat.
Proof.
  assert (H : forall p, In p [mkProduct "Bare" "Nil" None RNaN CellMissing;
                              mkProduct "Odd" "Nil" None RNaN (CellText None)] ->
                        Spec.has_features p = false).
  { intros p [<- | [<- | []]]; reflexivity. }
  split; [exact H|].
  apply (preprocess_without_features _ H).
Defined.

(** X2.  As soon as one product has a parsed feature payload, products
    without one are dropped: every flattened row belongs to a product of
    the table that has a payload, every such product has at least one row,
    and the table has at least as many rows as there are such products. *)
Theorem preprocess_keeps_featured_products_only :
  forall data : list Product,
    (exists p, In p data /\ Spec.has_features p = true) ->
    Forall (fun row => In (product row) data
                       /\ Spec.has_features (product row) = true)
           (preprocess_data data)
    /\ (forall p, In p data -> Spec.has_features p = true ->
                  exists row, In row (preprocess_data data) /\ product row = p)
    /\ (List.length (filter Spec.has_features data)
        <= List.length (preprocess_data data))%nat.
Proof.
  intros data Hsome. rewrite (preprocess_data_featured data Hsome).
  split; [|split].
  - apply Forall_forall. intros row Hrow. apply in_flat_map in Hrow.
    destruct Hrow as (p & Hp & Hrow). apply filter_In in Hp.
    pose proof (proj2 (product_rows_product p)) as Hall.
    rewrite Forall_forall in Hall. rewrite (Hall row Hrow). exact Hp.
  - intros p Hp Hf.
    destruct (flat_map (Spec.group_rows p)
                (explode_cell (safe_json_parse (Features p)))) as [|row rows] eqn:E.
    + exfalso. exact (proj1 (product_rows_product p) E).
    + exists row. split.
      * apply in_flat_map. exists p. split; [apply filter_In; auto|].
        rewrite E. left. reflexivity.
      * pose proof (proj2 (product_rows_product p)) as Hall.
        rewrite E in Hall. inversion Hall; assumption.
  - apply flat_map_length_ge. intro p. apply product_rows_product.
Qed.

Lemma preprocess_keeps_featured_products_only_witness :
  (exists p, In p (mkProduct "Bare" "Nil" None RNaN CellMissing :: Sample.catalog)
             /\ Spec.has_features p = true)
  /\ Forall (fun row =>
               In (product row)
                  (mkProduct "Bare" "Nil" None RNaN CellMissing :: Sample.catalog)
               /\ Spec.has_features (product row) = true)
       (preprocess_data
          (mkProduct "Bare" "Nil" None RNaN CellMissing :: Sample.catalog)).
Proof.
  assert (H : exists p,
             In p (mkProduct "Bare" "Nil" None RNaN CellMissing :: Sample.catalog)
             /\ Spec.has_features p = true).
  { exists Sample.crm. split; [right; left; reflexivity | reflexivity]. }
  split; [exact H|].
  apply (preprocess_keeps_featured_products_only _ H).
Defined.

Lemma prefix_refl (s : string) : prefix s s = true.
Proof.
  induction s as [|c s IH]; simpl; [reflexivity|].
  destruct (ascii_dec c c); [exact IH | congruence].
Qed.

Lemma contains_refl (s : string) : contains s s = true.
Proof.
  destruct s; simpl; [reflexivity|].
  destruct (ascii_dec a a); [|congruence]. rewrite prefix_refl. reflexivity.
Qed.

(** X3.  The exact-match query of the data loader is stricter than the
    matcher's category filter: for a category that is neither empty nor
    ["all"] and that compiles to a literal case-insensitive search, every
    row [get_vendors_by_category] returns is kept by [category_filter], and
    all returned rows carry exactly the requested category. *)
Theorem exact_category_rows_pass_category_filter :
  forall (re_compile_ci : string -> option (string -> bool))
         (dataset : list FlatRow) (category : string) (search : string -> bool),
    category <> ""%string ->
    lower category <> "all"%string ->
    re_compile_ci category = Some search ->
    (forall c, search c = contains_ci category c) ->
    Forall (fun row => main_category (product row) = Some category)
           (get_vendors_by_category dataset category)
    /\ exists kept,
        FeatureMatcher.category_filter re_compile_ci category dataset = Some kept
        /\ incl (get_vendors_by_category dataset category) kept.
Proof.
  intros re_compile_ci dataset category search Hne Hall Hre Hs.
  assert (Hexact : Forall (fun row => main_category (product row) = Some category)
                     (get_vendors_by_category dataset category)).
  { apply Forall_forall. intros row Hrow. apply filter_In in Hrow.
    destruct Hrow as [_ Hc]. destruct (main_category (product row)); [|discriminate].
    apply String.eqb_eq in Hc. congruence. }
  split; [exact Hexact|].
  unfold FeatureMatcher.category_filter.
  apply String.eqb_neq in Hne. apply String.eqb_neq in Hall.
  rewrite Hne, Hall, Hre. simpl. eexists. split; [reflexivity|].
  intros row Hrow. rewrite Forall_forall in Hexact.
  pose proof (Hexact row Hrow) as Hc.
  apply filter_In in Hrow. apply filter_In. split; [tauto|].
  rewrite Hc, Hs. unfold contains_ci. apply contains_refl.
Qed.

Lemma exact_category_rows_pass_category_filter_witness :
  "CRM Software"%string <> ""%string /\
  lower "CRM Software" <> "all"%string /\
  Sample.literal_compile "CRM Software" = Some (contains_ci "CRM Software") /\
  (forall c, contains_ci "CRM Software" c = contains_ci "CRM Software" c) /\
  Forall (fun row => main_category (product row) = Some "CRM Software"%string)
    (get_vendors_by_category (preprocess_data Sample.catalog) "CRM Software").
Proof.
  split; [discriminate|]. split; [discriminate|]. split; [reflexivity|].
  split; [reflexivity|].
  apply (exact_category_rows_pass_category_filter Sample.literal_compile
           (preprocess_data Sample.catalog) "CRM Software"
           (contains_ci "CRM Software")); try discriminate; reflexivity.
Defined.

(** X4.  [get_vendor_features] never returns a missing value; it returns
    the empty list for a product name that is not in the table, and for
    every name when no product of the table has a parsed feature payload. *)
Theorem get_vendor_features_edge_cases :
  forall (data : list Product) (vendor_name : string),
    Forall (fun v => notna v = true)
           (get_vendor_features (preprocess_data data) vendor_name)
    /\ ((forall p, In p data -> product_name p <> vendor_name) ->
        get_vendor_features (preprocess_data data) vendor_name = [])
    /\ ((forall p, In p data -> Spec.has_features p = false) ->
        get_vendor_features (preprocess_data data) vendor_name = []).
Proof.
  intros data vendor_name. unfold get_vendor_features. split; [|split].
  - apply Forall_forall. intros v Hv. apply filter_In in Hv. tauto.
  - intro Hnames.
    assert (Hf : filter (fun row => String.eqb (product_name (product row)) vendor_name)
                   (preprocess_data data) = []).
    { apply MatcherFacts.filter_none. apply Forall_forall. intros row Hrow.
      apply String.eqb_neq. apply Hnames.
      apply preprocess_row_product_in_data. exact Hrow. }
    rewrite Hf. reflexivity.
  - intro Hnone. rewrite (preprocess_data_featureless data Hnone).
    apply MatcherFacts.filter_none. apply Forall_forall. intros v Hv.
    apply in_map_iff in Hv. destruct Hv as (row & <- & Hrow).
    apply filter_In in Hrow. destruct Hrow as [Hrow _].
    apply in_map_iff in Hrow. destruct Hrow as (p & <- & _). reflexivity.
Qed.

Lemma get_vendor_features_edge_cases_witness :
  (forall p, In p Sample.catalog -> product_name p <> "Ghost"%string) /\
  get_vendor_features (preprocess_data Sample.catalog) "Ghost" = [].
Proof.
  assert (H : forall p, In p Sample.catalog -> product_name p <> "Ghost"%string).
  { intros p [<- | [<- | []]]; discriminate. }
  split; [exact H|].
  apply (proj1 (proj2 (get_vendor_features_edge_cases Sample.catalog "Ghost")) H).
Defined.

Example sample_vendor_features :
  get_vendor_features (preprocess_data Sample.catalog) "Acme CRM"
  = [PStr "Lead Management"; PStr "Email Marketing"]
  /\ get_vendor_features (preprocess_data [Sample.empty_group_product]) "Void"
     = [PStr ""].
Proof. split; reflexivity. Qed.

(** X5.  [get_vendors_by_features] returns nothing for an empty feature
    list, returns only rows whose feature name is one of the requested
    strings, and returns more rows, never fewer, when features are added to
    the request. *)
Theorem get_vendors_by_features_monotone :
  forall (dataset : list FlatRow) (features more : list string),
    get_vendors_by_features dataset [] = []
    /\ Forall (fun row => exists s, Feature_name row = PStr s /\ In s features)
              (get_vendors_by_features dataset features)
    /\ (incl features more ->
        incl (get_vendors_by_features dataset features)
             (get_vendors_by_features dataset more)).
Proof.
  intros dataset features more. unfold get_vendors_by_features. split; [|split].
  - apply MatcherFacts.filter_none. apply Forall_forall. intros row _.
    unfold isin. destruct (Feature_name row); reflexivity.
  - apply Forall_forall. intros row Hrow. apply filter_In in Hrow.
    destruct Hrow as [_ Hin]. unfold isin in Hin.
    destruct (Feature_name row); try discriminate.
    apply existsb_exists in Hin. destruct Hin as (t & Ht & Heq).
    apply String.eqb_eq in Heq. subst t. eauto.
  - intros Hincl row Hrow. apply filter_In in Hrow. apply filter_In.
    split; [tauto|]. destruct Hrow as [_ Hin]. unfold isin in *.
    destruct (Feature_name row); try discriminate.
    apply existsb_exists in Hin. destruct Hin as (t & Ht & Heq).
    apply existsb_exists. exists t. auto.
Qed.

Lemma get_vendors_by_features_monotone_witness :
  incl ["Invoicing"%string] ["Invoicing"; "Lead Management"]%string /\
  incl (get_vendors_by_features (preprocess_data Sample.catalog) ["Invoicing"%string])
       (get_vendors_by_features (preprocess_data Sample.catalog)
          ["Invoicing"; "Lead Management"]%string).
Proof.
  assert (H : incl ["Invoicing"%string] ["Invoicing"; "Lead Management"]%string).
  { intros s [<- | []]. left. reflexivity. }
  split; [exact H|].
  apply (proj2 (proj2 (get_vendors_by_features_monotone
                         (preprocess_data Sample.catalog)
                         ["Invoicing"%string]
                         ["Invoicing"; "Lead Management"]%string)) H).
Defined.

End DataLoaderExtra.

(** ** Feature texts and the list of matches *)

Module MatcherExtra.
Import Py.
Import DataLoader.
Import FeatureMatcher.
Import PyFacts.
Import MatcherFacts.
Local Open Scope Q_scope.

Lemma lstrip_no_leading_space (s : string) :
  SpecMore.starts_with_space (lstrip s) = false.
Proof.
  induction s as [|c s IH]; simpl; [reflexivity|].
  destruct (is_space c) eqn:E; [exact IH | simpl; exact E].
Qed.

Lemma rstrip_keeps_start (s : string) :
  SpecMore.starts_with_space s = false ->
  SpecMore.starts_with_space (rstrip s) = false.
Proof.
  destruct s as [|c s]; simpl; [auto|]. intro H.
  destruct (rstrip s); [rewrite H|]; simpl; exact H.
Qed.

Lemma rstrip_no_trailing_space (s : string) :
  SpecMore.ends_with_space (rstrip s) = false.
Proof.
  induction s as [|c s IH]; simpl; [reflexivity|].
  destruct (rstrip s) as [|d t] eqn:E.
  - destruct (is_space c) eqn:Ec; simpl; [reflexivity | exact Ec].
  - exact IH.
Qed.

Lemma strip_clean (s : string) :
  SpecMore.starts_with_space (strip s) = false
  /\ SpecMore.ends_with_space (strip s) = false.
Proof.
  unfold strip. split.
  - apply rstrip_keeps_start, lstrip_no_leading_space.
  - apply rstrip_no_trailing_space.
Qed.

(** X6.  The text prepared for a feature row is never empty and has no
    white space at either end; when name and description are each missing
    ([None], NaN), empty or the string ["nan"], it is the placeholder
    ["unknown feature"]. *)
Theorem prepare_feature_text_never_empty :
  forall (py_repr : pyval -> string) (feature_name feature_description : pyval),
    let text := _prepare_feature_text py_repr feature_name feature_description in
    text <> ""%string
    /\ SpecMore.starts_with_space text = false
    /\ SpecMore.ends_with_space text = false
    /\ (In feature_name [PNone; PNaN; PStr ""; PStr "nan"] ->
        In feature_description [PNone; PNaN; PStr ""; PStr "nan"] ->
        text = "unknown feature"%string).
Proof.
  intros py_repr feature_name feature_description text.
  assert (Hcases : text = "unknown feature"%string
                   \/ (text <> ""%string /\ exists s, text = strip s)).
  { unfold text, _prepare_feature_text.
    destruct (String.eqb_spec
                (strip (str_or_empty py_repr feature_name ++ " "
                        ++ str_or_empty py_repr feature_name ++ " "
                        ++ str_or_empty py_repr feature_description)) "").
    - left. reflexivity.
    - right. split; [assumption|]. eexists. reflexivity. }
  split; [|split; [|split]].
  - destruct Hcases as [-> | [H _]]; [discriminate | exact H].
  - destruct Hcases as [-> | [_ (s & ->)]]; [reflexivity | apply strip_clean].
  - destruct Hcases as [-> | [_ (s & ->)]]; [reflexivity | apply strip_clean].
  - unfold text.
    intros [<- | [<- | [<- | [<- | []]]]] [<- | [<- | [<- | [<- | []]]]];
      reflexivity.
Qed.

Lemma prepare_feature_text_never_empty_witness :
  In PNaN [PNone; PNaN; PStr ""; PStr "nan"] /\
  In (PStr "nan") [PNone; PNaN; PStr ""; PStr "nan"] /\
  _prepare_feature_text Sample.sample_repr PNaN (PStr "nan")
    = "unknown feature"%string.
Proof.
  assert (H1 : In PNaN [PNone; PNaN; PStr ""; PStr "nan"])
    by (right; left; reflexivity).
  assert (H2 : In (PStr "nan") [PNone; PNaN; PStr ""; PStr "nan"])
    by (right; right; right; left; reflexivity).
  split; [exact H1|]. split; [exact H2|].
  apply (proj2 (proj2 (proj2 (prepare_feature_text_never_empty
                                Sample.sample_repr PNaN (PStr "nan")))) H1 H2).
Defined.

Lemma enumerate_length {A : Type} (l : list A) :
  List.length (enumerate l) = List.length l.
Proof.
  unfold enumerate. rewrite length_combine, length_seq. apply Nat.min_id.
Qed.

Lemma flat_map_length_const {A B : Type} (f : A -> list B) (n : nat) (l : list A) :
  (forall x, List.length (f x) = n) ->
  List.length (flat_map f l) = (List.length l * n)%nat.
Proof.
  intro Hf. induction l as [|x l IH]; simpl; [reflexivity|].
  rewrite length_app, Hf, IH. reflexivity.
Qed.

Lemma filter_length_bound {A : Type} (p : A -> bool) (l : list A) :
  (List.length (filter p l) <= List.length l)%nat.
Proof.
  induction l as [|x l IH]; simpl; [lia|]. destruct (p x); simpl; lia.
Qed.

Section Matcher.

Variable py_repr : pyval -> string.
Variable tfidf_cosine : list string -> list string -> option (nat -> nat -> Q).

Lemma candidates_length (capabilities : list string) (features_df : list FlatRow) :
  List.length (Spec.candidates py_repr tfidf_cosine capabilities features_df)
  = (List.length capabilities * List.length features_df)%nat.
Proof.
  unfold Spec.candidates.
  rewrite (flat_map_length_const _ (List.length features_df)).
  - rewrite enumerate_length. reflexivity.
  - intro ic. rewrite length_map. apply enumerate_length.
Qed.

(** X7.  The list [find_matching_features] returns is in descending order
    of similarity score, holds only scores that reach the threshold, and
    has at most one match per pair of a capability and a row. *)
Theorem matches_sorted_and_bounded :
  forall (threshold : Q) (capabilities : list string) (features_df : list FlatRow),
    let out := find_matching_features py_repr tfidf_cosine threshold
                 capabilities features_df in
    Spec.descending similarity_score out
    /\ Forall (fun m => threshold <= similarity_score m) out
    /\ (List.length out <= List.length capabilities * List.length features_df)%nat.
Proof.
  intros threshold capabilities features_df out. split; [|split].
  - unfold out. rewrite find_matching_features_candidates.
    apply sort_reverse_descending.
  - apply Forall_forall. intros m Hm. unfold out in Hm.
    apply find_matching_features_In in Hm. tauto.
  - unfold out. rewrite find_matching_features_candidates.
    rewrite (Permutation_length (sort_reverse_perm similarity_score _)).
    rewrite <- candidates_length. apply filter_length_bound.
Qed.

End Matcher.

End MatcherExtra.

(** ** Vendor aggregator: keys, counters and capability sets *)

Module AggregatorExtra.
Import Py.
Import DataLoader.
Import FeatureMatcher.
Import PyFacts.
Import AggregatorFacts.
Local Open Scope Q_scope.

(** Membership in the dict after one more iteration of the loop. *)
Lemma add_match_In (d : VendorDict) (m : Match) (k : string) (v : VendorData) :
  NoDup (map fst d) ->
  In (k, v) (add_match d m) ->
  (k <> vendor_key m /\ In (k, v) d)
  \/ (k = vendor_key m
      /\ ((exists v0, In (k, v0) d /\ v = record_match m v0)
          \/ (dict_mem k d = false /\ v = record_match m (new_vendor m)))).
Proof.
  intros Hnd Hin. unfold add_match in Hin.
  remember (vendor_key m) as km eqn:Ek.
  destruct (dict_mem km d) eqn:E.
  - apply (dict_update_In _ _ _ _ _ Hnd) in Hin.
    destruct Hin as [[H1 H2] | [-> (v0 & H2 & ->)]]; [left; auto|].
    right. split; [reflexivity|]. left. exists v0. auto.
  - assert (Hnd' : NoDup (map fst (d ++ [(km, new_vendor m)]))).
    { rewrite map_app. simpl. apply NoDup_app. repeat split.
      - assumption.
      - repeat constructor; tauto.
      - intros x Hx [<- | []]. apply dict_mem_In in Hx. congruence. }
    apply (dict_update_In _ _ _ _ _ Hnd') in Hin.
    destruct Hin as [[H1 H2] | [-> (v0 & H2 & ->)]].
    + left. split; [assumption|]. apply in_app_or in H2.
      destruct H2 as [H2 | [Heq | []]]; [assumption|].
      inversion Heq; subst. congruence.
    + right. split; [reflexivity|]. apply in_app_or in H2.
      destruct H2 as [H2 | [Heq | []]].
      * exfalso. assert (Hk : In km (map fst d)).
        { change km with (fst (km, v0)). apply in_map. exact H2. }
        apply dict_mem_In in Hk. congruence.
      * inversion Heq; subst. right. auto.
Qed.

(** The entry of a vendor is its first match's fresh entry with all its
    matches folded in, in order. *)
Lemma fold_add_match_entry (ms : list Match) (k : string) (v : VendorData) :
  In (k, v) (fold_left add_match ms []) ->
  exists m0 rest,
    Spec.matches_of k ms = m0 :: rest
    /\ v = fold_left (fun v m => record_match m v) (m0 :: rest) (new_vendor m0).
Proof.
  revert k v. induction ms as [|m ms IH] using rev_ind; intros k v Hin.
  - destruct Hin.
  - rewrite fold_left_app in Hin. simpl in Hin.
    destruct (fold_add_match_invariant ms) as (Hnd & Hkeys & _).
    apply (add_match_In _ _ _ _ Hnd) in Hin.
    rewrite matches_of_snoc.
    destruct Hin as [[Hne Hin] | [-> [(v0 & Hin & ->) | [Hmem ->]]]].
    + destruct (IH _ _ Hin) as (m0 & rest & Hm & Hv).
      exists m0, rest. split; [|exact Hv].
      destruct (String.eqb_spec (vendor_key m) k) as [Heq|_]; [congruence|].
      rewrite app_nil_r. exact Hm.
    + destruct (IH _ _ Hin) as (m0 & rest & Hm & Hv).
      exists m0, (rest ++ [m]). rewrite String.eqb_refl, Hm. split; [reflexivity|].
      rewrite Hv. change (m0 :: rest ++ [m]) with ((m0 :: rest) ++ [m]).
      rewrite fold_left_app. reflexivity.
    + assert (Hnone : Spec.matches_of (vendor_key m) ms = []).
      { destruct (Spec.matches_of (vendor_key m) ms) as [|m0 l] eqn:Em; [reflexivity|].
        assert (Hm0 : In m0 (Spec.matches_of (vendor_key m) ms))
          by (rewrite Em; left; reflexivity).
        apply filter_In in Hm0. destruct Hm0 as [Hm0 Hk0].
        apply String.eqb_eq in Hk0. apply Hkeys in Hm0. rewrite Hk0 in Hm0.
        apply dict_mem_In in Hm0. congruence. }
      exists m, []. rewrite String.eqb_refl, Hnone. split; reflexivity.
Qed.

Lemma fold_record_match_identity (l : list Match) (v0 : VendorData) :
  let v := fold_left (fun v m => record_match m v) l v0 in
  vd_product_name v = vd_product_name v0
  /\ vd_vendor v = vd_vendor v0
  /\ vd_main_category v = vd_main_category v0
  /\ rating v = rating v0
  /\ matched_capabilities v =
     fold_left (fun s m => set_add (matched_capability m) s) l
       (matched_capabilities v0).
Proof.
  revert v0. induction l as [|m l IH]; intro v0; simpl.
  - repeat split.
  - destruct (IH (record_match m v0)) as (H1 & H2 & H3 & H4 & H5).
    simpl in *. repeat split; assumption.
Qed.

Lemma set_add_In (x y : string) (s : list string) :
  In y (set_add x s) <-> y = x \/ In y s.
Proof.
  unfold set_add. destruct (existsb (String.eqb x) s) eqn:E.
  - split; [auto|]. intros [-> | H]; [|exact H].
    apply existsb_exists in E. destruct E as (z & Hz & Heq).
    apply String.eqb_eq in Heq. subst z. exact Hz.
  - rewrite in_app_iff. simpl. split; intros [H | H]; auto.
    destruct H as [<- | []]. auto.
Qed.

Lemma set_add_NoDup (x : string) (s : list string) :
  NoDup s -> NoDup (set_add x s).
Proof.
  intro H. unfold set_add. destruct (existsb (String.eqb x) s) eqn:E; [exact H|].
  apply NoDup_app. repeat split.
  - assumption.
  - repeat constructor; tauto.
  - intros y Hy [Heq | []]. subst y.
    assert (Hex : existsb (String.eqb x) s = true).
    { apply existsb_exists. exists x. split; [assumption | apply String.eqb_refl]. }
    congruence.
Qed.

Lemma fold_set_add (l : list Match) (s : list string) :
  NoDup s ->
  NoDup (fold_left (fun s m => set_add (matched_capability m) s) l s)
  /\ forall c, In c (fold_left (fun s m => set_add (matched_capability m) s) l s)
               <-> In c s \/ exists m, In m l /\ matched_capability m = c.
Proof.
  revert s. induction l as [|m l IH]; intros s Hs; simpl.
  - split; [exact Hs|]. intro c. split; [auto|].
    intros [H | (m & [] & _)]. exact H.
  - destruct (IH _ (set_add_NoDup (matched_capability m) s Hs)) as [H1 H2].
    split; [exact H1|]. intro c. rewrite H2, set_add_In. split.
    + intros [[-> | H] | (m' & Hm' & Hc)]; eauto.
    + intros [H | (m' & [<- | Hm'] & Hc)]; eauto.
Qed.

Lemma set_average_fields (v : VendorData) :
  vd_product_name (set_average v) = vd_product_name v
  /\ vd_vendor (set_average v) = vd_vendor v
  /\ rating (set_average v) = rating v
  /\ matched_capabilities (set_average v) = matched_capabilities v
  /\ total_matches (set_average v) = total_matches v.
Proof.
  unfold set_average. destruct (0 <? total_matches v)%nat; repeat split.
Qed.

Lemma indicator_sum (x : string) (keys : list string) :
  NoDup keys -> In x keys ->
  list_sum (map (fun k => if String.eqb x k then 1 else 0)%nat keys) = 1%nat.
Proof.
  induction keys as [|k keys IH]; intros Hnd Hin; [destruct Hin|].
  inversion Hnd as [|? ? Hk Hnd']; subst. simpl.
  destruct (String.eqb_spec x k) as [->|Hne].
  - assert (H0 : list_sum (map (fun k0 => if String.eqb k k0 then 1 else 0)%nat keys)
                 = 0%nat).
    { clear IH Hnd Hnd' Hin. induction keys as [|k0 keys IH]; [reflexivity|]. simpl.
      destruct (String.eqb_spec k k0) as [->|_].
      - exfalso. apply Hk. left. reflexivity.
      - apply IH. intro H. apply Hk. right. exact H. }
    rewrite H0. reflexivity.
  - destruct Hin as [-> | Hin]; [congruence|]. apply IH; assumption.
Qed.

Lemma list_sum_step (a : nat) (l : list nat) :
  list_sum (a :: l) = (a + list_sum l)%nat.
Proof. reflexivity. Qed.

Lemma matches_of_cons_sum (keys : list string) (m : Match) (ms : list Match) :
  list_sum (map (fun k => List.length (Spec.matches_of k (m :: ms))) keys)
  = (list_sum (map (fun k => if String.eqb (vendor_key m) k then 1 else 0) keys)
     + list_sum (map (fun k => List.length (Spec.matches_of k ms)) keys))%nat.
Proof.
  induction keys as [|k keys IH]; [reflexivity|].
  rewrite !map_cons, !list_sum_step, IH.
  unfold Spec.matches_of at 1. cbn [filter].
  fold (Spec.matches_of k ms).
  destruct (String.eqb (vendor_key m) k); cbn [List.length]; lia.
Qed.

(** Distinct keys that cover all matches split the matches into classes. *)
Lemma matches_partition (keys : list string) (ms : list Match) :
  NoDup keys ->
  (forall m, In m ms -> In (vendor_key m) keys) ->
  list_sum (map (fun k => List.length (Spec.matches_of k ms)) keys) = List.length ms.
Proof.
  intros Hnd. induction ms as [|m ms IH]; intro Hcov.
  - clear Hnd Hcov. induction keys as [|k keys IHk]; [reflexivity | exact IHk].
  - rewrite matches_of_cons_sum.
    rewrite (indicator_sum (vendor_key m) keys Hnd (Hcov m (or_introl eq_refl))).
    rewrite IH by (intros; apply Hcov; right; assumption). reflexivity.
Qed.

Lemma select_keys (ms : list Match) :
  map fst (select_matching_vendors ms) = map fst (fold_left add_match ms []).
Proof.
  unfold select_matching_vendors. rewrite map_map. reflexivity.
Qed.

Lemma select_entry (ms : list Match) (k : string) (v' : VendorData) :
  In (k, v') (select_matching_vendors ms) ->
  exists v, In (k, v) (fold_left add_match ms []) /\ v' = set_average v.
Proof.
  unfold select_matching_vendors. intro Hin. apply in_map_iff in Hin.
  destruct Hin as ([k0 v] & Heq & Hin). simpl in Heq. inversion Heq; subst.
  exists v. auto.
Qed.

(** X8.  The vendor keys of the aggregation are pairwise distinct and are
    exactly the keys [product_name + "_" + vendor] of the matches; each
    entry is labelled with the product name and vendor its key is made of,
    and carries no rating yet. *)
Theorem vendor_keys_of_matches :
  forall matches : list Match,
    NoDup (map fst (select_matching_vendors matches))
    /\ (forall k, In k (map fst (select_matching_vendors matches)) <->
                  exists m, In m matches /\ vendor_key m = k)
    /\ Forall (fun kv =>
                 fst kv = (vd_product_name (snd kv) ++ "_" ++ vd_vendor (snd kv))%string
                 /\ rating (snd kv) = None)
              (select_matching_vendors matches).
Proof.
  intro matches.
  destruct (fold_add_match_invariant matches) as (Hnd & Hkeys & Hinv).
  split; [|split].
  - rewrite select_keys. exact Hnd.
  - intro k. rewrite select_keys. split.
    + intro Hk. apply in_map_iff in Hk. destruct Hk as ([k0 v] & <- & Hin).
      destruct (Hinv _ _ Hin) as (Hne & _).
      destruct (Spec.matches_of k0 matches) as [|m l] eqn:E; [congruence|].
      assert (Hm : In m (Spec.matches_of k0 matches)) by (rewrite E; left; reflexivity).
      apply filter_In in Hm. destruct Hm as [Hm Hk]. apply String.eqb_eq in Hk.
      exists m. auto.
    + intros (m & Hm & <-). apply Hkeys. exact Hm.
  - apply Forall_forall. intros [k v'] Hin. apply select_entry in Hin.
    destruct Hin as (v & Hin & ->). simpl fst. simpl snd.
    destruct (set_average_fields v) as (H1 & H2 & H3 & _). rewrite H1, H2, H3.
    destruct (fold_add_match_entry _ _ _ Hin) as (m0 & rest & Hm & ->).
    destruct (fold_record_match_identity (m0 :: rest) (new_vendor m0))
      as (E1 & E2 & _ & E4 & _).
    rewrite E1, E2, E4. simpl. split; [|reflexivity].
    assert (Hm0 : In m0 (Spec.matches_of k matches)) by (rewrite Hm; left; reflexivity).
    apply filter_In in Hm0. destruct Hm0 as [_ Hk]. apply String.eqb_eq in Hk.
    symmetry. exact Hk.
Qed.

Lemma select_totals (ms : list Match) :
  map (fun kv => total_matches (snd kv)) (select_matching_vendors ms)
  = map (fun k => List.length (Spec.matches_of k ms))
      (map fst (fold_left add_match ms [])).
Proof.
  destruct (fold_add_match_invariant ms) as (_ & _ & Hinv).
  unfold select_matching_vendors. rewrite !map_map. apply map_ext_in.
  intros [k v] Hin. simpl.
  destruct (set_average_fields v) as (_ & _ & _ & _ & ->).
  destruct (Hinv _ _ Hin) as (_ & _ & Ht & _). exact Ht.
Qed.

(** X9.  Every match is counted in exactly one vendor entry: the
    [total_matches] of the entries add up to the number of matches, each
    entry counts at least one, and there are at most as many vendors as
    matches. *)
Theorem every_match_counted_once :
  forall matches : list Match,
    list_sum (map (fun kv => total_matches (snd kv))
                (select_matching_vendors matches)) = List.length matches
    /\ Forall (fun kv => (1 <= total_matches (snd kv))%nat)
              (select_matching_vendors matches)
    /\ (List.length (select_matching_vendors matches) <= List.length matches)%nat.
Proof.
  intro matches.
  destruct (fold_add_match_invariant matches) as (Hnd & Hkeys & Hinv).
  assert (Hsum : list_sum (map (fun kv => total_matches (snd kv))
                (select_matching_vendors matches)) = List.length matches).
  { rewrite select_totals. apply matches_partition; assumption. }
  assert (Hpos : Forall (fun kv => (1 <= total_matches (snd kv))%nat)
              (select_matching_vendors matches)).
  { apply Forall_forall. intros [k v'] Hin. apply select_entry in Hin.
    destruct Hin as (v & Hin & ->). simpl.
    destruct (set_average_fields v) as (_ & _ & _ & _ & ->).
    destruct (Hinv _ _ Hin) as (Hne & _ & Ht & _). rewrite Ht.
    destruct (Spec.matches_of k matches); [congruence | simpl; lia]. }
  split; [exact Hsum|]. split; [exact Hpos|].
  rewrite <- Hsum. clear Hsum.
  induction Hpos as [|kv l Hkv _ IH]; simpl; lia.
Qed.

(** X10.  The matched capabilities of a vendor form a set: no capability
    is listed twice, and a capability is listed if and only if one of the
    vendor's matches was found for it. *)
Theorem matched_capabilities_are_a_set :
  forall matches : list Match,
    Forall (fun kv =>
              NoDup (matched_capabilities (snd kv))
              /\ forall c, In c (matched_capabilities (snd kv)) <->
                           exists m, In m (Spec.matches_of (fst kv) matches)
                                     /\ matched_capability m = c)
           (select_matching_vendors matches).
Proof.
  intro matches. apply Forall_forall. intros [k v'] Hin.
  apply select_entry in Hin. destruct Hin as (v & Hin & ->). simpl fst. simpl snd.
  destruct (set_average_fields v) as (_ & _ & _ & -> & _).
  destruct (fold_add_match_entry _ _ _ Hin) as (m0 & rest & Hm & ->).
  destruct (fold_record_match_identity (m0 :: rest) (new_vendor m0))
    as (_ & _ & _ & _ & ->).
  rewrite Hm. simpl matched_capabilities.
  destruct (fold_set_add (m0 :: rest) [] (NoDup_nil _)) as [H1 H2].
  split; [exact H1|]. intro c. rewrite H2. split.
  - intros [[] | H]. exact H.
  - auto.
Qed.

Section Counters.

Variable py_repr : pyval -> string.
Variable tfidf_cosine : list string -> list string -> option (nat -> nat -> Q).
Variable re_compile_ci : string -> option (string -> bool).

(** X11.  The counters of a matching result agree with its content:
    [total_vendors] is the number of vendor entries, [total_matches] is the
    number of raw matches and the sum of the vendors' [total_matches]; the
    request is echoed; with no capabilities both counters are zero. *)
Theorem matching_results_counters :
  forall (threshold : Q) (dataframe : list FlatRow) (software_category : string)
         (capabilities : list string) (r : MatchingResults),
    filter_vendors_by_category_and_capabilities py_repr tfidf_cosine re_compile_ci
      threshold dataframe software_category capabilities = Some r ->
    total_vendors r = List.length (matching_vendors r)
    /\ mr_total_matches r =
       list_sum (map (fun kv => total_matches (snd kv)) (matching_vendors r))
    /\ (forall ms, raw_matches r = Some ms -> mr_total_matches r = List.length ms)
    /\ capabilities_searched r = capabilities
    /\ category_searched r = software_category
    /\ mr_similarity_threshold r = threshold
    /\ (capabilities = [] -> total_vendors r = 0%nat /\ mr_total_matches r = 0%nat).
Proof.
  intros threshold dataframe software_category capabilities r.
  unfold filter_vendors_by_category_and_capabilities.
  destruct (category_filter re_compile_ci software_category dataframe)
    as [[|row kept]|]; intro H; inversion H; subst r; clear H; simpl.
  - repeat split; intros; discriminate.
  - pose proof (every_match_counted_once
                  (find_matching_features py_repr tfidf_cosine threshold
                     capabilities (row :: kept))) as (Hsum & _).
    split; [reflexivity|]. split; [symmetry; exact Hsum|].
    split; [intros ms Hms; inversion Hms; reflexivity|].
    split; [reflexivity|]. split; [reflexivity|]. split; [reflexivity|].
    intros ->. split; reflexivity.
Qed.

End Counters.

Lemma matching_results_counters_witness :
  exists r,
    filter_vendors_by_category_and_capabilities Sample.sample_repr
      Sample.sample_cosine Sample.literal_compile (1 # 2)
      (preprocess_data Sample.catalog) "crm" ["lead management"%string] = Some r
    /\ total_vendors r = List.length (matching_vendors r).
Proof.
  eexists. split; [reflexivity|].
  apply (matching_results_counters Sample.sample_repr Sample.sample_cosine
           Sample.literal_compile (1 # 2) (preprocess_data Sample.catalog) "crm"
           ["lead management"%string]).
  reflexivity.
Defined.

End AggregatorExtra.

(** ** The older matcher methods *)

Module LegacyExtra.
Import Py.
Import DataLoader.
Import FeatureMatcher.
Import LegacyMatcher.
Import PyFacts.
Import MatcherFacts.
Local Open Scope Q_scope.

Lemma entries_In (M : Matrix) (x : Q) :
  In x (entries M) <->
  exists i j, (i < n_rows M)%nat /\ (j < n_cols M)%nat /\ x = entry M i j.
Proof.
  unfold entries. rewrite in_flat_map. split.
  - intros (i & Hi & Hx). apply in_map_iff in Hx. destruct Hx as (j & <- & Hj).
    apply in_seq in Hi. apply in_seq in Hj. exists i, j. repeat split; lia.
  - intros (i & j & Hi & Hj & ->). exists i. split; [apply in_seq; lia|].
    apply in_map. apply in_seq. lia.
Qed.

Lemma np_max_spec (M : Matrix) (mx : Q) :
  np_max M = Some mx ->
  Forall (fun x => x <= mx) (entries M) /\ In mx (entries M).
Proof.
  unfold np_max. destruct (entries M) as [|x xs]; [discriminate|].
  intro H. inversion H; subst mx. clear H.
  destruct (AggregatorFacts.fold_py_max_ub xs x) as [Hx Hxs]. split.
  - constructor; assumption.
  - destruct (AggregatorFacts.fold_py_max_attained xs x) as [-> | Hin];
      [left; reflexivity | right; exact Hin].
Qed.

Lemma np_max_defined (M : Matrix) : size M <> 0%nat -> exists mx, np_max M = Some mx.
Proof.
  intro Hsize. unfold np_max.
  destruct (entries M) as [|x xs] eqn:E; [|eauto].
  exfalso. unfold size in Hsize.
  assert (Hin : In (entry M 0 0) (entries M)).
  { apply entries_In. exists 0%nat, 0%nat. repeat split; lia. }
  rewrite E in Hin. exact Hin.
Qed.

Section Legacy.

Variable py_repr : pyval -> string.
Variable tfidf_cosine : list string -> list string -> option (nat -> nat -> Q).

Lemma similarity_matrix_shape (capabilities texts : list string) :
  capabilities <> [] -> texts <> [] ->
  n_rows (compute_similarity_matrix tfidf_cosine capabilities texts)
    = List.length capabilities
  /\ n_cols (compute_similarity_matrix tfidf_cosine capabilities texts)
     = List.length texts.
Proof.
  intros Hc Ht. unfold compute_similarity_matrix.
  destruct capabilities as [|c cs]; [congruence|].
  destruct texts as [|t ts]; [congruence|].
  destruct (tfidf_cosine (c :: cs) (t :: ts)); split; reflexivity.
Qed.

(** On non-empty inputs the call returns the largest entry of the matrix. *)
Lemma compute_similarity_is_max (vendor_features query_features : list string) :
  vendor_features <> [] -> query_features <> [] ->
  exists s,
    compute_similarity tfidf_cosine vendor_features query_features = Some s
    /\ (forall i j, (i < List.length query_features)%nat ->
                    (j < List.length vendor_features)%nat ->
                    entry (compute_similarity_matrix tfidf_cosine query_features
                             vendor_features) i j <= s)
    /\ exists i j, (i < List.length query_features)%nat
                   /\ (j < List.length vendor_features)%nat
                   /\ s = entry (compute_similarity_matrix tfidf_cosine
                                   query_features vendor_features) i j.
Proof.
  intros Hv Hq.
  pose proof (compute_similarity_matrix_size tfidf_cosine _ _ Hq Hv) as Hsize.
  destruct (similarity_matrix_shape _ _ Hq Hv) as [Hr Hc].
  destruct (np_max_defined _ Hsize) as (mx & Hmx).
  exists mx. split.
  - unfold compute_similarity.
    destruct vendor_features as [|vf vfs]; [congruence|].
    destruct query_features as [|qf qfs]; [congruence|].
    apply Nat.eqb_neq in Hsize. rewrite Hsize. exact Hmx.
  - apply np_max_spec in Hmx. destruct Hmx as [Hub Hin]. split.
    + intros i j Hi Hj. rewrite Forall_forall in Hub. apply Hub.
      apply entries_In. exists i, j. rewrite Hr, Hc. auto.
    + apply entries_In in Hin. destruct Hin as (i & j & Hi & Hj & Heq).
      exists i, j. rewrite <- Hr, <- Hc. auto.
Qed.

(** X12.  The older [compute_similarity] never raises.  It returns [0.0]
    when either list is empty and when the vectoriser fails; otherwise it
    returns the largest entry of the similarity matrix of the query
    features against the vendor features. *)
Theorem compute_similarity_total_and_maximal :
  forall vendor_features query_features : list string,
    exists s,
      compute_similarity tfidf_cosine vendor_features query_features = Some s
      /\ (vendor_features = [] \/ query_features = [] -> s = 0)
      /\ (tfidf_cosine query_features vendor_features = None -> s = 0)
      /\ (vendor_features <> [] -> query_features <> [] ->
          (forall i j, (i < List.length query_features)%nat ->
                       (j < List.length vendor_features)%nat ->
                       entry (compute_similarity_matrix tfidf_cosine query_features
                                vendor_features) i j <= s)
          /\ exists i j, (i < List.length query_features)%nat
                         /\ (j < List.length vendor_features)%nat
                         /\ s = entry (compute_similarity_matrix tfidf_cosine
                                         query_features vendor_features) i j).
Proof.
  intros vendor_features query_features.
  destruct vendor_features as [|vf vfs].
  { exists 0. split; [reflexivity|]. repeat split; congruence. }
  destruct query_features as [|qf qfs].
  { exists 0. split; [reflexivity|]. repeat split; congruence. }
  destruct (compute_similarity_is_max (vf :: vfs) (qf :: qfs))
    as (s & Hs & Hub & Hatt); try discriminate.
  exists s. split; [exact Hs|]. split; [|split].
  - intros [H | H]; discriminate.
  - intro Hfail. destruct Hatt as (i & j & _ & _ & ->).
    apply failed_vectorizer_zero_entries. exact Hfail.
  - intros _ _. split; assumption.
Qed.

(** X13.  Old and new matcher agree: for a positive threshold, or for
    non-empty capabilities and rows, the score [compute_similarity] gives
    the feature texts of some rows reaches the threshold if and only if
    [find_matching_features] finds at least one match in these rows. *)
Theorem legacy_score_reaches_threshold_iff_match :
  forall (threshold : Q) (capabilities : list string) (features_df : list FlatRow),
    0 < threshold \/ (capabilities <> [] /\ features_df <> []) ->
    exists s,
      compute_similarity tfidf_cosine (feature_texts_of py_repr features_df)
        capabilities = Some s
      /\ (threshold <= s <->
          find_matching_features py_repr tfidf_cosine threshold capabilities
            features_df <> []).
Proof.
  intros threshold capabilities features_df Hyp.
  destruct features_df as [|r rows].
  { exists 0. split; [reflexivity|].
    destruct Hyp as [Hpos | [_ H]]; [|congruence].
    split; [intro Hle; exfalso; lra | intro H; exfalso; apply H; reflexivity]. }
  destruct capabilities as [|c caps].
  { exists 0. split; [reflexivity|].
    destruct Hyp as [Hpos | [H _]]; [|congruence].
    split; [intro Hle; exfalso; lra | intro H; exfalso; apply H; reflexivity]. }
  destruct (compute_similarity_is_max (feature_texts_of py_repr (r :: rows)) (c :: caps))
    as (s & Hs & Hub & (i & j & Hi & Hj & Heq)); try discriminate.
  exists s. split; [exact Hs|].
  assert (Hlen : List.length (feature_texts_of py_repr (r :: rows))
                 = List.length (r :: rows)) by apply length_map.
  rewrite Hlen in Hub, Hj.
  split.
  - intros Hle Hnil.
    destruct (nth_error (c :: caps) i) as [cap|] eqn:Ec;
      [|apply nth_error_None in Ec; lia].
    destruct (nth_error (r :: rows) j) as [row|] eqn:Er;
      [|apply nth_error_None in Er; lia].
    assert (Hin : In (make_match cap row
                        (entry (compute_similarity_matrix tfidf_cosine (c :: caps)
                                  (feature_texts_of py_repr (r :: rows))) i j)
                        (_prepare_feature_text py_repr (Feature_name row)
                           (Feature_description row)))
                     (find_matching_features py_repr tfidf_cosine threshold
                        (c :: caps) (r :: rows))).
    { apply find_matching_features_In. split.
      - apply candidates_In. exists i, j, cap, row. auto.
      - cbn [similarity_score make_match]. rewrite <- Heq. exact Hle. }
    rewrite Hnil in Hin. exact Hin.
  - intro Hne.
    destruct (find_matching_features py_repr tfidf_cosine threshold (c :: caps)
                (r :: rows)) as [|m ms] eqn:E; [congruence|].
    assert (Hm : In m (find_matching_features py_repr tfidf_cosine threshold
                         (c :: caps) (r :: rows))) by (rewrite E; left; reflexivity).
    apply find_matching_features_In in Hm. destruct Hm as [Hc Hle].
    apply candidates_In in Hc.
    destruct Hc as (i' & j' & cap & row & Hi' & Hj' & ->).
    cbn [similarity_score make_match] in Hle.
    eapply Qle_trans; [exact Hle|]. apply Hub.
    + apply nth_error_Some. congruence.
    + apply nth_error_Some. congruence.
Qed.

Lemma compute_similarity_defined (vendor_features query_features : list string) :
  exists s,
    compute_similarity tfidf_cosine vendor_features query_features = Some s
    /\ (vendor_features = [] \/ query_features = [] -> s = 0).
Proof.
  destruct vendor_features as [|vf vfs].
  { exists 0. split; [reflexivity | auto]. }
  destruct query_features as [|qf qfs].
  { exists 0. split; [reflexivity | auto]. }
  destruct (compute_similarity_is_max (vf :: vfs) (qf :: qfs))
    as (s & Hs & _); try discriminate.
  exists s. split; [exact Hs|]. intros [H | H]; discriminate.
Qed.

Context {Vendor : Type}.
Variable features : Vendor -> FeaturesField.

(** X14.  The older [filter_by_similarity] never raises.  It returns, in
    their original order, vendors of the input paired with their
    [compute_similarity] score, all scores reaching the threshold.  For a
    positive threshold a vendor without features is never returned, and
    nothing is returned for an empty query; raising the threshold can only
    remove vendors. *)
Theorem filter_by_similarity_sound :
  forall (threshold : Q) (vendors : list Vendor) (query_features : list string),
    exists out,
      filter_by_similarity tfidf_cosine features threshold vendors query_features
        = Some out
      /\ Forall (fun vs =>
                   In (fst vs) vendors
                   /\ threshold <= snd vs
                   /\ compute_similarity tfidf_cosine
                        (features_list features (fst vs)) query_features
                      = Some (snd vs)) out
      /\ (List.length out <= List.length vendors)%nat
      /\ (0 < threshold ->
          Forall (fun vs => features_list features (fst vs) <> []) out
          /\ (query_features = [] -> out = []))
      /\ (forall (higher : Q) (out' : list (Vendor * Q)),
             threshold <= higher ->
             filter_by_similarity tfidf_cosine features higher vendors
               query_features = Some out' ->
             incl out' out).
Proof.
  intros threshold vendors query_features.
  induction vendors as [|v vendors (out & Hout & Hall & Hlen & Hpos & Hanti)].
  { exists []. split; [reflexivity|]. split; [constructor|]. split; [simpl; lia|].
    split; [intros _; split; [constructor | reflexivity]|].
    intros higher out' _ H. inversion H. apply incl_refl. }
  destruct (compute_similarity_defined (features_list features v) query_features)
    as (s & Hs & Hzero).
  assert (Hall' : Forall (fun vs =>
                   In (fst vs) (v :: vendors)
                   /\ threshold <= snd vs
                   /\ compute_similarity tfidf_cosine
                        (features_list features (fst vs)) query_features
                      = Some (snd vs)) out).
  { eapply Forall_impl; [|exact Hall]. intros vs (H1 & H2 & H3).
    split; [right; exact H1 | auto]. }
  cbn [filter_by_similarity]. rewrite Hs, Hout.
  destruct (Qle_bool threshold s) eqn:E.
  - exists ((v, s) :: out). split; [reflexivity|].
    apply Qle_bool_iff in E.
    split; [constructor; [simpl; auto | exact Hall']|].
    split; [simpl; lia|]. split.
    + intro Hp. destruct (Hpos Hp) as [Hf Hq]. split.
      * constructor; [|exact Hf]. simpl. intro Hnil.
        assert (Hs0 : s = 0) by (apply Hzero; left; exact Hnil).
        rewrite Hs0 in E. lra.
      * intro Hqf. exfalso.
        assert (Hs0 : s = 0) by (apply Hzero; right; exact Hqf).
        rewrite Hs0 in E. lra.
    + intros higher out' Hle H.
      destruct (filter_by_similarity tfidf_cosine features higher vendors
                  query_features) as [tail'|] eqn:Ht; [|discriminate].
      inversion H; subst out'. clear H.
      pose proof (Hanti higher tail' Hle Ht) as Hincl.
      destruct (Qle_bool higher s).
      * intros x [<- | Hx]; [left; reflexivity | right; apply Hincl; exact Hx].
      * intros x Hx. right. apply Hincl. exact Hx.
  - exists out. split; [reflexivity|]. split; [exact Hall'|].
    split; [simpl; lia|]. split; [exact Hpos|].
    intros higher out' Hle H.
    destruct (filter_by_similarity tfidf_cosine features higher vendors
                query_features) as [tail'|] eqn:Ht; [|discriminate].
    assert (E' : Qle_bool higher s = false).
    { apply Qle_bool_false. apply Qle_bool_false in E.
      eapply Qlt_le_trans; eassumption. }
    rewrite E' in H. inversion H; subst out'.
    apply (Hanti higher tail' Hle Ht).
Qed.

End Legacy.

Lemma compute_similarity_total_and_maximal_witness :
  Sample.failing_cosine ["lead"%string] ["Lead Management"%string] = None
  /\ exists s,
      compute_similarity Sample.failing_cosine ["Lead Management"%string]
        ["lead"%string] = Some s /\ s = 0.
Proof.
  split; [reflexivity|].
  destruct (compute_similarity_total_and_maximal Sample.failing_cosine
              ["Lead Management"%string] ["lead"%string])
    as (s & Hs & _ & Hfail & _).
  exists s. split; [exact Hs | apply Hfail; reflexivity].
Defined.

Lemma legacy_score_reaches_threshold_iff_match_witness :
  (0 < 1 # 2 \/ (["lead management"%string] <> [] /\ [Sample.crm_row] <> []))
  /\ exists s,
      compute_similarity Sample.sample_cosine
        (feature_texts_of Sample.sample_repr [Sample.crm_row])
        ["lead management"%string] = Some s
      /\ (1 # 2 <= s <->
          find_matching_features Sample.sample_repr Sample.sample_cosine (1 # 2)
            ["lead management"%string] [Sample.crm_row] <> []).
Proof.
  assert (H : 0 < 1 # 2 \/ (["lead management"%string] <> [] /\ [Sample.crm_row] <> []))
    by (left; reflexivity).
  split; [exact H|].
  apply (legacy_score_reaches_threshold_iff_match Sample.sample_repr
           Sample.sample_cosine (1 # 2) ["lead management"%string]
           [Sample.crm_row] H).
Defined.

Lemma filter_by_similarity_sound_witness :
  0 < 1 # 2
  /\ exists out,
      filter_by_similarity Sample.sample_cosine
        (fun v : string * FeaturesField => snd v) (1 # 2)
        [("a"%string, FeaturesText "Lead Management");
         ("b"%string, FeaturesMissing);
         ("c"%string, FeaturesList ["Invoicing"; "Billing"]%string)]
        ["lead"%string] = Some out
      /\ Forall (fun vs =>
                   features_list (fun v : string * FeaturesField => snd v) (fst vs)
                   <> []) out.
Proof.
  split; [reflexivity|].
  destruct (filter_by_similarity_sound Sample.sample_cosine
              (fun v : string * FeaturesField => snd v) (1 # 2)
              [("a"%string, FeaturesText "Lead Management");
               ("b"%string, FeaturesMissing);
               ("c"%string, FeaturesList ["Invoicing"; "Billing"]%string)]
              ["lead"%string])
    as (out & Hout & _ & _ & Hpos & _).
  exists out. split; [exact Hout|]. apply Hpos. reflexivity.
Defined.

Example legacy_filter_sample :
  filter_by_similarity Sample.sample_cosine
    (fun v : string * FeaturesField => snd v) (1 # 2)
    [("a"%string, FeaturesText "Lead Management");
     ("b"%string, FeaturesMissing);
     ("c"%string, FeaturesList ["Invoicing"; "Billing"]%string)]
    ["lead"%string]
  = Some [(("a"%string, FeaturesText "Lead Management"), 1)].
Proof. reflexivity. Qed.

End LegacyExtra.

(** ** Ranker: bounds, truncation, explanations and summary *)

Module RankerExtra.
Import Py.
Import DataLoader.
Import FeatureMatcher.
Import VendorRanker.
Import RankerReport.
Import PyFacts.
Import RankerFacts.
Local Open Scope Q_scope.

Lemma clamp_idiom_bounds (x : Q) :
  0 <= py_max 0 (py_min 1 x) /\ py_max 0 (py_min 1 x) <= 1.
Proof.
  rewrite (max_min_clamp x). apply clamp_bounds.
Qed.

Lemma clamp_monotone (x y : Q) :
  x <= y -> Spec.clamp 0 1 x <= Spec.clamp 0 1 y.
Proof.
  intro H. unfold Spec.clamp.
  split_lt x 0; split_lt y 0; try split_lt 1 x; try split_lt 1 y; lra.
Qed.

Lemma clamp_idiom_monotone (x y : Q) :
  x <= y -> py_max 0 (py_min 1 x) <= py_max 0 (py_min 1 y).
Proof.
  intro H. rewrite (max_min_clamp x), (max_min_clamp y).
  apply clamp_monotone. exact H.
Qed.

Lemma clamp_identity (x : Q) : 0 <= x -> x <= 1 -> Spec.clamp 0 1 x == x.
Proof.
  intros H0 H1. unfold Spec.clamp.
  split_lt x 0; [lra|]. split_lt 1 x; [lra | reflexivity].
Qed.

Lemma weighted_sum_bounds (fw rw a b : Q) :
  0 <= fw -> 0 <= rw -> 0 <= a -> a <= 1 -> 0 <= b -> b <= 1 ->
  0 <= fw * a + rw * b /\ fw * a + rw * b <= fw + rw.
Proof.
  intros. split; nra.
Qed.

Section Ranker.

Variable py_float : string -> option Q.

(** X15.  With non-negative weights the rank score lies between [0] and
    the sum of the weights, whatever the similarity (an override included)
    and the rating. *)
Theorem rank_score_bounds :
  forall (fw rw : Q) (vendor_data : VendorData) (similarity_score : option Q),
    0 <= fw -> 0 <= rw ->
    0 <= compute_rank_score py_float fw rw vendor_data similarity_score
    /\ compute_rank_score py_float fw rw vendor_data similarity_score <= fw + rw.
Proof.
  intros fw rw vendor_data similarity_score Hfw Hrw.
  unfold compute_rank_score.
  apply weighted_sum_bounds; try assumption; apply clamp_idiom_bounds.
Qed.

(** X16.  The rank score is monotone: with a non-negative feature weight a
    larger similarity never lowers it, and with a non-negative rating
    weight a larger numeric rating never lowers it. *)
Theorem rank_score_monotone :
  forall (fw rw : Q) (v v' : VendorData) (s s' r r' : Q),
    0 <= fw -> 0 <= rw -> s <= s' -> r <= r' ->
    rating v = Some (RNum r) -> rating v' = Some (RNum r') ->
    compute_rank_score py_float fw rw v (Some s)
    <= compute_rank_score py_float fw rw v' (Some s').
Proof.
  intros fw rw v v' s s' r r' Hfw Hrw Hs Hr Hv Hv'.
  unfold compute_rank_score, numeric_rating. rewrite Hv, Hv'.
  pose proof (clamp_idiom_monotone s s' Hs) as H1.
  assert (H2 : py_max 0 (py_min 1 (if Qltb 0 r then r / 5 else 0))
               <= py_max 0 (py_min 1 (if Qltb 0 r' then r' / 5 else 0))).
  { apply clamp_idiom_monotone. split_lt 0 r; split_lt 0 r'.
    - unfold Qdiv. apply Qmult_le_compat_r; [exact Hr | discriminate].
    - lra.
    - unfold Qdiv. apply Qmult_le_0_compat; [lra | discriminate].
    - lra. }
  nra.
Qed.

Lemma slice_to_length {A : Type} (top_n : option Z) (l : list A) :
  exists k, slice_to top_n l = firstn k l
            /\ List.length (slice_to top_n l)
               = SpecMore.slice_length top_n (List.length l).
Proof.
  unfold slice_to, SpecMore.slice_length. destruct top_n as [n|].
  - destruct (n <? 0)%Z eqn:E.
    + eexists. split; [reflexivity|]. rewrite length_firstn.
      apply Z.ltb_lt in E. lia.
    + eexists. split; [reflexivity|]. apply length_firstn.
  - exists (List.length l). split; [symmetry; apply firstn_all | reflexivity].
Qed.

(** X17.  For every [top_n], negative and absent ones included, the
    ranker's output is an initial segment of the vendors sorted by
    descending rank score: [None] returns all of them, a negative [top_n]
    leaves out the [-top_n] lowest ranked, an empty dict gives an empty
    list. *)
Theorem rank_vendors_is_prefix_of_ranking :
  forall (fw rw : Q) (vendors : VendorDict) (top_n : option Z),
    let out := rank_vendors py_float fw rw vendors top_n in
    (exists dropped,
        out ++ dropped =
        sort_reverse rank_score (map (vendor_result py_float fw rw) vendors))
    /\ Spec.descending rank_score out
    /\ List.length out = SpecMore.slice_length top_n (List.length vendors).
Proof.
  intros fw rw vendors top_n out.
  assert (Hout : out = slice_to top_n
                   (sort_reverse rank_score (map (vendor_result py_float fw rw) vendors))).
  { unfold out, rank_vendors. destruct vendors as [|v vendors]; [|reflexivity].
    simpl. unfold slice_to. destruct top_n as [n|]; [|reflexivity].
    destruct (n <? 0)%Z; rewrite firstn_nil; reflexivity. }
  destruct (slice_to_length top_n
              (sort_reverse rank_score (map (vendor_result py_float fw rw) vendors)))
    as (k & Hk & Hlen).
  rewrite <- Hout in Hk, Hlen.
  pose proof (sort_reverse_descending rank_score
                (map (vendor_result py_float fw rw) vendors)) as Hsorted.
  rewrite <- (firstn_skipn k) in Hsorted. rewrite <- Hk in Hsorted.
  split; [|split].
  - exists (skipn k (sort_reverse rank_score
                       (map (vendor_result py_float fw rw) vendors))).
    rewrite Hk. apply firstn_skipn.
  - apply descending_app in Hsorted. tauto.
  - rewrite Hlen.
    rewrite (Permutation_length (sort_reverse_perm rank_score _)), length_map.
    reflexivity.
Qed.

End Ranker.

Lemma rank_score_bounds_witness :
  0 <= 7 # 10 /\ 0 <= 3 # 10 /\
  compute_rank_score Sample.sample_float (7 # 10) (3 # 10)
    (snd (Sample.vendor_of "a" 3 (RNum 9))) None <= (7 # 10) + (3 # 10).
Proof.
  split; [discriminate|]. split; [discriminate|].
  apply (rank_score_bounds Sample.sample_float (7 # 10) (3 # 10)
           (snd (Sample.vendor_of "a" 3 (RNum 9))) None); discriminate.
Defined.

Lemma rank_score_monotone_witness :
  0 <= 7 # 10 /\ 0 <= 3 # 10 /\ 1 # 2 <= 9 # 10 /\ 3 <= 4 /\
  compute_rank_score Sample.sample_float (7 # 10) (3 # 10)
    (snd (Sample.vendor_of "a" 0 (RNum 3))) (Some (1 # 2))
  <= compute_rank_score Sample.sample_float (7 # 10) (3 # 10)
       (snd (Sample.vendor_of "b" 0 (RNum 4))) (Some (9 # 10)).
Proof.
  split; [discriminate|]. split; [discriminate|]. split; [discriminate|].
  split; [discriminate|].
  apply (rank_score_monotone Sample.sample_float (7 # 10) (3 # 10)
           (snd (Sample.vendor_of "a" 0 (RNum 3)))
           (snd (Sample.vendor_of "b" 0 (RNum 4))) (1 # 2) (9 # 10) 3 4);
    try discriminate; reflexivity.
Defined.

End RankerExtra.

(** ** Ranking explanations and ranking summary *)

Module ReportExtra.
Import Py.
Import DataLoader.
Import FeatureMatcher.
Import VendorRanker.
Import RankerReport.
Import PyFacts.
Import RankerFacts.
Import RankerExtra.
Local Open Scope Q_scope.

Lemma py_min_lb_l (a b : Q) : py_min a b <= a.
Proof.
  unfold py_min. split_lt b a; [apply Qlt_le_weak; assumption | apply Qle_refl].
Qed.

Lemma py_min_lb_r (a b : Q) : py_min a b <= b.
Proof.
  unfold py_min. split_lt b a; [apply Qle_refl | assumption].
Qed.

Lemma fold_py_min_lb (l : list Q) (a : Q) :
  fold_left py_min l a <= a /\ Forall (fun x => fold_left py_min l a <= x) l.
Proof.
  revert a. induction l as [|x l IH]; intro a; simpl.
  - split; [apply Qle_refl | constructor].
  - destruct (IH (py_min a x)) as [H1 H2]. split.
    + eapply Qle_trans; [exact H1 | apply py_min_lb_l].
    + constructor; [|exact H2].
      eapply Qle_trans; [exact H1 | apply py_min_lb_r].
Qed.

Lemma fold_py_max_head (l : list Q) (a : Q) :
  Forall (fun x => x <= a) l -> fold_left py_max l a = a.
Proof.
  induction 1 as [|x l Hx _ IH]; simpl; [reflexivity|].
  unfold py_max at 2. apply Qltb_false in Hx. rewrite Hx. exact IH.
Qed.

Section Report.

Variable fmt_float : Q -> string.
Variable fmt_3f : Q -> string.
Variables feature_weight rating_weight : Q.

Lemma explain_defined (vendor : VendorResult) :
  explain fmt_float fmt_3f feature_weight rating_weight vendor = None
  <-> exists s, vr_rating vendor = RStr s.
Proof.
  unfold explain. destruct (vr_rating vendor) as [r| |s]; split;
    try discriminate; try (intros (s' & Hs); discriminate); eauto.
Qed.

(** The endpoint's test for a failing explanation step agrees with
    [add_ranking_explanation]. *)
Lemma explanation_raises_spec (ranked_vendors : list VendorResult) :
  App.explanation_raises ranked_vendors = true <->
  add_ranking_explanation fmt_float fmt_3f feature_weight rating_weight
    ranked_vendors = None.
Proof.
  unfold App.explanation_raises.
  induction ranked_vendors as [|v l IH]; cbn [existsb add_ranking_explanation].
  - split; discriminate.
  - destruct (explain fmt_float fmt_3f feature_weight rating_weight v)
      as [e|] eqn:E.
    + assert (Hv : match vr_rating v with RStr _ => true | _ => false end = false).
      { destruct (vr_rating v) as [r| |s] eqn:Er; try reflexivity.
        assert (Hn : explain fmt_float fmt_3f feature_weight rating_weight v = None)
          by (apply explain_defined; eauto).
        congruence. }
      rewrite Hv. cbn [orb]. rewrite IH.
      destruct (add_ranking_explanation fmt_float fmt_3f feature_weight
                  rating_weight l); split; congruence.
    + apply explain_defined in E. destruct E as (s & Hs). rewrite Hs.
      split; reflexivity.
Qed.

(** X18.  Adding explanations raises exactly when some vendor's rating is
    a string (which the rank score accepts and parses).  When it succeeds,
    the vendors and their order are unchanged and every explanation reports
    the vendor's own rank score and the ranker's weights. *)
Theorem explanation_fails_on_string_rating :
  forall ranked_vendors : list VendorResult,
    (add_ranking_explanation fmt_float fmt_3f feature_weight rating_weight
       ranked_vendors = None
     <-> exists v s, In v ranked_vendors /\ vr_rating v = RStr s)
    /\ (forall explained,
           add_ranking_explanation fmt_float fmt_3f feature_weight rating_weight
             ranked_vendors = Some explained ->
           map fst explained = ranked_vendors
           /\ Forall (fun ve =>
                        final_score (ranking_methodology (snd ve))
                          = rank_score (fst ve)
                        /\ rm_feature_weight (ranking_methodology (snd ve))
                           = feature_weight
                        /\ rm_rating_weight (ranking_methodology (snd ve))
                           = rating_weight) explained).
Proof.
  induction ranked_vendors as [|v l [IH1 IH2]].
  - split.
    + split; [discriminate | intros (v & s & [] & _)].
    + intros explained H. inversion H. split; [reflexivity | constructor].
  - cbn [add_ranking_explanation].
    destruct (explain fmt_float fmt_3f feature_weight rating_weight v) as [e|] eqn:E.
    + destruct (add_ranking_explanation fmt_float fmt_3f feature_weight
                  rating_weight l) as [rest|] eqn:El.
      * split.
        -- split; [discriminate|]. intros (w & s & [<- | Hw] & Hs).
           ++ assert (Hnone : explain fmt_float fmt_3f feature_weight rating_weight v
                              = None) by (apply explain_defined; eauto).
              congruence.
           ++ assert (Hex : exists v s, In v l /\ vr_rating v = RStr s) by eauto.
              apply IH1 in Hex. discriminate.
        -- intros explained H. inversion H; subst explained. clear H.
           destruct (IH2 rest eq_refl) as [Hm Hf]. split.
           ++ simpl. rewrite Hm. reflexivity.
           ++ constructor; [|exact Hf]. simpl. unfold explain in E.
              destruct (vr_rating v); inversion E; repeat split.
      * split; [|discriminate]. split; [|reflexivity]. intros _.
        destruct (proj1 IH1 eq_refl) as (w & s & Hw & Hs).
        exists w, s. split; [right; exact Hw | exact Hs].
    + split; [|discriminate]. split; [|reflexivity]. intros _.
      apply explain_defined in E. destruct E as (s & Hs).
      exists v, s. split; [left; reflexivity | exact Hs].
Qed.

(** X20.  For a non-empty list the summary counts the vendors and its
    score range contains every vendor's rank score; when the list is in
    ranking order the top vendor is its first element and the top of the
    range is that vendor's score.  Nothing is stated about the average:
    [min] and [max] return one of the scores, the quotient is rounded. *)
Theorem ranking_summary_bounds :
  forall ranked_vendors : list VendorResult,
    ranked_vendors <> [] ->
    let summary :=
      get_ranking_summary fmt_float feature_weight rating_weight ranked_vendors in
    rs_total_vendors summary = List.length ranked_vendors
    /\ Forall (fun v => score_min summary <= rank_score v
                        /\ rank_score v <= score_max summary) ranked_vendors
    /\ (Spec.descending rank_score ranked_vendors ->
        exists v rest,
          ranked_vendors = v :: rest
          /\ top_vendor summary = Some (vr_product_name v, rank_score v)
          /\ score_max summary = rank_score v).
Proof.
  intros ranked_vendors Hne summary.
  destruct ranked_vendors as [|v rest]; [congruence|].
  unfold summary, get_ranking_summary. cbn [map].
  cbn [rs_total_vendors score_min score_max top_vendor].
  destruct (fold_py_min_lb (map rank_score rest) (rank_score v)) as [Hm1 Hm2].
  destruct (AggregatorFacts.fold_py_max_ub (map rank_score rest) (rank_score v))
    as [HM1 HM2].
  assert (Hall : Forall (fun x =>
                   fold_left py_min (map rank_score rest) (rank_score v) <= x
                   /\ x <= fold_left py_max (map rank_score rest) (rank_score v))
                   (rank_score v :: map rank_score rest)).
  { constructor; [split; assumption|].
    rewrite Forall_forall in *. intros x Hx. split; auto. }
  split; [reflexivity|]. split.
  - rewrite Forall_forall in *. intros w Hw. apply Hall.
    change (rank_score v :: map rank_score rest) with (map rank_score (v :: rest)).
    apply in_map. exact Hw.
  - intro Hd. exists v, rest. split; [reflexivity|]. split; [reflexivity|].
    apply fold_py_max_head. inversion Hd as [|? ? _ Hv]; subst.
    apply Forall_forall. intros x Hx. apply in_map_iff in Hx.
    destruct Hx as (w & <- & Hw). rewrite Forall_forall in Hv. auto.
Qed.

End Report.

Section Components.

Variable py_float : string -> option Q.
Variable fmt_float : Q -> string.
Variable fmt_3f : Q -> string.

(** X19.  For a vendor ranked by [rank_vendors] whose average similarity
    lies in [[0, 1]] and whose numeric rating is at most [5], the two
    components of the explanation add up to the final score it reports. *)
Theorem explanation_components_add_up :
  forall (fw rw : Q) (item : string * VendorData) (e : Explanation),
    explain fmt_float fmt_3f fw rw (vendor_result py_float fw rw item) = Some e ->
    0 <= avg_similarity_score (snd item) ->
    avg_similarity_score (snd item) <= 1 ->
    (forall r, rating (snd item) = Some (RNum r) -> r <= 5) ->
    similarity_component (ranking_methodology e)
    + rating_component (ranking_methodology e)
    == final_score (ranking_methodology e).
Proof.
  intros fw rw [k vd] e He H0 H1 H5. simpl in H0, H1, H5.
  unfold explain in He. cbn [vendor_result vr_rating vr_avg_similarity_score
                              rank_score fst snd] in He.
  pose proof (compute_rank_score_spec py_float fw rw vd) as Hscore.
  unfold Spec.rank_score_spec in Hscore.
  rewrite (clamp_identity _ H0 H1) in Hscore.
  unfold numeric_rating, Spec.rating_norm in Hscore.
  destruct (rating vd) as [[r| |s]|].
  - inversion He; subst e. clear He.
    cbn [similarity_component rating_component final_score ranking_methodology].
    rewrite Hscore.
    specialize (H5 r eq_refl).
    split_lt 0 r; [|ring].
    assert (Hx0 : 0 <= r / 5).
    { unfold Qdiv. apply Qmult_le_0_compat; [lra | discriminate]. }
    assert (Hx1 : r / 5 <= 1).
    { apply Qle_shift_div_r; [reflexivity | lra]. }
    rewrite (clamp_identity _ Hx0 Hx1).
    generalize (r / 5). intro x. ring.
  - inversion He; subst e. clear He.
    cbn [similarity_component rating_component final_score ranking_methodology].
    rewrite Hscore. ring.
  - discriminate.
  - inversion He; subst e. clear He.
    cbn [similarity_component rating_component final_score ranking_methodology].
    rewrite Hscore.
    assert (E : Qltb 0 0 = false) by reflexivity.
    rewrite !E. ring.
Qed.

End Components.

Lemma explanation_fails_on_string_rating_witness :
  (exists v s,
      In v (rank_vendors Sample.sample_float (7 # 10) (3 # 10)
              [Sample.vendor_of "a" (1 # 2) (RStr "4.5")] None)
      /\ vr_rating v = RStr s)
  /\ add_ranking_explanation Sample.sample_fmt Sample.sample_fmt
       (7 # 10) (3 # 10)
       (rank_vendors Sample.sample_float (7 # 10) (3 # 10)
          [Sample.vendor_of "a" (1 # 2) (RStr "4.5")] None) = None.
Proof.
  assert (H : exists v s,
             In v (rank_vendors Sample.sample_float (7 # 10) (3 # 10)
                     [Sample.vendor_of "a" (1 # 2) (RStr "4.5")] None)
             /\ vr_rating v = RStr s).
  { eexists. exists "4.5"%string. split; [left; reflexivity | reflexivity]. }
  split; [exact H|].
  apply (proj2 (proj1 (explanation_fails_on_string_rating
                         Sample.sample_fmt Sample.sample_fmt (7 # 10) (3 # 10)
                         (rank_vendors Sample.sample_float (7 # 10) (3 # 10)
                            [Sample.vendor_of "a" (1 # 2) (RStr "4.5")] None))) H).
Defined.

Lemma ranking_summary_bounds_witness :
  rank_vendors Sample.sample_float (7 # 10) (3 # 10)
    [Sample.vendor_of "a" (1 # 2) (RNum 4); Sample.vendor_of "b" (9 # 10) (RNum 4)]
    None <> []
  /\ rs_total_vendors
       (get_ranking_summary Sample.sample_fmt (7 # 10) (3 # 10)
          (rank_vendors Sample.sample_float (7 # 10) (3 # 10)
             [Sample.vendor_of "a" (1 # 2) (RNum 4);
              Sample.vendor_of "b" (9 # 10) (RNum 4)] None)) = 2%nat.
Proof.
  assert (H : rank_vendors Sample.sample_float (7 # 10) (3 # 10)
                [Sample.vendor_of "a" (1 # 2) (RNum 4);
                 Sample.vendor_of "b" (9 # 10) (RNum 4)] None <> [])
    by discriminate.
  split; [exact H|].
  apply (ranking_summary_bounds Sample.sample_fmt (7 # 10) (3 # 10) _ H).
Defined.

Lemma explanation_components_add_up_witness :
  exists e,
    explain Sample.sample_fmt Sample.sample_fmt (7 # 10) (3 # 10)
      (vendor_result Sample.sample_float (7 # 10) (3 # 10)
         (Sample.vendor_of "a" (1 # 2) (RNum 4))) = Some e
    /\ similarity_component (ranking_methodology e)
       + rating_component (ranking_methodology e)
       == final_score (ranking_methodology e).
Proof.
  eexists. split; [reflexivity|].
  apply (explanation_components_add_up Sample.sample_float Sample.sample_fmt
           Sample.sample_fmt (7 # 10) (3 # 10)
           (Sample.vendor_of "a" (1 # 2) (RNum 4))).
  - reflexivity.
  - discriminate.
  - discriminate.
  - intros r Hr. inversion Hr. discriminate.
Defined.

(** An out-of-range rating: the score is computed with the clamped value,
    the explanation with the raw one, and the components no longer add up. *)
Example explanation_components_out_of_range :
  option_map (fun e : Explanation =>
                (Qred (rating_component (ranking_methodology e)),
                 Qred (final_score (ranking_methodology e))))
    (explain Sample.sample_fmt Sample.sample_fmt (7 # 10) (3 # 10)
       (vendor_result Sample.sample_float (7 # 10) (3 # 10)
          (Sample.vendor_of "a" 0 (RNum 10))))
  = Some (3 # 5, 3 # 10).
Proof. reflexivity. Qed.

End ReportExtra.

(** ** Qualification endpoint: errors, counters and ratings *)

Module AppExtra.
Import Py.
Import DataLoader.
Import FeatureMatcher.
Import VendorRanker.
Import App.
Import PyFacts.
Local Open Scope Q_scope.

Lemma slice_length_le (top_n : option Z) (n : nat) :
  (SpecMore.slice_length top_n n <= n)%nat.
Proof.
  unfold SpecMore.slice_length. destruct top_n as [k|]; [|lia].
  destruct (Z.ltb_spec k 0); lia.
Qed.

Section Endpoint.

Variable py_repr : pyval -> string.
Variable tfidf_cosine : list string -> list string -> option (nat -> nat -> Q).
Variable re_compile_ci : string -> option (string -> bool).
Variable py_float : string -> option Q.

Lemma rank_vendors_sorted_slice (fw rw : Q) (vendors : VendorDict) (top_n : option Z) :
  rank_vendors py_float fw rw vendors top_n =
  slice_to top_n
    (sort_reverse rank_score (map (vendor_result py_float fw rw) vendors)).
Proof.
  unfold rank_vendors. destruct vendors as [|v vendors]; [|reflexivity].
  simpl. unfold slice_to. destruct top_n as [n|]; [|reflexivity].
  destruct (n <? 0)%Z; rewrite firstn_nil; reflexivity.
Qed.

Lemma rank_vendors_length (fw rw : Q) (vendors : VendorDict) (top_n : option Z) :
  List.length (rank_vendors py_float fw rw vendors top_n)
  = SpecMore.slice_length top_n (List.length vendors).
Proof.
  rewrite rank_vendors_sorted_slice.
  destruct (RankerExtra.slice_to_length top_n
              (sort_reverse rank_score (map (vendor_result py_float fw rw) vendors)))
    as (k & _ & Hlen).
  rewrite Hlen, (Permutation_length (sort_reverse_perm rank_score _)), length_map.
  reflexivity.
Qed.

Lemma rank_vendors_In (fw rw : Q) (vendors : VendorDict) (top_n : option Z)
    (vr : VendorResult) :
  In vr (rank_vendors py_float fw rw vendors top_n) ->
  exists item, In item vendors /\ vr = vendor_result py_float fw rw item.
Proof.
  rewrite rank_vendors_sorted_slice. intro Hin.
  destruct (RankerExtra.slice_to_length top_n
              (sort_reverse rank_score (map (vendor_result py_float fw rw) vendors)))
    as (k & Hk & _).
  rewrite Hk in Hin.
  assert (Hs : In vr (sort_reverse rank_score
                        (map (vendor_result py_float fw rw) vendors))).
  { rewrite <- (firstn_skipn k). apply in_or_app. left. exact Hin. }
  apply (Permutation_in _ (sort_reverse_perm rank_score _)) in Hs.
  apply in_map_iff in Hs. destruct Hs as (item & <- & Hitem). eauto.
Qed.

(** The endpoint, case by case, when the catalog is loaded. *)
Lemma qualify_vendors_cases (data : list Product) (st : AppState) (q : VendorQuery) :
  let st' := update_threshold st q in
  let answer :=
    qualify_vendors py_repr tfidf_cosine re_compile_ci py_float (Some data) st q in
  snd answer = st'
  /\ match filter_vendors_by_category_and_capabilities py_repr tfidf_cosine
             re_compile_ci (matcher_threshold st') (preprocess_data data)
             (software_category q) (capabilities q) with
     | None => fst answer = InternalServerError
     | Some r =>
         mr_similarity_threshold r = matcher_threshold st'
         /\ (matching_vendors r = [] -> fst answer = NoVendors r)
         /\ (matching_vendors r <> [] ->
             fst answer =
             if flag_truthy (include_explanations q)
                && explanation_raises
                     (rank_vendors py_float (7 # 10) (3 # 10)
                        (map (attach_rating data) (matching_vendors r)) (top_n q))
             then InternalServerError
             else
               Qualified
                 (rank_vendors py_float (7 # 10) (3 # 10)
                    (map (attach_rating data) (matching_vendors r)) (top_n q))
                 (List.length (matching_vendors r))
                 (List.length
                    (rank_vendors py_float (7 # 10) (3 # 10)
                       (map (attach_rating data) (matching_vendors r)) (top_n q)))
                 (mr_similarity_threshold r))
     end.
Proof.
  intros st' answer. unfold answer, qualify_vendors. fold st'.
  destruct (filter_vendors_by_category_and_capabilities py_repr tfidf_cosine
              re_compile_ci (matcher_threshold st') (preprocess_data data)
              (software_category q) (capabilities q)) as [r|] eqn:E.
  - pose proof (AppFacts.filter_vendors_threshold _ _ _ _ _ _ _ _ E) as Ht.
    destruct (matching_vendors r) as [|v vs] eqn:Ev.
    + split; [reflexivity|]. split; [exact Ht|].
      split; [reflexivity | congruence].
    + cbv beta iota zeta.
      destruct (flag_truthy (include_explanations q) && explanation_raises _);
        (split; [reflexivity|]); (split; [exact Ht|]); (split; [discriminate|]);
        intros _; cbn [fst]; rewrite ?length_map; reflexivity.
  - split; reflexivity.
Qed.

(** X21.  A request fails with HTTP 500 when the catalog is not loaded, the
    shared threshold being left as it was; and when the category is not a
    valid regular expression, in which case the shared threshold has
    nevertheless been updated from the failing request. *)
Theorem failed_request_and_shared_threshold :
  forall (st : AppState) (q : VendorQuery),
    qualify_vendors py_repr tfidf_cosine re_compile_ci py_float None st q
      = (InternalServerError, st)
    /\ (forall data : list Product,
           software_category q <> ""%string ->
           lower (software_category q) <> "all"%string ->
           re_compile_ci (software_category q) = None ->
           qualify_vendors py_repr tfidf_cosine re_compile_ci py_float
             (Some data) st q
           = (InternalServerError, update_threshold st q)).
Proof.
  intros st q. split; [reflexivity|].
  intros data Hne Hall Hre.
  destruct (qualify_vendors_cases data st q) as [Hst Hans].
  assert (Hnone : filter_vendors_by_category_and_capabilities py_repr tfidf_cosine
             re_compile_ci (matcher_threshold (update_threshold st q))
             (preprocess_data data) (software_category q) (capabilities q) = None).
  { unfold filter_vendors_by_category_and_capabilities, category_filter.
    apply String.eqb_neq in Hne. apply String.eqb_neq in Hall.
    rewrite Hne, Hall, Hre. reflexivity. }
  rewrite Hnone in Hans.
  destruct (qualify_vendors py_repr tfidf_cosine re_compile_ci py_float
              (Some data) st q) as [r st'].
  simpl in Hst, Hans. subst. reflexivity.
Qed.

(** X22.  In a successful answer [returned_vendors] is the length of the
    ranked list and never exceeds [total_qualified_vendors], which is at
    least one; it is [min(top_n, total)] for a non-negative [top_n], the
    total for an absent one, and [total + top_n] (not below zero) for a
    negative one.  The threshold reported is the one stored in the shared
    matcher after the request's update. *)
Theorem qualified_response_counts :
  forall (data_loader : option (list Product)) (st : AppState) (q : VendorQuery)
         (ranked : list VendorResult) (total returned : nat) (used : Q),
    fst (qualify_vendors py_repr tfidf_cosine re_compile_ci py_float
           data_loader st q) = Qualified ranked total returned used ->
    returned = List.length ranked
    /\ returned = SpecMore.slice_length (top_n q) total
    /\ (1 <= total)%nat
    /\ (returned <= total)%nat
    /\ used = matcher_threshold (update_threshold st q).
Proof.
  intros data_loader st q ranked total returned used H.
  destruct data_loader as [data|]; [|discriminate].
  destruct (qualify_vendors_cases data st q) as [_ Hans].
  destruct (filter_vendors_by_category_and_capabilities py_repr tfidf_cosine
              re_compile_ci (matcher_threshold (update_threshold st q))
              (preprocess_data data) (software_category q) (capabilities q))
    as [r|]; [|rewrite Hans in H; discriminate].
  destruct Hans as (Ht & Hnil & Hcons).
  assert (Hne : matching_vendors r <> []).
  { intro Hn. rewrite (Hnil Hn) in H. discriminate. }
  rewrite (Hcons Hne) in H.
  destruct (flag_truthy (include_explanations q) && explanation_raises _);
    [discriminate|].
  injection H as <- <- <- <-.
  split; [reflexivity|]. rewrite rank_vendors_length, length_map.
  split; [reflexivity|].
  split; [destruct (matching_vendors r); [congruence | simpl; lia]|].
  split; [apply slice_length_le | exact Ht].
Qed.

(** X23.  The rating of every ranked vendor is looked up by product name
    alone: it is the rating of the first row of the product table with the
    vendor's product name, [0.0] when there is none.  Two ranked vendors
    with the same product name therefore carry the same rating, whatever
    their sellers. *)
Theorem ratings_looked_up_by_product_name :
  forall (data : list Product) (st : AppState) (q : VendorQuery)
         (ranked : list VendorResult) (total returned : nat) (used : Q),
    fst (qualify_vendors py_repr tfidf_cosine re_compile_ci py_float
           (Some data) st q) = Qualified ranked total returned used ->
    Forall (fun vr => vr_rating vr = SpecMore.rating_lookup data (vr_product_name vr))
           ranked
    /\ (forall a b, In a ranked -> In b ranked ->
                    vr_product_name a = vr_product_name b ->
                    vr_rating a = vr_rating b).
Proof.
  intros data st q ranked total returned used H.
  assert (Hall : Forall (fun vr => vr_rating vr
                           = SpecMore.rating_lookup data (vr_product_name vr)) ranked).
  { destruct (qualify_vendors_cases data st q) as [_ Hans].
    destruct (filter_vendors_by_category_and_capabilities py_repr tfidf_cosine
                re_compile_ci (matcher_threshold (update_threshold st q))
                (preprocess_data data) (software_category q) (capabilities q))
      as [r|]; [|rewrite Hans in H; discriminate].
    destruct Hans as (_ & Hnil & Hcons).
    assert (Hne : matching_vendors r <> []).
    { intro Hn. rewrite (Hnil Hn) in H. discriminate. }
    rewrite (Hcons Hne) in H.
    destruct (flag_truthy (include_explanations q) && explanation_raises _);
      [discriminate|].
    injection H as <- <- <- <-.
    apply Forall_forall. intros vr Hvr. apply rank_vendors_In in Hvr.
    destruct Hvr as (item & Hitem & ->). apply in_map_iff in Hitem.
    destruct Hitem as (item0 & <- & _). reflexivity. }
  split; [exact Hall|].
  intros a b Ha Hb Hname. rewrite Forall_forall in Hall.
  rewrite (Hall a Ha), (Hall b Hb), Hname. reflexivity.
Qed.

(** X24.  A request without capabilities never qualifies a vendor: the
    answer is the "no vendors" payload with both counters at zero (or the
    error answer). *)
Theorem no_capabilities_no_vendors :
  forall (data_loader : option (list Product)) (st : AppState) (q : VendorQuery),
    capabilities q = [] ->
    match fst (qualify_vendors py_repr tfidf_cosine re_compile_ci py_float
                 data_loader st q) with
    | Qualified _ _ _ _ => False
    | NoVendors summary =>
        matching_vendors summary = []
        /\ total_vendors summary = 0%nat
        /\ mr_total_matches summary = 0%nat
    | InternalServerError => True
    end.
Proof.
  intros data_loader st q Hcaps.
  destruct data_loader as [data|]; [|exact I].
  unfold qualify_vendors, filter_vendors_by_category_and_capabilities.
  rewrite Hcaps.
  destruct (category_filter re_compile_ci (software_category q)
              (preprocess_data data)) as [[|row kept]|]; simpl; auto.
Qed.

End Endpoint.

Lemma failed_request_and_shared_threshold_witness :
  "C++"%string <> ""%string /\
  lower "C++" <> "all"%string /\
  Sample.literal_compile "C++" = None /\
  qualify_vendors Sample.sample_repr Sample.sample_cosine Sample.literal_compile
    Sample.sample_float (Some Sample.catalog) initial_state
    (mkVendorQuery "C++" ["lead management"%string] (Some (9 # 10)) None None)
  = (InternalServerError, mkAppState (9 # 10)).
Proof.
  split; [discriminate|]. split; [discriminate|]. split; [reflexivity|].
  apply (proj2 (failed_request_and_shared_threshold Sample.sample_repr
                  Sample.sample_cosine Sample.literal_compile Sample.sample_float
                  initial_state
                  (mkVendorQuery "C++" ["lead management"%string] (Some (9 # 10))
                     None None))
           Sample.catalog); [discriminate | discriminate | reflexivity].
Defined.

Lemma qualified_response_counts_witness :
  exists ranked total returned used,
    fst (qualify_vendors Sample.sample_repr Sample.sample_cosine
           Sample.literal_compile Sample.sample_float (Some Sample.catalog)
           initial_state
           (mkVendorQuery "all" ["lead management"%string] (Some (1 # 2))
              (Some 1%Z) None))
    = Qualified ranked total returned used
    /\ returned = 1%nat /\ total = 2%nat /\ (returned <= total)%nat.
Proof.
  eexists. eexists. eexists. eexists.
  split; [reflexivity|]. split; [reflexivity|]. split; [reflexivity|].
  apply (qualified_response_counts Sample.sample_repr Sample.sample_cosine
           Sample.literal_compile Sample.sample_float (Some Sample.catalog)
           initial_state
           (mkVendorQuery "all" ["lead management"%string] (Some (1 # 2))
              (Some 1%Z) None) _ _ _ _ eq_refl).
Defined.

Lemma ratings_looked_up_by_product_name_witness :
  exists ranked total returned used,
    fst (qualify_vendors Sample.sample_repr Sample.sample_cosine
           Sample.literal_compile Sample.sample_float (Some Sample.catalog)
           initial_state
           (mkVendorQuery "all" ["lead management"%string] (Some (1 # 2))
              None None))
    = Qualified ranked total returned used
    /\ Forall (fun vr => vr_rating vr
                         = SpecMore.rating_lookup Sample.catalog (vr_product_name vr))
              ranked.
Proof.
  eexists. eexists. eexists. eexists.
  split; [reflexivity|].
  apply (ratings_looked_up_by_product_name Sample.sample_repr Sample.sample_cosine
           Sample.literal_compile Sample.sample_float Sample.catalog
           initial_state
           (mkVendorQuery "all" ["lead management"%string] (Some (1 # 2))
              None None) _ _ _ _ eq_refl).
Defined.

(** A catalog whose rating column holds a string: the request is ranked,
    and fails only when explanations are asked for. *)
Example explanations_fail_on_string_rating :
  let data :=
    [mkProduct "Acme CRM" "Acme" (Some "CRM Software") (RStr "4.5")
       (Features Sample.crm)] in
  let ask flag :=
    fst (qualify_vendors Sample.sample_repr Sample.sample_cosine
           Sample.literal_compile Sample.sample_float (Some data) initial_state
           (mkVendorQuery "crm" ["lead management"%string] (Some (1 # 2))
              None flag)) in
  ask (Some true) = InternalServerError
  /\ (match ask (Some false) with Qualified [v] 1 1 _ => true | _ => false end) = true
  /\ ask None = ask (Some false).
Proof. repeat split. Qed.

Lemma no_capabilities_no_vendors_witness :
  capabilities (mkVendorQuery "crm" [] (Some (1 # 2)) None None) = []
  /\ match fst (qualify_vendors Sample.sample_repr Sample.sample_cosine
                  Sample.literal_compile Sample.sample_float (Some Sample.catalog)
                  initial_state
                  (mkVendorQuery "crm" [] (Some (1 # 2)) None None)) with
     | Qualified _ _ _ _ => False
     | NoVendors summary =>
         matching_vendors summary = []
         /\ total_vendors summary = 0%nat
         /\ mr_total_matches summary = 0%nat
     | InternalServerError => True
     end.
Proof.
  split; [reflexivity|].
  apply (no_capabilities_no_vendors Sample.sample_repr Sample.sample_cosine
           Sample.literal_compile Sample.sample_float (Some Sample.catalog)
           initial_state (mkVendorQuery "crm" [] (Some (1 # 2)) None None)).
  reflexivity.
Defined.

End AppExtra.

(** ** The vendor listing endpoint *)

Module ListingExtra.
Import Py.
Import DataLoader.
Import AppListing.
Local Open Scope Q_scope.

Lemma same_vendor_refl (p : Product) : same_vendor p p = true.
Proof.
  unfold same_vendor. rewrite !String.eqb_refl. simpl.
  assert (Hr : rating_eqb (rating p) (rating p) = true).
  { destruct (rating p) as [r| |s]; simpl;
      [apply Qeq_bool_iff; reflexivity | reflexivity | apply String.eqb_refl]. }
  assert (Hc : category_eqb (main_category p) (main_category p) = true).
  { destruct (main_category p); simpl; [apply String.eqb_refl | reflexivity]. }
  rewrite Hr, Hc. reflexivity.
Qed.

Lemma drop_duplicates_from_incl (seen rows : list Product) :
  incl (drop_duplicates_from seen rows) rows.
Proof.
  revert seen. induction rows as [|p rows IH]; intro seen; simpl.
  - apply incl_refl.
  - destruct (existsb (same_vendor p) seen).
    + intros x Hx. right. exact (IH seen x Hx).
    + intros x [<- | Hx]; [left; reflexivity | right; exact (IH _ x Hx)].
Qed.

Lemma drop_duplicates_from_unseen (seen rows : list Product) :
  Forall (fun x => existsb (same_vendor x) seen = false)
         (drop_duplicates_from seen rows).
Proof.
  revert seen. induction rows as [|p rows IH]; intro seen; simpl.
  - constructor.
  - destruct (existsb (same_vendor p) seen) eqn:E; [apply IH|].
    constructor; [exact E|].
    eapply Forall_impl; [|apply (IH (p :: seen))].
    intros x Hx. simpl in Hx. apply orb_false_iff in Hx. tauto.
Qed.

Lemma drop_duplicates_from_distinct (seen rows : list Product) :
  ForallOrdPairs (fun a b => same_vendor b a = false)
                 (drop_duplicates_from seen rows).
Proof.
  revert seen. induction rows as [|p rows IH]; intro seen; simpl.
  - constructor.
  - destruct (existsb (same_vendor p) seen) eqn:E; [apply IH|].
    constructor; [|apply IH].
    eapply Forall_impl; [|apply (drop_duplicates_from_unseen (p :: seen))].
    intros x Hx. simpl in Hx. apply orb_false_iff in Hx. tauto.
Qed.

Lemma drop_duplicates_from_covers (seen rows : list Product) (p : Product) :
  In p rows ->
  (exists s, In s seen /\ same_vendor p s = true)
  \/ (exists p', In p' (drop_duplicates_from seen rows) /\ same_vendor p p' = true).
Proof.
  revert seen. induction rows as [|x rows IH]; intros seen Hp; [destruct Hp|].
  simpl. destruct (existsb (same_vendor x) seen) eqn:E.
  - destruct Hp as [<- | Hp]; [|apply IH; exact Hp].
    left. apply existsb_exists in E. exact E.
  - destruct Hp as [<- | Hp].
    + right. exists x. split; [left; reflexivity | apply same_vendor_refl].
    + destruct (IH (x :: seen) Hp) as [(s & [<- | Hs] & Heq) | (p' & Hp' & Heq)].
      * right. exists x. split; [left; reflexivity | exact Heq].
      * left. eauto.
      * right. exists p'. split; [right; exact Hp' | exact Heq].
Qed.

Lemma ForallOrdPairs_impl_in {A : Type} (R S : A -> A -> Prop) (l : list A) :
  ForallOrdPairs R l ->
  (forall a b, In a l -> In b l -> R a b -> S a b) ->
  ForallOrdPairs S l.
Proof.
  induction 1 as [|a l Ha _ IH]; intro Himp; constructor.
  - rewrite Forall_forall in *. intros b Hb.
    apply Himp; [left; reflexivity | right; exact Hb | apply Ha; exact Hb].
  - apply IH. intros x y Hx Hy. apply Himp; right; assumption.
Qed.

Lemma ForallOrdPairs_map {A B : Type} (f : A -> B) (R : B -> B -> Prop)
    (l : list A) :
  ForallOrdPairs (fun a b => R (f a) (f b)) l -> ForallOrdPairs R (map f l).
Proof.
  induction 1 as [|a l Ha _ IH]; simpl; constructor; [|exact IH].
  apply Forall_map. exact Ha.
Qed.

(** Two rows give the same record only if [drop_duplicates] sees them as
    equal, or if one has no rating and the other is rated [0]. *)
Lemma same_record_cases (a b : Product) :
  same_record (to_record b) (to_record a) = true ->
  same_vendor b a = true \/ nan_and_zero a b \/ nan_and_zero b a.
Proof.
  unfold same_record, same_vendor, nan_and_zero. simpl. intro H.
  apply andb_true_iff in H. destruct H as [H Hc].
  apply andb_true_iff in H. destruct H as [H Hr]. rewrite H. simpl.
  assert (Hcat : category_eqb (main_category b) (main_category a) = true).
  { destruct (main_category b), (main_category a); simpl in *;
      first [exact Hc | reflexivity | discriminate]. }
  rewrite Hcat, andb_true_r. clear H Hc Hcat.
  destruct (rating a) as [x| |s], (rating b) as [y| |t]; simpl in *;
    try discriminate.
  - left. exact Hr.
  - right. right. split; [reflexivity|]. exists x. split; [reflexivity|].
    apply Qeq_bool_iff in Hr. symmetry. exact Hr.
  - right. left. split; [reflexivity|]. exists y. split; [reflexivity|].
    apply Qeq_bool_iff in Hr. exact Hr.
  - left. reflexivity.
  - left. exact Hr.
Qed.

Section Listing.

Variable re_compile_ci : string -> option (string -> bool).

(** X25.  The records of [GET /vendors] come from rows of the product
    table that pairwise differ in product name, seller, rating or
    category, and [total_vendors] is their number.  Two of the records
    hold the same values only where one row has no rating and the other is
    rated [0]; when no row of the table lacks its rating, the records are
    pairwise different.  Without a category (absent or empty) every row of
    the table is represented; with one, only rows whose category the
    pattern matches are listed -- ["all"] included, which is an ordinary
    pattern here. *)
Theorem vendor_listing_distinct_rows :
  forall (data : list Product) (category : option string)
         (records : list VendorRecord) (total : nat),
    get_vendors_by_category re_compile_ci (Some data) category
      = Some (records, total) ->
    exists kept,
      records = map to_record kept
      /\ total = List.length records
      /\ incl kept data
      /\ ForallOrdPairs (fun a b => same_vendor b a = false) kept
      /\ ForallOrdPairs
           (fun a b => same_record (to_record b) (to_record a) = true ->
                       nan_and_zero a b \/ nan_and_zero b a) kept
      /\ (Forall (fun p => rating p <> RNaN) data ->
          ForallOrdPairs (fun a b => same_record b a = false) records)
      /\ (category = None \/ category = Some ""%string ->
          forall p, In p data ->
                    exists p', In p' kept /\ same_vendor p p' = true)
      /\ (forall c search,
             category = Some c -> c <> ""%string ->
             re_compile_ci c = Some search ->
             Forall (fun p => exists m, main_category p = Some m /\ search m = true)
                    kept).
Proof.
  intros data category records total H.
  unfold get_vendors_by_category in H.
  assert (Hrows : exists rows,
             Some (map to_record (drop_duplicates rows),
                   List.length (drop_duplicates rows)) = Some (records, total)
             /\ incl rows data
             /\ (category = None \/ category = Some ""%string -> rows = data)
             /\ (forall c search,
                    category = Some c -> c <> ""%string ->
                    re_compile_ci c = Some search ->
                    Forall (fun p => exists m, main_category p = Some m
                                               /\ search m = true) rows)).
  { destruct category as [c|].
    - destruct (String.eqb_spec c "") as [->|Hne]; simpl in H.
      + exists data. split; [exact H|]. split; [apply incl_refl|].
        split; [reflexivity|]. intros c search Hc Hne. inversion Hc; subst. congruence.
      + destruct (re_compile_ci c) as [search|] eqn:Ere; [|discriminate].
        eexists. split; [exact H|]. split; [apply incl_filter|]. split.
        * intros [Hc | Hc]; [discriminate | inversion Hc; congruence].
        * intros c' search' Hc _ Hre'. inversion Hc; subst c'.
          rewrite Ere in Hre'. inversion Hre'; subst search'.
          apply Forall_forall. intros p Hp. apply filter_In in Hp.
          destruct Hp as [_ Hp]. destruct (main_category p) as [m|]; [|discriminate].
          eauto.
    - exists data. split; [exact H|]. split; [apply incl_refl|].
      split; [reflexivity|]. intros c search Hc. discriminate. }
  destruct Hrows as (rows & Heq & Hincl & Hall & Hflt).
  inversion Heq; subst records total. clear Heq H.
  assert (Hkept : incl (drop_duplicates rows) data).
  { intros x Hx. apply Hincl. exact (drop_duplicates_from_incl [] rows x Hx). }
  pose proof (drop_duplicates_from_distinct [] rows) as Hdist.
  fold (drop_duplicates rows) in Hdist.
  exists (drop_duplicates rows).
  split; [reflexivity|]. split; [symmetry; apply length_map|].
  split; [exact Hkept|]. split; [exact Hdist|].
  split; [|split; [|split]].
  - apply (ForallOrdPairs_impl_in _ _ _ Hdist). intros a b _ _ Hab Hrec.
    destruct (same_record_cases a b Hrec) as [Hv | Hnz]; [congruence | exact Hnz].
  - intro Hrated. apply ForallOrdPairs_map.
    apply (ForallOrdPairs_impl_in _ _ _ Hdist). intros a b Ha Hb Hab.
    rewrite Forall_forall in Hrated.
    destruct (same_record (to_record b) (to_record a)) eqn:Hrec; [|reflexivity].
    destruct (same_record_cases a b Hrec) as [Hv | [[Hn _] | [Hn _]]].
    + congruence.
    + destruct (Hrated a (Hkept a Ha) Hn).
    + destruct (Hrated b (Hkept b Hb) Hn).
  - intros Hcat p Hp. rewrite <- (Hall Hcat) in Hp.
    destruct (drop_duplicates_from_covers [] rows p Hp) as [(s & [] & _) | Hex].
    exact Hex.
  - intros c search Hc Hne Hre.
    pose proof (Hflt c search Hc Hne Hre) as Hf.
    rewrite Forall_forall in *. intros p Hp. apply Hf.
    exact (drop_duplicates_from_incl [] rows p Hp).
Qed.

End Listing.

Lemma vendor_listing_distinct_rows_witness :
  exists records total,
    get_vendors_by_category Sample.literal_compile
      (Some (Sample.crm :: Sample.catalog)) None = Some (records, total)
    /\ total = 2%nat
    /\ total = List.length records.
Proof.
  eexists. eexists. split; [reflexivity|]. split; [reflexivity|].
  destruct (vendor_listing_distinct_rows Sample.literal_compile
              (Sample.crm :: Sample.catalog) None _ _ eq_refl)
    as (kept & _ & Hlen & _).
  exact Hlen.
Defined.

(** A vendor can be listed twice: a row without a rating and a row rated
    [0.0] are different rows for [drop_duplicates], and [fillna(0)] then
    gives them the same record. *)
Example listing_fillna_repeats_a_record :
  get_vendors_by_category Sample.literal_compile
    (Some [mkProduct "A" "S" (Some "C") RNaN CellMissing;
           mkProduct "A" "S" (Some "C") (RNum 0) CellMissing]) None
  = Some ([mkVendorRecord "A" "S" (RNum 0) (PStr "C");
           mkVendorRecord "A" "S" (RNum 0) (PStr "C")], 2%nat).
Proof. reflexivity. Qed.

(** The listing knows no ["all"] shortcut: the word is searched for like
    any other category. *)
Example listing_category_all :
  get_vendors_by_category Sample.literal_compile (Some Sample.catalog) (Some "all"%string)
  = Some ([], 0%nat).
Proof. reflexivity. Qed.

End ListingExtra.
